(** * Amadeus Pocket: the GitHub change-propagation workflow

    A shallow embedding of [amadeus/github/workflow.py] (class
    [GitHubWorkflow]) and of [amadeus/github/client.py] (class
    [GitHubClient]), followed by the properties of the pipeline and of the
    client.

    Modelling conventions.
    - A Python [str] is a [string], one [ascii] per character; the
      character-class functions ([str.lower], [str.strip], the regular
      expressions) are those of Python on ASCII text.
    - A value decoded from JSON, or held in a dynamically typed field, is a
      [pyval]; JSON numbers are integers.
    - An exception is a value [exn] (class and [str(e)]); a call that can
      raise returns an [outcome].  The exceptions are those of class
      [Exception], which [except Exception] catches.  The cancellation
      of the task, which raises [CancelledError] past every handler, is
      modelled apart, by [cancelled_at].
    - Everything outside the process (the GitHub REST API behind
      [GitHubClient._request], the provider's streamed HTTP response, the
      clock, the random source) is a [World] that answers each call from the
      history of the run; the two callbacks [on_progress] and [on_stream]
      are arguments, as in the source.  Every interaction is appended to a
      trace.
    - [json.loads], [repr] of containers and base64 are library functions,
      collected in [PyLib].  Logging has no effect on results and is left
      out. *)

From Stdlib Require Import String Ascii List ZArith Bool Arith Lia DecimalString.
Import ListNotations.

Set Warnings "-register-all".
Open Scope string_scope.
Open Scope list_scope.

Notation "s1 +++ s2" := (String.append s1 s2)
  (at level 60, right associativity).

(* ================================================================== *)
(** * Part I: definitions *)
(* ================================================================== *)

(** ** Strings *)

Module Str.

Definition chr (n : nat) : string := String (ascii_of_nat n) EmptyString.

(** The double quote and the line feed. *)
Definition dq : string := chr 34.
Definition nl : string := chr 10.
Definition dq_char : ascii := ascii_of_nat 34.
Definition nl_char : ascii := ascii_of_nat 10.

(** [s[n:]] *)
Fixpoint drop (n : nat) (s : string) : string :=
  match n, s with
  | O, _ => s
  | S n', String _ s' => drop n' s'
  | S _, EmptyString => EmptyString
  end.

(** [s[:n]] *)
Fixpoint take (n : nat) (s : string) : string :=
  match n, s with
  | O, _ => EmptyString
  | S n', String c s' => String c (take n' s')
  | S _, EmptyString => EmptyString
  end.

(** [s.startswith(p)] *)
Definition startswith (p s : string) : bool := String.prefix p s.

(** [sub in s] *)
Fixpoint contains (sub s : string) : bool :=
  String.prefix sub s ||
  match s with
  | EmptyString => false
  | String _ s' => contains sub s'
  end.

(** [str.isspace] on one ASCII character: tab, LF, VT, FF, CR, the four
    separators 0x1c-0x1f and the space. *)
Definition is_space (c : ascii) : bool :=
  let n := nat_of_ascii c in
  (((9 <=? n) && (n <=? 13)) || ((28 <=? n) && (n <=? 32)))%nat.

Definition is_lower (c : ascii) : bool :=
  let n := nat_of_ascii c in ((97 <=? n) && (n <=? 122))%nat.

Definition is_upper (c : ascii) : bool :=
  let n := nat_of_ascii c in ((65 <=? n) && (n <=? 90))%nat.

Definition is_digit (c : ascii) : bool :=
  let n := nat_of_ascii c in ((48 <=? n) && (n <=? 57))%nat.

(** The class [\w] on ASCII. *)
Definition is_word (c : ascii) : bool :=
  is_lower c || is_upper c || is_digit c || Ascii.eqb c "_"%char.

Definition lower_char (c : ascii) : ascii :=
  if is_upper c then ascii_of_nat (nat_of_ascii c + 32) else c.

(** [s.lower()] *)
Fixpoint lower (s : string) : string :=
  match s with
  | EmptyString => EmptyString
  | String c s' => String (lower_char c) (lower s')
  end.

Fixpoint lstrip (s : string) : string :=
  match s with
  | EmptyString => EmptyString
  | String c s' => if is_space c then lstrip s' else s
  end.

Fixpoint rev_onto (s acc : string) : string :=
  match s with
  | EmptyString => acc
  | String c s' => rev_onto s' (String c acc)
  end.

Definition rev (s : string) : string := rev_onto s EmptyString.

Definition rstrip (s : string) : string := rev (lstrip (rev s)).

(** [s.strip()] *)
Definition strip (s : string) : string := rstrip (lstrip s).

(** [s.split(sep)] for a separator of one character: the pieces between
    the occurrences of [sep]; never the empty list. *)
Fixpoint split (sep : ascii) (s : string) : list string :=
  match s with
  | EmptyString => [EmptyString]
  | String c s' =>
      if Ascii.eqb c sep then EmptyString :: split sep s'
      else match split sep s' with
           | [] => [String c EmptyString]
           | w :: ws => String c w :: ws
           end
  end.

(** [sep.join(l)] *)
Definition join (sep : string) (l : list string) : string := String.concat sep l.

(** [str(n)] for an integer. *)
Definition of_Z (n : Z) : string := NilZero.string_of_int (Z.to_int n).
Definition of_nat (n : nat) : string := of_Z (Z.of_nat n).

End Str.

(** ** Python values and exceptions *)

Inductive pyval : Type :=
| PNone
| PBool (b : bool)
| PInt (n : Z)
| PStr (s : string)
| PList (items : list pyval)
| PDict (fields : list (string * pyval)).

Inductive exn_class : Type :=
| ValueError | JSONDecodeError | AttributeError | KeyError | TypeError
| TransportError | OtherError.

(** An exception: its class and [str(e)]. *)
Record exn : Type := mk_exn { exn_cls : exn_class; exn_msg : string }.

Inductive outcome (A : Type) : Type :=
| Ok (a : A)
| Raise (e : exn).
Arguments Ok {A} a.
Arguments Raise {A} e.

Definition obind {A B : Type} (o : outcome A) (k : A -> outcome B) : outcome B :=
  match o with
  | Ok a => k a
  | Raise e => Raise e
  end.

Notation "x <-? o ;; k" := (obind o (fun x => k))
  (at level 61, o at next level, right associativity).

(** A list comprehension whose body can raise. *)
Fixpoint omap {A B : Type} (f : A -> outcome B) (l : list A) : outcome (list B) :=
  match l with
  | [] => Ok []
  | x :: l' =>
      y <-? f x ;;
      ys <-? omap f l' ;;
      Ok (y :: ys)
  end.

Module Py.

(** [bool(v)] *)
Definition truthy (v : pyval) : bool :=
  match v with
  | PNone => false
  | PBool b => b
  | PInt n => negb (n =? 0)%Z
  | PStr s => negb (s =? EmptyString)%string
  | PList l => match l with [] => false | _ :: _ => true end
  | PDict d => match d with [] => false | _ :: _ => true end
  end.

Definition type_name (v : pyval) : string :=
  match v with
  | PNone => "NoneType"
  | PBool _ => "bool"
  | PInt _ => "int"
  | PStr _ => "str"
  | PList _ => "list"
  | PDict _ => "dict"
  end.

Definition is_dict (v : pyval) : bool :=
  match v with PDict _ => true | _ => false end.

Definition is_list (v : pyval) : bool :=
  match v with PList _ => true | _ => false end.

(** [v == s] for a [str] literal [s]. *)
Definition eq_str (v : pyval) (s : string) : bool :=
  match v with PStr t => (t =? s)%string | _ => false end.

Fixpoint assoc (k : string) (d : list (string * pyval)) : option pyval :=
  match d with
  | [] => None
  | (k', v) :: d' => if (k' =? k)%string then Some v else assoc k d'
  end.

Definition no_attribute (v : pyval) (a : string) : exn :=
  mk_exn AttributeError
    ("'" +++ type_name v +++ "' object has no attribute '" +++ a +++ "'").

(** [v.get(k, dflt)] *)
Definition get (v : pyval) (k : string) (dflt : pyval) : outcome pyval :=
  match v with
  | PDict d => Ok (match assoc k d with Some x => x | None => dflt end)
  | _ => Raise (no_attribute v "get")
  end.

(** [v[k]] for a [str] key [k]. *)
Definition getitem (v : pyval) (k : string) : outcome pyval :=
  match v with
  | PDict d =>
      match assoc k d with
      | Some x => Ok x
      | None => Raise (mk_exn KeyError ("'" +++ k +++ "'"))
      end
  | PList _ =>
      Raise (mk_exn TypeError "list indices must be integers or slices, not str")
  | PStr _ =>
      Raise (mk_exn TypeError "string indices must be integers, not 'str'")
  | _ =>
      Raise (mk_exn TypeError ("'" +++ type_name v +++ "' object is not subscriptable"))
  end.

(** [v[0]] *)
Definition first (v : pyval) : outcome pyval :=
  match v with
  | PList (x :: _) => Ok x
  | PList [] => Raise (mk_exn OtherError "list index out of range")
  | PStr (String c _) => Ok (PStr (String c EmptyString))
  | PStr EmptyString => Raise (mk_exn OtherError "string index out of range")
  | PDict _ => Raise (mk_exn KeyError "0")
  | _ =>
      Raise (mk_exn TypeError ("'" +++ type_name v +++ "' object is not subscriptable"))
  end.

(** [k in v] for a [str] literal [k]. *)
Definition contains (k : string) (v : pyval) : outcome bool :=
  match v with
  | PDict d => Ok (match assoc k d with Some _ => true | None => false end)
  | PList l => Ok (existsb (fun x => eq_str x k) l)
  | PStr s => Ok (Str.contains k s)
  | _ =>
      Raise (mk_exn TypeError
               ("argument of type '" +++ type_name v +++ "' is not iterable"))
  end.

End Py.

(** ** The data classes of [workflow.py], [client.py] and [db/models.py] *)

(** [WorkflowProgress] *)
Record WorkflowProgress : Type := mk_progress {
  step : string;
  progress_message : string;
  percentage : Z;
  details : option string
}.

(** [FileChange].  The fields are filled from decoded JSON without a type
    check, so they hold arbitrary values. *)
Record FileChange : Type := mk_change {
  path : pyval;
  content : pyval;
  action : pyval
}.

(** [WorkflowResult].  [None] is [PNone] in the fields that hold decoded
    JSON. *)
Record WorkflowResult : Type := mk_result {
  success : bool;
  message : string;
  commit_sha : pyval;
  commit_url : option string;
  pr_url : pyval;
  branch : option string;
  changed_files : option (list pyval);
  error : option string;
  summary : pyval;
  next_steps : pyval
}.

(** [StreamingUpdate]: [status] is one of thinking, writing_file, done. *)
Record StreamingUpdate : Type := mk_update {
  status : string;
  current_file : option string;
  files_so_far : option (list string);
  partial_text : option string
}.

(** [Repository] *)
Record Repository : Type := mk_repository {
  repo_id : pyval;
  repo_name : pyval;
  repo_full_name : pyval;
  repo_description : pyval;
  repo_private : pyval;
  default_branch : pyval;
  repo_clone_url : pyval;
  repo_ssh_url : pyval;
  repo_html_url : pyval
}.

(** [Commit] *)
Record Commit : Type := mk_commit {
  sha : pyval;
  commit_message : pyval;
  commit_html_url : pyval
}.

(** The fields of [User] the workflow reads. *)
Record GitHubConnection : Type := mk_github {
  access_token : option string;
  selected_repo : option string
}.

Record UserAPIKeys : Type := mk_api_keys {
  openai_key : option string;
  anthropic_key : option string
}.

Record UserSettings : Type := mk_settings {
  default_model : option string
}.

Record User : Type := mk_user {
  api_keys : UserAPIKeys;
  settings : UserSettings;
  github : GitHubConnection
}.

(** [GitHubConnection.is_connected] *)
Definition is_connected (g : GitHubConnection) : bool :=
  match access_token g with Some _ => true | None => false end.

(** Truth value of an optional string ([None] and the empty string are
    false) and of an optional integer. *)
Definition truthy_str (o : option string) : bool :=
  match o with Some s => negb (s =? EmptyString)%string | None => false end.

Definition truthy_int (o : option Z) : bool :=
  match o with Some n => negb (n =? 0)%Z | None => false end.

(** The string, respectively the integer, of an optional value that has
    been tested true. *)
Definition key_of (o : option string) : string :=
  match o with Some k => k | None => EmptyString end.

Definition int_of (o : option Z) : Z :=
  match o with Some n => n | None => 0%Z end.

(** ** The world, the trace and the monad of a run *)

(** The method of [GitHubClient] that issues a request, with the branch or
    the path it is called on. *)
Inductive api : Type :=
| ApiGetRepo
| ApiGetBranchSha
| ApiCreateBranch (branch_name : string)
| ApiGetTree
| ApiGetFileContent (path_ : pyval)
| ApiCreateOrUpdateFile (path_ : pyval)
| ApiCreatePullRequest.

(** A streamed HTTP response: the status code, the lines that
    [aiter_lines] yields and, when the transport fails, the exception it
    raises after them. *)
Record stream_response : Type := mk_stream {
  status_code : Z;
  lines : list string;
  broken : option exn
}.

Inductive event : Type :=
| EvRequest (via : api) (method endpoint : string) (args : pyval)
            (resp : outcome (Z * pyval))
| EvOpenStream (url : string) (timeout : Z) (payload : pyval)
               (resp : outcome stream_response)
| EvProgress (p : WorkflowProgress)
| EvStream (u : StreamingUpdate).

Definition trace : Type := list event.

Record World : Type := mk_world {
  (** [httpx] behind [GitHubClient._request]: bearer token, method,
      endpoint, arguments; answers the status code and the decoded body
      ([PNone] when the body is not JSON). *)
  request : trace -> string -> string -> string -> pyval -> outcome (Z * pyval);
  (** [httpx.AsyncClient.stream]: URL, API key, JSON payload. *)
  open_stream : trace -> string -> string -> pyval -> outcome stream_response;
  (** [datetime.utcnow().strftime(fmt)] *)
  utcnow_strftime : trace -> string -> string;
  (** [secrets.token_hex(n)] *)
  token_hex : trace -> nat -> string
}.

(** A callback: [on_progress] or [on_stream]. *)
Definition callback (A : Type) : Type := trace -> A -> outcome unit.

Record PyLib : Type := mk_lib {
  (** [json.loads] on a text for which it returns a value or raises
      [json.JSONDecodeError], which is [None]; the texts on which it
      raises another exception (an integer literal over the digit limit,
      a nesting too deep) are outside the model. *)
  json_loads : string -> option pyval;
  (** [repr] of a list or a dict, as an f-string prints it. *)
  py_repr : pyval -> string;
  (** [base64.b64encode(s.encode()).decode()] *)
  b64encode : string -> string;
  (** [base64.b64decode(v).decode] as UTF-8 *)
  b64decode_utf8 : pyval -> outcome string
}.

(** A computation reads the trace so far and returns the extended trace
    with a value or an exception. *)
Definition M (A : Type) : Type := trace -> trace * outcome A.

Definition ret {A : Type} (a : A) : M A := fun tr => (tr, Ok a).

Definition raise {A : Type} (e : exn) : M A := fun tr => (tr, Raise e).

Definition lift {A : Type} (o : outcome A) : M A := fun tr => (tr, o).

Definition bind {A B : Type} (c : M A) (k : A -> M B) : M B :=
  fun tr =>
    match c tr with
    | (tr', Ok a) => k a tr'
    | (tr', Raise e) => (tr', Raise e)
    end.

(** [try: c  except Exception as e: h e] *)
Definition try_except {A : Type} (c : M A) (h : exn -> M A) : M A :=
  fun tr =>
    match c tr with
    | (tr', Ok a) => (tr', Ok a)
    | (tr', Raise e) => h e tr'
    end.

Definition emit (e : event) : M unit := fun tr => (tr ++ [e], Ok tt).

Notation "x <- c ;; k" := (bind c (fun x => k))
  (at level 61, c at next level, right associativity).
Notation "c ;;; k" := (bind c (fun _ => k))
  (at level 61, right associativity).

(** ** [GitHubClient] *)

Section Client.

Variable L : PyLib.
Variable W : World.
(** [self.access_token] *)
Variable token : string.

(** An f-string field [{v}]. *)
Definition fmt (v : pyval) : string :=
  match v with
  | PNone => "None"
  | PBool true => "True"
  | PBool false => "False"
  | PInt n => Str.of_Z n
  | PStr s => s
  | _ => py_repr L v
  end.

(** [GitHubClient._request]; [args] is the [json=] or [params=] argument,
    [PNone] without one. *)
Definition _request (via : api) (method endpoint : string) (args : pyval)
  : M (Z * pyval) :=
  fun tr =>
    let r := request W tr token method endpoint args in
    (tr ++ [EvRequest via method endpoint args r], r).

(** [status != 200 or not data] *)
Definition not_200_or_empty (status : Z) (data : pyval) : bool :=
  negb (status =? 200)%Z || negb (Py.truthy data).

Definition get_repo (owner repo : string) : M (option Repository) :=
  r <- _request ApiGetRepo "GET" ("/repos/" +++ owner +++ "/" +++ repo) PNone ;;
  let (status, data) := r in
  if not_200_or_empty status data then ret None
  else
    v_id <- lift (Py.getitem data "id") ;;
    v_name <- lift (Py.getitem data "name") ;;
    v_full_name <- lift (Py.getitem data "full_name") ;;
    v_description <- lift (Py.get data "description" PNone) ;;
    v_private <- lift (Py.getitem data "private") ;;
    v_default_branch <- lift (Py.get data "default_branch" (PStr "main")) ;;
    v_clone_url <- lift (Py.getitem data "clone_url") ;;
    v_ssh_url <- lift (Py.getitem data "ssh_url") ;;
    v_html_url <- lift (Py.getitem data "html_url") ;;
    ret (Some (mk_repository v_id v_name v_full_name v_description v_private
                 v_default_branch v_clone_url v_ssh_url v_html_url)).

Definition create_branch (owner repo branch_name : string) (from_sha : pyval)
  : M bool :=
  r <- _request (ApiCreateBranch branch_name) "POST"
         ("/repos/" +++ owner +++ "/" +++ repo +++ "/git/refs")
         (PDict [("ref", PStr ("refs/heads/" +++ branch_name));
                 ("sha", from_sha)]) ;;
  ret (fst r =? 201)%Z.

Definition get_branch_sha (owner repo : string) (branch_ : pyval) : M pyval :=
  r <- _request ApiGetBranchSha "GET"
         ("/repos/" +++ owner +++ "/" +++ repo +++ "/git/ref/heads/" +++ fmt branch_)
         PNone ;;
  let (status, data) := r in
  if not_200_or_empty status data then ret PNone
  else
    obj <- lift (Py.get data "object" (PDict [])) ;;
    lift (Py.get obj "sha" PNone).

Definition get_file_content (owner repo : string) (path_ : pyval)
  (ref : option string) : M (pyval * pyval) :=
  let params :=
    if truthy_str ref then PDict [("ref", PStr (key_of ref))] else PDict [] in
  r <- _request (ApiGetFileContent path_) "GET"
         ("/repos/" +++ owner +++ "/" +++ repo +++ "/contents/" +++ fmt path_)
         params ;;
  let (status, data) := r in
  if not_200_or_empty status data then ret (PNone, PNone)
  else
    b64 <- lift (Py.get data "content" (PStr EmptyString)) ;;
    text <- lift (b64decode_utf8 L b64) ;;
    v_sha <- lift (Py.get data "sha" PNone) ;;
    ret (PStr text, v_sha).

(** The JSON payload of the write call: the key [sha] is present exactly
    when the argument [sha] is true. *)
Definition write_payload (message_ encoded branch_ : string) (sha_ : pyval)
  : pyval :=
  PDict ([("message", PStr message_);
          ("content", PStr encoded);
          ("branch", PStr branch_)]
         ++ (if Py.truthy sha_ then [("sha", sha_)] else [])).

Definition create_or_update_file (owner repo : string) (path_ content_ : pyval)
  (message_ branch_ : string) (sha_ : pyval) : M (option Commit) :=
  encoded <- lift (match content_ with
                   | PStr s => Ok (b64encode L s)
                   | _ => Raise (Py.no_attribute content_ "encode")
                   end) ;;
  r <- _request (ApiCreateOrUpdateFile path_) "PUT"
         ("/repos/" +++ owner +++ "/" +++ repo +++ "/contents/" +++ fmt path_)
         (write_payload message_ encoded branch_ sha_) ;;
  let (status, data) := r in
  if negb ((status =? 200)%Z || (status =? 201)%Z) || negb (Py.truthy data)
  then ret None
  else
    commit_data <- lift (Py.get data "commit" (PDict [])) ;;
    v_sha <- lift (Py.get commit_data "sha" (PStr EmptyString)) ;;
    v_message <- lift (Py.get commit_data "message" (PStr message_)) ;;
    v_html_url <- lift (Py.get commit_data "html_url" (PStr EmptyString)) ;;
    ret (Some (mk_commit v_sha v_message v_html_url)).

Definition create_pull_request (owner repo title body head : string)
  (base : pyval) : M pyval :=
  r <- _request ApiCreatePullRequest "POST"
         ("/repos/" +++ owner +++ "/" +++ repo +++ "/pulls")
         (PDict [("title", PStr title); ("body", PStr body);
                 ("head", PStr head); ("base", base)]) ;;
  let (status, data) := r in
  ret (if (status =? 201)%Z then data else PNone).

Definition get_tree (owner repo : string) (ref : pyval) : M pyval :=
  r <- _request ApiGetTree "GET"
         ("/repos/" +++ owner +++ "/" +++ repo +++ "/git/ref/heads/" +++ fmt ref)
         PNone ;;
  let (status, data) := r in
  if not_200_or_empty status data then ret PNone
  else
    obj <- lift (Py.get data "object" (PDict [])) ;;
    tree_sha <- lift (Py.get obj "sha" PNone) ;;
    if negb (Py.truthy tree_sha) then ret PNone
    else
      r2 <- _request ApiGetTree "GET"
              ("/repos/" +++ owner +++ "/" +++ repo +++ "/git/trees/" +++ fmt tree_sha)
              (PDict [("recursive", PStr "1")]) ;;
      let (status2, data2) := r2 in
      if not_200_or_empty status2 data2 then ret PNone
      else lift (Py.get data2 "tree" (PList [])).

End Client.

(** ** The three regular expressions of [workflow.py] *)

Module Re.

Fixpoint strip_prefix (p s : string) : option string :=
  match p with
  | EmptyString => Some s
  | String a p' =>
      match s with
      | EmptyString => None
      | String b s' => if Ascii.eqb a b then strip_prefix p' s' else None
      end
  end.

(** The longest prefix of [s] whose characters satisfy [p], and the rest. *)
Fixpoint span (p : ascii -> bool) (s : string) : string * string :=
  match s with
  | EmptyString => (EmptyString, EmptyString)
  | String c s' =>
      if p c then let (g, r) := span p s' in (String c g, r)
      else (EmptyString, s)
  end.

Fixpoint all_chars (p : ascii -> bool) (s : string) : bool :=
  match s with
  | EmptyString => true
  | String c s' => p c && all_chars p s'
  end.

Definition not_dq (c : ascii) : bool := negb (Ascii.eqb c Str.dq_char).

(** A match of the path marker at the start of [s]: the group and the text
    after the match.  Writing Q for the double quote, the pattern is
    [QpathQ\s*:\s*Q([^Q]+)Q].  [\s*] and [[^Q]+] are greedy, and no shorter
    choice can match, since what follows each cannot start with a character
    of the class. *)
Definition match_path (s : string) : option (string * string) :=
  match strip_prefix (Str.dq +++ "path" +++ Str.dq) s with
  | None => None
  | Some r1 =>
      match Str.lstrip r1 with
      | String c r2 =>
          if Ascii.eqb c ":"%char then
            match Str.lstrip r2 with
            | String q r3 =>
                if Ascii.eqb q Str.dq_char then
                  match span not_dq r3 with
                  | (String g0 g, String _ r4) => Some (String g0 g, r4)
                  | _ => None
                  end
                else None
            | EmptyString => None
            end
          else None
      | EmptyString => None
      end
  end.

Fixpoint findall_path_from (fuel : nat) (s : string) : list string :=
  match fuel with
  | O => []
  | S fuel' =>
      match s with
      | EmptyString => []
      | String _ s' =>
          match match_path s with
          | Some (g, rest) => g :: findall_path_from fuel' rest
          | None => findall_path_from fuel' s'
          end
      end
  end.

(** [re.findall] of the path marker in [s]: the groups of the
    non-overlapping matches, left to right.  Every step consumes a
    character, so the length of [s] is fuel enough. *)
Definition findall_path (s : string) : list string :=
  findall_path_from (String.length s) s.

(** The class [[a-zA-Z0-9_\-\.]]. *)
Definition is_filename_char (c : ascii) : bool :=
  Str.is_lower c || Str.is_upper c || Str.is_digit c
  || Ascii.eqb c "_"%char || Ascii.eqb c "-"%char || Ascii.eqb c "."%char.

Definition is_quote (c : ascii) : bool :=
  Ascii.eqb c Str.dq_char || Ascii.eqb c "'"%char.

(** [\s+]: at least one space, then greedy. *)
Definition spaces1 (s : string) : option string :=
  match s with
  | String c _ => if Str.is_space c then Some (Str.lstrip s) else None
  | EmptyString => None
  end.

(** An optional quote (single or double), then [([a-zA-Z0-9_\-\.]+)]: the
    group. *)
Definition quoted_name (s : string) : option string :=
  let s' := match s with
            | String c r => if is_quote c then r else s
            | EmptyString => s
            end in
  match span is_filename_char s' with
  | (String g0 g, _) => Some (String g0 g)
  | _ => None
  end.

(** [(?:named?\s+)] followed by the name. *)
Definition named_then_name (s : string) : option string :=
  match strip_prefix "name" s with
  | None => None
  | Some r =>
      let r' := match r with
                | String c t => if Ascii.eqb c "d"%char then t else r
                | EmptyString => r
                end in
      match spaces1 r' with
      | Some t => quoted_name t
      | None => None
      end
  end.

(** A match of the file-name pattern at the start of [s]: group 1.  The
    pattern is [(?:file|create|add)\s+(?:named?\s+)?] followed by an optional
    quote, the group [([a-zA-Z0-9_\-\.]+)] and an optional quote.  The
    optional [named?\s+] is tried first and given up when the rest does not
    match. *)
Definition match_filename (s : string) : option string :=
  let after_verb :=
    match strip_prefix "file" s with
    | Some r => Some r
    | None =>
        match strip_prefix "create" s with
        | Some r => Some r
        | None => strip_prefix "add" s
        end
    end in
  match after_verb with
  | None => None
  | Some r =>
      match spaces1 r with
      | None => None
      | Some t =>
          match named_then_name t with
          | Some g => Some g
          | None => quoted_name t
          end
      end
  end.

(** [re.search(...)]: the leftmost match; [group(1)]. *)
Fixpoint search_filename (s : string) : option string :=
  match match_filename s with
  | Some g => Some g
  | None =>
      match s with
      | EmptyString => None
      | String _ s' => search_filename s'
      end
  end.

Fixpoint findall_words_from (fuel : nat) (s : string) : list string :=
  match fuel with
  | O => []
  | S fuel' =>
      match s with
      | EmptyString => []
      | String c s' =>
          if Str.is_word c then
            let (run, rest) := span Str.is_word s in
            if all_chars Str.is_lower run
            then run :: findall_words_from fuel' rest
            else findall_words_from fuel' rest
          else findall_words_from fuel' s'
      end
  end.

(** [re.findall(r'\b[a-z]+\b', s)]: a match starts and ends at a word
    boundary, so the matches are the maximal runs of word characters that
    consist of the letters a-z only. *)
Definition findall_words (s : string) : list string :=
  findall_words_from (String.length s) s.

End Re.

(** ** [GitHubWorkflow]: parsing and the helpers without effects *)

Definition ANTHROPIC_API_URL : string := "https://api.anthropic.com/v1/messages".
Definition OPENAI_API_URL : string := "https://api.openai.com/v1/chat/completions".

(** The system prompt of [_generate_ai_changes]. *)
Definition system_prompt : string :=
  Str.join Str.nl
    ["You are an expert coding assistant. You will be given a repository context and a user request.";
     EmptyString;
     "Your task is to generate file changes to fulfill the user's request.";
     EmptyString;
     "IMPORTANT: You MUST respond with ONLY a valid JSON object (not an array). No explanations, no markdown.";
     EmptyString;
     "The JSON object must have this structure:";
     "{";
     "  " +++ Str.dq +++ "summary" +++ Str.dq +++ ": " +++ Str.dq +++ "Brief explanation of what you did (1-2 sentences)" +++ Str.dq +++ ",";
     "  " +++ Str.dq +++ "next_steps" +++ Str.dq +++ ": [" +++ Str.dq +++ "Step 1 the user should do next" +++ Str.dq +++ ", " +++ Str.dq +++ "Step 2" +++ Str.dq +++ ", ...],";
     "  " +++ Str.dq +++ "files" +++ Str.dq +++ ": [";
     "    {" +++ Str.dq +++ "path" +++ Str.dq +++ ": " +++ Str.dq +++ "src/main.py" +++ Str.dq +++ ", " +++ Str.dq +++ "content" +++ Str.dq +++ ": " +++ Str.dq +++ "file content here" +++ Str.dq +++ ", " +++ Str.dq +++ "action" +++ Str.dq +++ ": " +++ Str.dq +++ "create" +++ Str.dq +++ "}";
     "  ]";
     "}";
     EmptyString;
     "Rules for files array:";
     "- " +++ Str.dq +++ "path" +++ Str.dq +++ ": the file path (e.g., " +++ Str.dq +++ "src/main.py" +++ Str.dq +++ ")";
     "- " +++ Str.dq +++ "content" +++ Str.dq +++ ": the complete file content";
     "- " +++ Str.dq +++ "action" +++ Str.dq +++ ": either " +++ Str.dq +++ "create" +++ Str.dq +++ " for new files or " +++ Str.dq +++ "update" +++ Str.dq +++ " for existing files";
     EmptyString;
     "For updates, include the FULL new file content, not just the changes.";
     "Keep summary concise. next_steps should be 1-3 actionable items.";
     EmptyString;
     "You may reference previous conversation context if provided to understand the full request."].

Definition fence : string := "```".

(** The first statements of [_parse_ai_response_with_meta]: strip the text
    and remove an enclosing markdown code block. *)
Definition strip_code_block (content_ : string) : string :=
  let content1 := Str.strip content_ in
  if Str.startswith fence content1 then
    let lines_ := Str.split Str.nl_char content1 in
    Str.join Str.nl
      (if (Str.strip (last lines_ EmptyString) =? fence)%string
       then removelast (tl lines_)
       else tl lines_)
  else content1.

Section Workflow.

Variable L : PyLib.
Variable W : World.

(** The loop over [files_data]: an item that is a dict with the keys
    [path] and [content] becomes a [FileChange], any other item is
    dropped. *)
Definition change_of_item (item : pyval) : list FileChange :=
  match item with
  | PDict d =>
      match Py.assoc "path" d, Py.assoc "content" d with
      | Some p, Some c =>
          [mk_change p c
             (match Py.assoc "action" d with
              | Some a => a
              | None => PStr "create"
              end)]
      | _, _ => []
      end
  | _ => []
  end.

(** The statements of [_parse_ai_response_with_meta] after [json.loads]. *)
Definition changes_of_data (data : pyval)
  : outcome (list FileChange * pyval * pyval) :=
  summary_ <-? Py.get data "summary" PNone ;;
  next_steps_ <-? Py.get data "next_steps" (PList []) ;;
  has_files <-? Py.contains "files" data ;;
  files_data <-? (if has_files then Py.getitem data "files"
                  else if Py.is_list data then Ok data
                  else Ok (PList [data])) ;;
  let items := match files_data with
               | PList l => l
               | v => [v]
               end in
  Ok (flat_map change_of_item items,
      summary_,
      if Py.truthy next_steps_ then next_steps_ else PNone).

(** [_parse_ai_response_with_meta]: [json.JSONDecodeError] is the only
    exception the function catches. *)
Definition _parse_ai_response_with_meta (content_ : string)
  : outcome (list FileChange * pyval * pyval) :=
  match json_loads L (strip_code_block content_) with
  | None => Ok ([], PNone, PNone)
  | Some data => changes_of_data data
  end.

(** [_parse_ai_response] *)
Definition _parse_ai_response (content_ : string) : outcome (list FileChange) :=
  match _parse_ai_response_with_meta content_ with
  | Ok (changes, _, _) => Ok changes
  | Raise e => Raise e
  end.

(** [_simple_file_creation]; the clock is read only on the default path. *)
Definition _simple_file_creation (prompt : string) : M (list FileChange) :=
  fun tr =>
    let prompt_lower := Str.lower prompt in
    match Re.search_filename prompt_lower with
    | Some g =>
        let filename :=
          if Str.contains "." g then g else g +++ ".txt" in
        (tr, Ok [mk_change (PStr filename)
                   (PStr ("# " +++ filename +++ Str.nl +++ Str.nl
                          +++ "Created by Amadeus Pocket 🎭" +++ Str.nl +++ Str.nl
                          +++ "Prompt: " +++ prompt +++ Str.nl))
                   (PStr "create")])
    | None =>
        let timestamp := utcnow_strftime W tr "%Y%m%d_%H%M%S" in
        (tr, Ok [mk_change (PStr ("amadeus_change_" +++ timestamp +++ ".md"))
                   (PStr ("# Change Request" +++ Str.nl +++ Str.nl
                          +++ "**Prompt:** " +++ prompt +++ Str.nl +++ Str.nl
                          +++ "*Generated by Amadeus Pocket*" +++ Str.nl))
                   (PStr "create")])
    end.

(** [_generate_branch_name] *)
Definition _generate_branch_name (prompt : string) : M string :=
  fun tr =>
    let words := Re.findall_words (Str.lower prompt) in
    let keywords :=
      firstn 3 (filter (fun w => 3 <? String.length w)%nat words) in
    let slug := match keywords with
                | [] => "update"
                | _ :: _ => Str.join "-" keywords
                end in
    let timestamp := utcnow_strftime W tr "%m%d%H%M" in
    let random_suffix := token_hex W tr 2 in
    (tr, Ok ("amadeus/" +++ slug +++ "-" +++ timestamp +++ "-" +++ random_suffix)).

(** [_generate_pr_title] *)
Definition _generate_pr_title (prompt : string) : string :=
  let title := Str.take 60 prompt in
  "🤖 " +++ (if (60 <? String.length prompt)%nat then title +++ "..." else title).

(** [_generate_pr_body] *)
Definition _generate_pr_body (prompt : string) (changed_files_ : list pyval)
  : string :=
  let files_list :=
    Str.join Str.nl (map (fun f => "- `" +++ fmt L f +++ "`") changed_files_) in
  "## 🤖 AI-Generated Changes" +++ Str.nl +++ Str.nl
  +++ "**Prompt:**" +++ Str.nl
  +++ "> " +++ prompt +++ Str.nl +++ Str.nl
  +++ "### Changed Files" +++ Str.nl
  +++ files_list +++ Str.nl +++ Str.nl
  +++ "### How to Review" +++ Str.nl
  +++ "1. Check the changed files above" +++ Str.nl
  +++ "2. Review the diff for correctness" +++ Str.nl
  +++ "3. Test locally if needed" +++ Str.nl
  +++ "4. Approve and merge!" +++ Str.nl +++ Str.nl
  +++ "---" +++ Str.nl
  +++ "*This PR was automatically generated by [Amadeus Pocket](https://amadeus.dev) 🎭*"
  +++ Str.nl.

(** *** The streamed model call *)

(** [if on_stream: await on_stream(u)] *)
Definition notify_stream (on_stream : option (callback StreamingUpdate))
  (u : StreamingUpdate) : M unit :=
  match on_stream with
  | None => ret tt
  | Some cb => fun tr => (tr ++ [EvStream u], cb tr u)
  end.

Definition thinking_update : StreamingUpdate :=
  mk_update "thinking" None None None.

Definition writing_update (f : string) (files : list string) : StreamingUpdate :=
  mk_update "writing_file" (Some f) (Some files) None.

Definition done_update (files : list string) : StreamingUpdate :=
  mk_update "done" None (Some files) None.

(** The local variables of the streaming loop. *)
Record stream_state : Type := mk_state {
  full_content : string;
  files_detected : list string;
  last_update_len : nat
}.

Inductive loop_ctl : Type := Continue | Break.

(** [for f in new_files: ...].  The list [files_detected] is returned also
    when a callback raises, since the append has happened by then. *)
Fixpoint notify_new_files (on_stream : option (callback StreamingUpdate))
  (new_files detected : list string) (tr : trace)
  : trace * (list string * outcome unit) :=
  match new_files with
  | [] => (tr, (detected, Ok tt))
  | f :: rest =>
      if existsb (String.eqb f) detected
      then notify_new_files on_stream rest detected tr
      else
        let detected' := detected ++ [f] in
        match notify_stream on_stream (writing_update f detected') tr with
        | (tr', Ok _) => notify_new_files on_stream rest detected' tr'
        | (tr', Raise e) => (tr', (detected', Raise e))
        end
  end.

(** The text of a decoded event of the Anthropic stream: [Some text] when
    the statements from [full_content += text] on are reached. *)
Definition anthropic_text (event_ : pyval) : outcome (option pyval) :=
  ty <-? Py.get event_ "type" PNone ;;
  if Py.eq_str ty "content_block_delta" then
    delta <-? Py.get event_ "delta" (PDict []) ;;
    dty <-? Py.get delta "type" PNone ;;
    if Py.eq_str dty "text_delta" then
      text <-? Py.get delta "text" (PStr EmptyString) ;;
      Ok (Some text)
    else Ok None
  else Ok None.

(** The same for the OpenAI stream. *)
Definition openai_text (event_ : pyval) : outcome (option pyval) :=
  choices <-? Py.get event_ "choices" (PList []) ;;
  if Py.truthy choices then
    choice <-? Py.first choices ;;
    delta <-? Py.get choice "delta" (PDict []) ;;
    text <-? Py.get delta "content" (PStr EmptyString) ;;
    if Py.truthy text then Ok (Some text) else Ok None
  else Ok None.

(** [except json.JSONDecodeError: continue] *)
Definition is_json_decode_error (e : exn) : bool :=
  match exn_cls e with JSONDecodeError => true | _ => false end.

(** The body of [async for line in response.aiter_lines()]. *)
Definition process_line (text_of : pyval -> outcome (option pyval))
  (on_stream : option (callback StreamingUpdate))
  (line : string) (st : stream_state) (tr : trace)
  : trace * (stream_state * outcome loop_ctl) :=
  if negb (Str.startswith "data: " line) then (tr, (st, Ok Continue))
  else
    let data_str := Str.drop 6 line in
    if (data_str =? "[DONE]")%string then (tr, (st, Ok Break))
    else
      match json_loads L data_str with
      | None => (tr, (st, Ok Continue))
      | Some event_ =>
          match text_of event_ with
          | Raise e =>
              if is_json_decode_error e then (tr, (st, Ok Continue))
              else (tr, (st, Raise e))
          | Ok None => (tr, (st, Ok Continue))
          | Ok (Some (PStr text)) =>
              let full := full_content st +++ text in
              let new_files :=
                Re.findall_path (Str.drop (last_update_len st) full) in
              match notify_new_files on_stream new_files (files_detected st) tr with
              | (tr', (detected, Ok _)) =>
                  (tr', (mk_state full detected (String.length full), Ok Continue))
              | (tr', (detected, Raise e)) =>
                  let st' := mk_state full detected (last_update_len st) in
                  if is_json_decode_error e then (tr', (st', Ok Continue))
                  else (tr', (st', Raise e))
              end
          | Ok (Some v) =>
              (tr, (st, Raise (mk_exn TypeError
                                 ("can only concatenate str (not "
                                  +++ Str.dq +++ Py.type_name v +++ Str.dq
                                  +++ ") to str"))))
          end
      end.

(** The loop: it ends at the line [data: [DONE]], at the end of the
    response, or with the exception of a broken transport. *)
Fixpoint consume_lines (text_of : pyval -> outcome (option pyval))
  (on_stream : option (callback StreamingUpdate))
  (ls : list string) (broken_ : option exn) (st : stream_state) (tr : trace)
  : trace * (stream_state * outcome unit) :=
  match ls with
  | [] =>
      match broken_ with
      | Some e => (tr, (st, Raise e))
      | None => (tr, (st, Ok tt))
      end
  | line :: rest =>
      match process_line text_of on_stream line st tr with
      | (tr', (st', Ok Continue)) =>
          consume_lines text_of on_stream rest broken_ st' tr'
      | (tr', (st', Ok Break)) => (tr', (st', Ok tt))
      | (tr', (st', Raise e)) => (tr', (st', Raise e))
      end
  end.

Definition no_changes : list FileChange * pyval * pyval := ([], PNone, PNone).

(** The body shared by [_call_anthropic_streaming] and
    [_call_openai_streaming], which differ in the request and in how the
    text of an event is read. *)
Definition stream_call (text_of : pyval -> outcome (option pyval))
  (url api_key : string) (timeout : Z) (payload : pyval)
  (on_stream : option (callback StreamingUpdate))
  : M (list FileChange * pyval * pyval) :=
  try_except
    (response <- (fun tr =>
                    let r := open_stream W tr url api_key payload in
                    (tr ++ [EvOpenStream url timeout payload r], r)) ;;
     if negb (status_code response =? 200)%Z then ret no_changes
     else
       notify_stream on_stream thinking_update ;;;
       st <- (fun tr =>
                match consume_lines text_of on_stream (lines response)
                        (broken response) (mk_state EmptyString [] 0) tr with
                | (tr', (st, Ok _)) => (tr', Ok st)
                | (tr', (_, Raise e)) => (tr', Raise e)
                end) ;;
       notify_stream on_stream (done_update (files_detected st)) ;;;
       lift (_parse_ai_response_with_meta (full_content st)))
    (fun _ => ret no_changes).

Definition user_message_of (content_ : string) : pyval :=
  PDict [("role", PStr "user"); ("content", PStr content_)].

(** [_call_anthropic_streaming] *)
Definition _call_anthropic_streaming (api_key system user_msg model : string)
  (on_stream : option (callback StreamingUpdate))
  : M (list FileChange * pyval * pyval) :=
  stream_call anthropic_text ANTHROPIC_API_URL api_key
    (if Str.contains "opus" model then 300 else 180)%Z
    (PDict [("model", PStr model);
            ("max_tokens", PInt 16384);
            ("system", PStr system);
            ("messages", PList [user_message_of user_msg]);
            ("stream", PBool true)])
    on_stream.

(** [_call_openai_streaming] *)
Definition _call_openai_streaming (api_key system user_msg model : string)
  (on_stream : option (callback StreamingUpdate))
  : M (list FileChange * pyval * pyval) :=
  let is_gpt5 := Str.startswith "gpt-5" model || Str.startswith "o3" model
                 || Str.startswith "o1" model in
  stream_call openai_text OPENAI_API_URL api_key 180%Z
    (PDict [("model", PStr model);
            ("messages", PList [PDict [("role", PStr "system");
                                       ("content", PStr system)];
                                user_message_of user_msg]);
            ("stream", PBool true);
            (if is_gpt5 then "max_completion_tokens" else "max_tokens",
             PInt 16384)])
    on_stream.

(** *** [_generate_ai_changes] *)

(** The list comprehension over [file_tree[:100]]. *)
Definition tree_summary (file_tree : pyval) : outcome string :=
  match file_tree with
  | PList l =>
      rows <-? omap (fun f =>
                       ty <-? Py.get f "type" PNone ;;
                       p <-? Py.get f "path" PNone ;;
                       Ok ((if Py.eq_str ty "tree" then "📁" else "📄")
                           +++ " " +++ fmt L p))
                    (firstn 100 l) ;;
      Ok (Str.join Str.nl rows)
  | PStr EmptyString => Ok EmptyString
  | PStr (String c _) => Raise (Py.no_attribute (PStr (String c EmptyString)) "get")
  | PDict _ => Raise (mk_exn TypeError "unhashable type: 'slice'")
  | v => Raise (mk_exn TypeError
                  ("'" +++ Py.type_name v +++ "' object is not subscriptable"))
  end.

(** [msg[k][:500]] *)
Definition slice_500 (v : pyval) : outcome pyval :=
  match v with
  | PStr s => Ok (PStr (Str.take 500 s))
  | PList l => Ok (PList (firstn 500 l))
  | PDict _ => Raise (mk_exn TypeError "unhashable type: 'slice'")
  | _ => Raise (mk_exn TypeError
                  ("'" +++ Py.type_name v +++ "' object is not subscriptable"))
  end.

Definition history_part (msg : pyval) : outcome string :=
  role_ <-? Py.getitem msg "role" ;;
  body <-? Py.getitem msg "content" ;;
  text <-? slice_500 body ;;
  Ok ((if Py.eq_str role_ "user" then "User" else "Assistant")
      +++ ": " +++ fmt L text).

Definition history_context (conversation_history : option (list pyval))
  : outcome string :=
  match conversation_history with
  | Some (m :: ms) =>
      let history := m :: ms in
      parts <-? omap history_part (skipn (length history - 10) history) ;;
      Ok (Str.nl +++ Str.nl +++ "## Previous Conversation:" +++ Str.nl
          +++ Str.join (Str.nl +++ "---" +++ Str.nl) parts)
  | _ => Ok EmptyString
  end.

Definition user_message (tree history prompt : string) : string :=
  "## Repository Structure:" +++ Str.nl
  +++ tree +++ Str.nl
  +++ history +++ Str.nl +++ Str.nl
  +++ "## Current Request:" +++ Str.nl
  +++ prompt +++ Str.nl +++ Str.nl
  +++ "Generate the file changes needed. Respond with ONLY a JSON object with summary, next_steps, and files.".

Definition no_api_keys : exn :=
  mk_exn ValueError
    "No API keys configured. Use /settings to add your Anthropic or OpenAI key.".

Definition ai_returned_no_changes : exn :=
  mk_exn ValueError "AI returned no changes. Try a more specific request.".

Definition _generate_ai_changes (user : User) (prompt repo_context : string)
  (file_tree : pyval) (conversation_history : option (list pyval))
  (on_stream : option (callback StreamingUpdate))
  : M (list FileChange * pyval * pyval) :=
  tree <- lift (tree_summary file_tree) ;;
  history <- lift (history_context conversation_history) ;;
  let user_msg := user_message tree history prompt in
  let user_model :=
    if truthy_str (default_model (settings user))
    then key_of (default_model (settings user)) else "gpt-5.2" in
  let has_anthropic := truthy_str (anthropic_key (api_keys user)) in
  let has_openai := truthy_str (openai_key (api_keys user)) in
  if negb has_anthropic && negb has_openai then raise no_api_keys
  else
    result <-
      (if Str.startswith "claude" user_model then
         if has_anthropic then
           r <- _call_anthropic_streaming (key_of (anthropic_key (api_keys user)))
                  system_prompt user_msg user_model on_stream ;;
           ret (Some r)
         else if has_openai then
           r <- _call_openai_streaming (key_of (openai_key (api_keys user)))
                  system_prompt user_msg "gpt-5.2" on_stream ;;
           ret (Some r)
         else ret None
       else
         if has_openai then
           r <- _call_openai_streaming (key_of (openai_key (api_keys user)))
                  system_prompt user_msg user_model on_stream ;;
           ret (Some r)
         else if has_anthropic then
           r <- _call_anthropic_streaming (key_of (anthropic_key (api_keys user)))
                  system_prompt user_msg "claude-sonnet-4-20250514" on_stream ;;
           ret (Some r)
         else ret None) ;;
    match result with
    | Some (c :: cs, summary_, next_steps_) => ret (c :: cs, summary_, next_steps_)
    | _ => raise ai_returned_no_changes
    end.

(** *** [execute] *)

(** A result of a failed run: [WorkflowResult(success=False, message=...,
    error=...)], every other field at its default [None]. *)
Definition failure (message_ error_ : string) : WorkflowResult :=
  mk_result false message_ PNone None PNone None None (Some error_) PNone PNone.

(** The nested function [progress] of [execute]. *)
Definition progress (on_progress : option (callback WorkflowProgress))
  (step_ msg : string) (pct : Z) : M unit :=
  match on_progress with
  | None => ret tt
  | Some cb =>
      fun tr =>
        let p := mk_progress step_ msg pct None in
        (tr ++ [EvProgress p], cb tr p)
  end.

Section Run.

Variable user : User.
Variable prompt : string.
Variable on_progress : option (callback WorkflowProgress).
Variable on_stream : option (callback StreamingUpdate).
Variable create_pr : bool.
Variable conversation_history : option (list pyval).
Variable existing_branch : option string.
Variable existing_pr_number : option Z.

(** The local variables [repo_full_name], [access_token], [owner],
    [repo_name] of [execute]. *)
Variable repo_full_name_ : string.
Variable access_token_ : string.
Variable owner : string.
Variable repo_name_ : string.

(** The body of [for change in changes]. *)
Definition commit_change (branch_name : string) (change : FileChange)
  : M (option Commit) :=
  existing_sha <-
    (if Py.eq_str (action change) "update" then
       r <- get_file_content L W access_token_ owner repo_name_ (path change)
              (Some branch_name) ;;
       ret (snd r)
     else ret PNone) ;;
  create_or_update_file L W access_token_ owner repo_name_
    (path change) (content change)
    ((if Py.eq_str (action change) "create" then "Create" else "Update")
     +++ " " +++ fmt L (path change))
    branch_name existing_sha.

(** The loop [for change in changes], with the variables [commit] and
    [changed_files] it updates. *)
Fixpoint commit_changes (branch_name : string) (changes : list FileChange)
  (commit : option Commit) (changed_files_ : list pyval)
  : M (option Commit * list pyval) :=
  match changes with
  | [] => ret (commit, changed_files_)
  | change :: rest =>
      commit' <- commit_change branch_name change ;;
      commit_changes branch_name rest commit'
        (match commit' with
         | Some _ => changed_files_ ++ [path change]
         | None => changed_files_
         end)
  end.

(** Step 6 of [execute]: the URL of the pull request. *)
Definition pull_request_url (branch_name : string) (default_branch_ : pyval)
  (changed_files_ : list pyval) : M pyval :=
  if truthy_int existing_pr_number then
    let n := int_of existing_pr_number in
    progress on_progress "pr"
      ("📝 Added commit to PR #" +++ Str.of_Z n +++ "...") 90 ;;;
    ret (PStr ("https://github.com/" +++ repo_full_name_ +++ "/pull/"
               +++ Str.of_Z n))
  else if create_pr then
    progress on_progress "pr" "🔀 Creating Pull Request..." 90 ;;;
    pr <- create_pull_request W access_token_ owner repo_name_
            (_generate_pr_title prompt)
            (_generate_pr_body prompt changed_files_)
            branch_name default_branch_ ;;
    if Py.truthy pr then lift (Py.get pr "html_url" PNone) else ret PNone
  else ret PNone.

(** The statements of [execute] from the report of the number of files to
    the final [return]: the commits, the pull request, the result. *)
Definition commit_and_report (branch_name : string) (default_branch_ : pyval)
  (changes : list FileChange) (summary_ next_steps_ : pyval)
  : M WorkflowResult :=
  progress on_progress "ai"
    ("📝 " +++ Str.of_nat (length changes) +++ " file(s) to modify") 70 ;;;
  progress on_progress "commit" "💾 Commit des changements..." 80 ;;;
  r <- commit_changes branch_name changes None [] ;;
  let (commit, changed_files_) := r in
  match changed_files_ with
  | [] => ret (failure "No changes committed" "No files could be modified")
  | _ :: _ =>
      let commit_url_ :=
        match commit with
        | Some c => Some ("https://github.com/" +++ repo_full_name_
                          +++ "/commit/" +++ fmt L (sha c))
        | None => None
        end in
      pr_url_ <- pull_request_url branch_name default_branch_ changed_files_ ;;
      progress on_progress "done" "✅ Done!" 100 ;;;
      ret (mk_result true "Changes pushed successfully!"
             (match commit with Some c => sha c | None => PNone end)
             commit_url_ pr_url_ (Some branch_name) (Some changed_files_)
             None summary_ next_steps_)
  end.

(** Steps 4 and 5 of [execute]: the tree, then the changes, from the model
    or from [_simple_file_creation]. *)
Definition generate_changes (default_branch_ : pyval)
  : M (list FileChange * pyval * pyval) :=
  progress on_progress "context" "📂 Reading repo structure..." 40 ;;;
  tree <- get_tree L W access_token_ owner repo_name_ default_branch_ ;;
  let file_tree := if Py.truthy tree then tree else PList [] in
  progress on_progress "ai" "🤖 AI is thinking..." 50 ;;;
  r <- (if negb (truthy_str (anthropic_key (api_keys user)))
           && negb (truthy_str (openai_key (api_keys user)))
        then
          changes <- _simple_file_creation prompt ;;
          ret (changes, PNone, PNone)
        else
          _generate_ai_changes user prompt EmptyString file_tree
            conversation_history on_stream) ;;
  match r with
  | ([], summary_, next_steps_) =>
      changes <- _simple_file_creation prompt ;;
      ret (changes, summary_, next_steps_)
  | _ => ret r
  end.

(** Step 3 of [execute]: the working branch, or the result of the early
    return when the branch cannot be created. *)
Definition resolve_branch (base_sha : pyval) : M (WorkflowResult + string) :=
  if truthy_str existing_branch then
    let branch_name := key_of existing_branch in
    progress on_progress "branch"
      ("🌿 Using existing branch " +++ branch_name +++ "...") 30 ;;;
    ret (inr branch_name)
  else
    branch_name <- _generate_branch_name prompt ;;
    progress on_progress "branch"
      ("🌿 Creating branch " +++ branch_name +++ "...") 30 ;;;
    created <- create_branch W access_token_ owner repo_name_ branch_name
                 base_sha ;;
    if created then ret (inr branch_name)
    else ret (inl (failure "Could not create branch"
                     ("Could not create branch " +++ branch_name))).

(** Steps 1 to 5 of [execute]: the result of an early [return], or the
    working branch, the default branch and the generated changes with their
    summary and next steps. *)
Definition prepare
  : M (WorkflowResult + (string * pyval * (list FileChange * pyval * pyval))) :=
  progress on_progress "init" "📡 Connecting to repo..." 10 ;;;
  repo <- get_repo W access_token_ owner repo_name_ ;;
  match repo with
  | None =>
      ret (inl (failure "Repository not found"
                  ("Could not access " +++ repo_full_name_)))
  | Some repo_ =>
      let default_branch_ := default_branch repo_ in
      progress on_progress "branch" "🔍 Fetching branch..." 20 ;;;
      base_sha <- get_branch_sha L W access_token_ owner repo_name_
                    default_branch_ ;;
      if negb (Py.truthy base_sha) then
        ret (inl (failure "Could not get branch SHA"
                    ("Could not read branch " +++ fmt L default_branch_)))
      else
        b <- resolve_branch base_sha ;;
        match b with
        | inl result => ret (inl result)
        | inr branch_name =>
            g <- generate_changes default_branch_ ;;
            ret (inr (branch_name, default_branch_, g))
        end
  end.

(** The body of the [try] statement of [execute]. *)
Definition execute_body : M WorkflowResult :=
  p <- prepare ;;
  match p with
  | inl result => ret result
  | inr (branch_name, default_branch_, (changes, summary_, next_steps_)) =>
      commit_and_report branch_name default_branch_ changes
        summary_ next_steps_
  end.

End Run.

(** [except Exception as e: return WorkflowResult(success=False,
    message=..., error=str(e))] *)
Definition workflow_failed (e : exn) : M WorkflowResult :=
  ret (failure "Workflow failed" (exn_msg e)).

(** [owner, repo_name = repo_full_name.split(...)]: the unpacking raises
    unless the list has two elements. *)
Definition unpack_pair (parts : list string) : outcome (string * string) :=
  match parts with
  | [a; b] => Ok (a, b)
  | [] | [_] =>
      Raise (mk_exn ValueError
               ("not enough values to unpack (expected 2, got "
                +++ Str.of_nat (length parts) +++ ")"))
  | _ => Raise (mk_exn ValueError "too many values to unpack (expected 2)")
  end.

(** [GitHubWorkflow.execute].  The two validations and the unpacking of
    the repository name come before the [try] statement. *)
Definition execute (user : User) (prompt : string)
  (on_progress : option (callback WorkflowProgress))
  (on_stream : option (callback StreamingUpdate))
  (create_pr : bool)
  (conversation_history : option (list pyval))
  (existing_branch : option string)
  (existing_pr_number : option Z) : M WorkflowResult :=
  if negb (is_connected (github user)) then
    ret (failure "GitHub not connected" "Connect GitHub first with /github")
  else if negb (truthy_str (selected_repo (github user))) then
    ret (failure "No repository selected" "Select a repo first with /repos")
  else
    let repo_full_name_ := key_of (selected_repo (github user)) in
    let access_token_ := key_of (access_token (github user)) in
    p <- lift (unpack_pair (Str.split "/"%char repo_full_name_)) ;;
    let (owner, repo_name_) := p in
    try_except
      (execute_body user prompt on_progress on_stream create_pr
         conversation_history existing_branch existing_pr_number
         repo_full_name_ access_token_ owner repo_name_)
      workflow_failed.

End Workflow.

(** ** Scenarios

    Concrete users, responses and library values on which the pipeline is
    evaluated.  [loads] gives the value of [json.loads] on the JSON texts the
    scenarios use. *)

Module Scenario.

Definition q (s : string) : string := Str.dq +++ s +++ Str.dq.

(** The JSON escape of a text without control characters. *)
Fixpoint escape (s : string) : string :=
  match s with
  | EmptyString => EmptyString
  | String c s' =>
      if Ascii.eqb c Str.dq_char || Ascii.eqb c "\"%char
      then String "\"%char (String c (escape s'))
      else String c (escape s')
  end.

(** One file object, as JSON text and as the decoded value. *)
Definition file_json (name : string) : string :=
  "{" +++ q "path" +++ ": " +++ q name +++ ", "
  +++ q "content" +++ ": " +++ q "x" +++ ", "
  +++ q "action" +++ ": " +++ q "create" +++ "}".

Definition file_val (name : string) : pyval :=
  PDict [("path", PStr name); ("content", PStr "x"); ("action", PStr "create")].

(** A model answer with two files, cut in two fragments after the first
    file. *)
Definition fragment1 : string :=
  "{" +++ q "summary" +++ ": " +++ q "Added two files" +++ ", "
  +++ q "next_steps" +++ ": [" +++ q "Run it" +++ "], "
  +++ q "files" +++ ": [" +++ file_json "a.py" +++ ", ".

Definition fragment2 : string := file_json "b.py" +++ "]}".

Definition full_json : string := fragment1 +++ fragment2.

Definition full_val : pyval :=
  PDict [("summary", PStr "Added two files");
         ("next_steps", PList [PStr "Run it"]);
         ("files", PList [file_val "a.py"; file_val "b.py"])].

(** The same answer inside a markdown code block. *)
Definition fenced_json : string :=
  fence +++ "json" +++ Str.nl +++ full_json +++ Str.nl +++ fence.

(** The legacy shape: the list of file objects alone. *)
Definition legacy_json : string :=
  "[" +++ file_json "a.py" +++ ", " +++ file_json "b.py" +++ "]".

Definition legacy_val : pyval := PList [file_val "a.py"; file_val "b.py"].

(** An answer without files. *)
Definition empty_json : string :=
  "{" +++ q "summary" +++ ": " +++ q "Nothing to do" +++ ", "
  +++ q "files" +++ ": []}".

Definition empty_val : pyval :=
  PDict [("summary", PStr "Nothing to do"); ("files", PList [])].

(** A [content_block_delta] event of the Anthropic stream that carries the
    text [t]. *)
Definition delta_json (t : string) : string :=
  "{" +++ q "type" +++ ": " +++ q "content_block_delta" +++ ", "
  +++ q "index" +++ ": 0, "
  +++ q "delta" +++ ": {" +++ q "type" +++ ": " +++ q "text_delta" +++ ", "
  +++ q "text" +++ ": " +++ q (escape t) +++ "}}".

Definition delta_val (t : string) : pyval :=
  PDict [("type", PStr "content_block_delta");
         ("index", PInt 0);
         ("delta", PDict [("type", PStr "text_delta"); ("text", PStr t)])].

(** An event whose JSON value is a list: [json.loads] accepts it and
    [event.get] raises. *)
Definition stray_json : string := "[1]".
Definition stray_val : pyval := PList [PInt 1].

Definition table : list (string * pyval) :=
  [(full_json, full_val);
   (legacy_json, legacy_val);
   (empty_json, empty_val);
   (delta_json fragment1, delta_val fragment1);
   (delta_json fragment2, delta_val fragment2);
   (delta_json empty_json, delta_val empty_json);
   (delta_json legacy_json, delta_val legacy_json);
   (stray_json, stray_val)].

Definition loads (s : string) : option pyval := Py.assoc s table.

(** Base64 of an ASCII text. *)
Definition b64_alphabet : string :=
  "ABCDEFGHIJKLMNOPQRSTUVWXYZabcdefghijklmnopqrstuvwxyz0123456789+/".

Definition b64_digit (n : nat) : ascii :=
  match String.get n b64_alphabet with
  | Some c => c
  | None => "="%char
  end.

Fixpoint b64_from (fuel : nat) (s : string) : string :=
  match fuel with
  | O => EmptyString
  | S fuel' =>
      match s with
      | EmptyString => EmptyString
      | String a EmptyString =>
          let x := nat_of_ascii a in
          String (b64_digit (x / 4))
            (String (b64_digit ((x mod 4) * 16)) "==")
      | String a (String b EmptyString) =>
          let x := nat_of_ascii a in
          let y := nat_of_ascii b in
          String (b64_digit (x / 4))
            (String (b64_digit ((x mod 4) * 16 + y / 16))
               (String (b64_digit ((y mod 16) * 4)) "="))
      | String a (String b (String c rest)) =>
          let x := nat_of_ascii a in
          let y := nat_of_ascii b in
          let z := nat_of_ascii c in
          String (b64_digit (x / 4))
            (String (b64_digit ((x mod 4) * 16 + y / 16))
               (String (b64_digit ((y mod 16) * 4 + z / 64))
                  (String (b64_digit (z mod 64)) (b64_from fuel' rest))))
      end
  end.

Definition b64 (s : string) : string := b64_from (String.length s) s.

(** The library: [repr] of a container and the decoding of file bodies are
    not exercised by the scenarios (paths are strings and the bodies the
    GitHub responses carry are empty). *)
Definition lib : PyLib :=
  mk_lib loads
    (fun _ => "[...]")
    b64
    (fun v => match v with
              | PStr EmptyString => Ok EmptyString
              | PStr _ => Raise (mk_exn OtherError "Incorrect padding")
              | _ => Raise (mk_exn TypeError
                              "argument should be a bytes-like object or ASCII string")
              end).

(** *** GitHub *)

Definition repo_data : pyval :=
  PDict [("id", PInt 1); ("name", PStr "repo");
         ("full_name", PStr "owner/repo"); ("description", PNone);
         ("private", PBool false); ("default_branch", PStr "main");
         ("clone_url", PStr "https://github.com/owner/repo.git");
         ("ssh_url", PStr "git@github.com:owner/repo.git");
         ("html_url", PStr "https://github.com/owner/repo")].

Definition ref_data : pyval :=
  PDict [("ref", PStr "refs/heads/main");
         ("object", PDict [("sha", PStr "abc123"); ("type", PStr "commit")])].

Definition tree_data : pyval :=
  PDict [("sha", PStr "abc123");
         ("tree", PList [PDict [("path", PStr "README.md");
                                ("type", PStr "blob")]])].

Definition blob_data : pyval :=
  PDict [("content", PStr EmptyString); ("sha", PStr "b10b")].

Definition commit_data : pyval :=
  PDict [("content", PDict [("sha", PStr "f11e")]);
         ("commit", PDict [("sha", PStr "c0ffee");
                           ("message", PStr "Create");
                           ("html_url",
                            PStr "https://github.com/owner/repo/commit/c0ffee")])].

Definition not_found : outcome (Z * pyval) :=
  Ok (404%Z, PDict [("message", PStr "Not Found")]).

(** A repository [owner/repo] with default branch [main]; the file
    [docs/old.md] exists on every branch; a write to a path that contains
    [locked] is refused with 409, any other write is accepted. *)
Definition github_api (tr : trace) (token method endpoint : string)
  (args : pyval) : outcome (Z * pyval) :=
  if (method =? "GET")%string then
    if (endpoint =? "/repos/owner/repo")%string then Ok (200%Z, repo_data)
    else if (endpoint =? "/repos/owner/repo/git/ref/heads/main")%string
    then Ok (200%Z, ref_data)
    else if (endpoint =? "/repos/owner/repo/git/trees/abc123")%string
    then Ok (200%Z, tree_data)
    else if (endpoint =? "/repos/owner/repo/contents/docs/old.md")%string
    then Ok (200%Z, blob_data)
    else not_found
  else if (method =? "PUT")%string then
    if Str.contains "locked" endpoint
    then Ok (409%Z, PDict [("message", PStr "Conflict")])
    else Ok (201%Z, commit_data)
  else if (endpoint =? "/repos/owner/repo/git/refs")%string then
    Ok (201%Z, PDict [("ref", PStr "refs/heads/new")])
  else if (endpoint =? "/repos/owner/repo/pulls")%string then
    Ok (201%Z, PDict [("number", PInt 7);
                      ("html_url", PStr "https://github.com/owner/repo/pull/7")])
  else not_found.

Definition clock (tr : trace) (format : string) : string :=
  if (format =? "%m%d%H%M")%string then "11031200" else "20261103_120000".

Definition hex (tr : trace) (n : nat) : string := "ab12".

(** *** The model provider *)

(** The provider streams the two fragments and the end marker. *)
Definition stream_ok : stream_response :=
  mk_stream 200
    ["event: content_block_delta";
     "data: " +++ delta_json fragment1;
     EmptyString;
     "data: " +++ delta_json fragment2;
     "data: [DONE]"]
    None.

(** The provider refuses the request: HTTP 429. *)
Definition stream_429 : stream_response := mk_stream 429 [] None.

(** The connection breaks after the first fragment. *)
Definition stream_broken : stream_response :=
  mk_stream 200
    ["data: " +++ delta_json fragment1]
    (Some (mk_exn TransportError "peer closed connection")).

(** The provider sends an event that is not an object. *)
Definition stream_stray : stream_response :=
  mk_stream 200
    ["data: " +++ delta_json fragment1; "data: " +++ stray_json;
     "data: " +++ delta_json fragment2]
    None.

(** The model answers with an object without files. *)
Definition stream_empty : stream_response :=
  mk_stream 200 ["data: " +++ delta_json empty_json; "data: [DONE]"] None.

(** The model answers in the legacy shape. *)
Definition stream_legacy : stream_response :=
  mk_stream 200 ["data: " +++ delta_json legacy_json; "data: [DONE]"] None.

Definition world_with (r : stream_response) : World :=
  mk_world github_api (fun _ _ _ _ => Ok r) clock hex.

(** *** Users and callbacks *)

Definition connection : GitHubConnection :=
  mk_github (Some "ghp_token") (Some "owner/repo").

(** A user with an Anthropic key and a Claude model. *)
Definition alice : User :=
  mk_user (mk_api_keys None (Some "sk-ant-key"))
    (mk_settings (Some "claude-sonnet-4-20250514"))
    connection.

(** A user without any provider key. *)
Definition bob : User :=
  mk_user (mk_api_keys None None) (mk_settings (Some "gpt-5.2")) connection.

(** A user who has not connected GitHub. *)
Definition carol : User :=
  mk_user (mk_api_keys None (Some "sk-ant-key"))
    (mk_settings (Some "claude-sonnet-4-20250514"))
    (mk_github None None).

(** A user whose selected repository is not of the form owner/repo. *)
Definition dave : User :=
  mk_user (mk_api_keys None (Some "sk-ant-key"))
    (mk_settings (Some "claude-sonnet-4-20250514"))
    (mk_github (Some "ghp_token") (Some "norepo")).

(** A callback that returns. *)
Definition listen {A : Type} : option (callback A) := Some (fun _ _ => Ok tt).

(** GitHub with a token that may not write: every write call is refused
    with 403. *)
Definition github_readonly (tr : trace) (token method endpoint : string)
  (args : pyval) : outcome (Z * pyval) :=
  if (method =? "PUT")%string
  then Ok (403%Z, PDict [("message", PStr "Resource not accessible")])
  else github_api tr token method endpoint args.

Definition readonly_world (r : stream_response) : World :=
  mk_world github_readonly (fun _ _ _ _ => Ok r) clock hex.

(** A run of [execute] from the empty trace, with both callbacks. *)
Definition run (W : World) (user : User) (existing_branch : option string)
  (existing_pr_number : option Z) : trace * outcome WorkflowResult :=
  execute lib W user "fix the bug" listen listen true None existing_branch
    existing_pr_number [].

(** The result of a run that returned. *)
Definition result_of (x : trace * outcome WorkflowResult) : WorkflowResult :=
  match snd x with
  | Ok r => r
  | Raise e => failure "raised" (exn_msg e)
  end.

(** One streamed call of the Anthropic client from the empty trace. *)
Definition anthropic_run (r : stream_response)
  : trace * outcome (list FileChange * pyval * pyval) :=
  _call_anthropic_streaming lib (world_with r) "sk-ant-key" system_prompt
    "fix the bug" "claude-sonnet-4-20250514" listen [].

(** One turn of the commit loop on the branch [work]. *)
Definition commit_run (change : FileChange) : trace * outcome (option Commit) :=
  commit_change lib (world_with stream_ok) "ghp_token" "owner" "repo" "work"
    change [].

End Scenario.

(** ** Observations on traces and results *)

(** The kind of an event: the client method, the opening of the model
    stream, or one of the two callbacks. *)
Inductive kind : Type :=
| KGetRepo | KGetBranchSha | KCreateBranch | KGetTree | KGetFileContent
| KCreateOrUpdateFile | KCreatePullRequest | KOpenStream | KProgress | KStream.

Definition kind_of_api (a : api) : kind :=
  match a with
  | ApiGetRepo => KGetRepo
  | ApiGetBranchSha => KGetBranchSha
  | ApiCreateBranch _ => KCreateBranch
  | ApiGetTree => KGetTree
  | ApiGetFileContent _ => KGetFileContent
  | ApiCreateOrUpdateFile _ => KCreateOrUpdateFile
  | ApiCreatePullRequest => KCreatePullRequest
  end.

Definition kind_of (e : event) : kind :=
  match e with
  | EvRequest via _ _ _ _ => kind_of_api via
  | EvOpenStream _ _ _ _ => KOpenStream
  | EvProgress _ => KProgress
  | EvStream _ => KStream
  end.

(** The event is of one of the kinds [ks]. *)
Definition within (ks : list kind) (e : event) : Prop := In (kind_of e) ks.

(** [spec c Q]: from every trace, [c] appends some events [evs] and ends
    with an outcome [o], and [Q evs o] holds. *)
Definition spec {A : Type} (c : M A) (Q : list event -> outcome A -> Prop)
  : Prop :=
  forall tr, exists evs o, c tr = (tr ++ evs, o) /\ Q evs o.

(** [emits P R c]: every event [c] appends satisfies [P], and a value [c]
    returns satisfies [R]. *)
Definition emits {A : Type} (P : event -> Prop) (R : A -> Prop) (c : M A)
  : Prop :=
  spec c (fun evs o => Forall P evs /\ forall a, o = Ok a -> R a).

Definition any {A : Type} : A -> Prop := fun _ => True.

(** The committed paths of a result: [changed_files], empty when absent. *)
Definition committed_paths (r : WorkflowResult) : list pyval :=
  match changed_files r with Some l => l | None => [] end.

(** [l1] is a subsequence of [l2]: the elements of [l1] occur in [l2] in
    the same relative order. *)
Inductive subseq {A : Type} : list A -> list A -> Prop :=
| subseq_nil : subseq [] []
| subseq_skip x l1 l2 : subseq l1 l2 -> subseq l1 (x :: l2)
| subseq_keep x l1 l2 : subseq l1 l2 -> subseq (x :: l1) (x :: l2).

(** The paths that successive discoveries report: the [k]-th discovery of
    the paths [p1 ... pn], after the paths [acc], reports [pk] with the
    list [acc ++ [p1; ...; pk]]. *)
Fixpoint prefixes_from (acc paths : list string) : list (string * list string) :=
  match paths with
  | [] => []
  | f :: ps => (f, acc ++ [f]) :: prefixes_from (acc ++ [f]) ps
  end.

(** The updates delivered to [on_stream], in order. *)
Definition stream_events (evs : list event) : list StreamingUpdate :=
  flat_map (fun e => match e with EvStream u => [u] | _ => [] end) evs.

Definition is_writing (u : StreamingUpdate) : bool :=
  (status u =? "writing_file")%string.

Definition is_done (u : StreamingUpdate) : bool :=
  (status u =? "done")%string.

Definition is_thinking (u : StreamingUpdate) : bool :=
  (status u =? "thinking")%string.

(** The discoveries among the updates: [current_file] and [files_so_far]
    of every update with status [writing_file]. *)
Definition discoveries (us : list StreamingUpdate) : list (string * list string) :=
  flat_map (fun u =>
              if is_writing u then
                match current_file u, files_so_far u with
                | Some f, Some l => [(f, l)]
                | _, _ => []
                end
              else []) us.

(** The updates that announce the paths [added] after the paths
    [detected]. *)
Definition writings (detected added : list string) : list StreamingUpdate :=
  map (fun p => writing_update (fst p) (snd p)) (prefixes_from detected added).

(** The events of these updates: none without a callback. *)
Definition announce (on_stream : option (callback StreamingUpdate))
  (detected added : list string) : list event :=
  match on_stream with
  | None => []
  | Some _ => map EvStream (writings detected added)
  end.

(** The line that ends the stream. *)
Definition is_done_line (line : string) : bool :=
  Str.startswith "data: " line && (Str.drop 6 line =? "[DONE]")%string.


(** The two streamed calls: [text_of] is the way the call reads the text
    of a decoded event. *)
Inductive provider_call (L : PyLib) (W : World)
  (api_key system user_msg model : string)
  (on_stream : option (callback StreamingUpdate))
  : (pyval -> outcome (option pyval))
    -> M (list FileChange * pyval * pyval) -> Prop :=
| anthropic_call :
    provider_call L W api_key system user_msg model on_stream anthropic_text
      (_call_anthropic_streaming L W api_key system user_msg model on_stream)
| openai_call :
    provider_call L W api_key system user_msg model on_stream openai_text
      (_call_openai_streaming L W api_key system user_msg model on_stream).

(** The order of the updates of one call: none at all, or [thinking] first,
    then updates with status [writing_file], then at most one [done], which
    is the last. *)
Definition stream_order (us : list StreamingUpdate) : Prop :=
  us = [] \/
  exists ws tail,
    us = thinking_update :: ws ++ tail
    /\ Forall (fun u => is_writing u = true) ws
    /\ (tail = [] \/ exists fs, tail = [done_update fs]).

(** What one streamed call, started on the trace [tr], delivers to
    [on_stream].  The call opens the stream and returns; [r] is the answer
    of the provider and [us] are the updates.
    - The updates are in [stream_order].
    - Without a response of status 200, and without a callback, there is
      no update.
    - When the transport breaks before an end marker, no update is [done].
    - When the callback returns from [thinking] and the loop over the lines
      ends without an exception, the updates end with the one [done]. *)
Definition stream_discipline (L : PyLib) (W : World)
  (text_of : pyval -> outcome (option pyval)) (api_key : string)
  (on_stream : option (callback StreamingUpdate))
  (call : M (list FileChange * pyval * pyval)) (tr : trace) : Prop :=
  exists url timeout payload us o,
    let r := open_stream W tr url api_key payload in
    let ev0 := EvOpenStream url timeout payload r in
    call tr = (tr ++ ev0 :: map EvStream us, Ok o)
    /\ stream_order us
    /\ ((forall resp, r = Ok resp -> status_code resp <> 200%Z) -> us = [])
    /\ (on_stream = None -> us = [])
    /\ (forall resp e,
          r = Ok resp -> broken resp = Some e ->
          Forall (fun l => is_done_line l = false) (lines resp) ->
          Forall (fun u => is_done u = false) us)
    /\ (forall resp cb,
          r = Ok resp -> status_code resp = 200%Z -> on_stream = Some cb ->
          cb (tr ++ [ev0]) thinking_update = Ok tt ->
          snd (snd (consume_lines L text_of on_stream (lines resp) (broken resp)
                      (mk_state EmptyString [] 0)
                      (tr ++ [ev0; EvStream thinking_update]))) = Ok tt ->
          exists ws fs,
            us = thinking_update :: ws ++ [done_update fs]
            /\ Forall (fun u => is_writing u = true) ws).

(** The discoveries of one call, started on the trace [tr], report the
    paths [paths], which are pairwise distinct: the [k]-th discovery reports
    the [k]-th path with the list of the first [k] paths.  So each list is
    the one before it with the new path appended, and no path is reported
    twice. *)
Definition discoveries_grow (call : M (list FileChange * pyval * pyval))
  (tr : trace) : Prop :=
  exists evs o paths,
    call tr = (tr ++ evs, o)
    /\ NoDup paths
    /\ discoveries (stream_events evs) = prefixes_from [] paths
    /\ (forall pre f1 l1 f2 l2 post,
          discoveries (stream_events evs) = pre ++ (f1, l1) :: (f2, l2) :: post ->
          l2 = l1 ++ [f2] /\ ~ In f2 l1)
    /\ NoDup (map fst (discoveries (stream_events evs))).

(** A world whose provider never answers a request with status 200. *)
Definition refusing (W : World) : Prop :=
  forall tr url key payload resp,
    open_stream W tr url key payload = Ok resp -> status_code resp <> 200%Z.

(** The results [execute] returns: a failure, which names its error and
    carries neither a branch nor files, or a success on a branch with at
    least one committed path. *)
Inductive result_shape (branch_ok : string -> Prop) : WorkflowResult -> Prop :=
| shape_failure (m e : string) : result_shape branch_ok (failure m e)
| shape_success (sha_ : pyval) (url : option string) (pr : pyval) (b : string)
    (f : pyval) (fs : list pyval) (s n : pyval) :
    branch_ok b ->
    result_shape branch_ok
      (mk_result true "Changes pushed successfully!" sha_ url pr (Some b)
         (Some (f :: fs)) None s n).

(** What step 3 yields: a failure, or an acceptable branch name. *)
Definition resolved (branch_ok : string -> Prop) (x : WorkflowResult + string)
  : Prop :=
  match x with
  | inl r => exists m e, r = failure m e
  | inr b => branch_ok b
  end.

(** What steps 1 to 5 yield. *)
Definition prepared (branch_ok : string -> Prop)
  (G : list FileChange * pyval * pyval -> Prop)
  (x : WorkflowResult + (string * pyval * (list FileChange * pyval * pyval)))
  : Prop :=
  match x with
  | inl r => exists m e, r = failure m e
  | inr (b, _, g) => branch_ok b /\ G g
  end.

(** The answer of GitHub to a write call is a success: status 200 or 201
    with a body. *)
Definition accepted (resp : outcome (Z * pyval)) : bool :=
  match resp with
  | Ok (st, data) => ((st =? 200)%Z || (st =? 201)%Z) && Py.truthy data
  | Raise _ => false
  end.

(** The write calls among the events, in order: the path, and whether the
    write was accepted. *)
Definition put_log (evs : list event) : list (pyval * bool) :=
  flat_map (fun e =>
              match e with
              | EvRequest (ApiCreateOrUpdateFile p) _ _ _ resp => [(p, accepted resp)]
              | _ => []
              end) evs.

(** The user has no key for either provider. *)
Definition no_ai_key (user : User) : bool :=
  negb (truthy_str (anthropic_key (api_keys user)))
  && negb (truthy_str (openai_key (api_keys user))).

(** The hash that [get_file_content] returns for the answer [resp] of
    GitHub: [None] unless the status is 200 and the body is not empty. *)
Definition probed_sha (resp : outcome (Z * pyval)) : pyval :=
  match resp with
  | Ok (st, data) =>
      if not_200_or_empty st data then PNone
      else match Py.get data "sha" PNone with
           | Ok v => v
           | Raise _ => PNone
           end
  | Raise _ => PNone
  end.

(** The hash a write call carries: the value at the key [sha] of its
    payload. *)
Definition payload_sha (args : pyval) : option pyval :=
  match args with
  | PDict d => Py.assoc "sha" d
  | _ => None
  end.

(** The paths probed, and the paths written with the hash carried, among
    the events. *)
Definition probes (evs : list event) : list pyval :=
  flat_map (fun e =>
              match e with
              | EvRequest (ApiGetFileContent p) _ _ _ _ => [p]
              | _ => []
              end) evs.

Definition writes (evs : list event) : list (pyval * option pyval) :=
  flat_map (fun e =>
              match e with
              | EvRequest (ApiCreateOrUpdateFile p) _ _ args _ => [(p, payload_sha args)]
              | _ => []
              end) evs.

(** The hash the write call carries when its argument [sha] is [v]. *)
Definition carried (v : pyval) : option pyval :=
  if Py.truthy v then Some v else None.

(** What the commit phase returns, in terms of its write calls [log]:
    the calls follow the list of changes; when the phase returns a result,
    every change has been attempted, the committed paths of the result
    are exactly the paths of the accepted calls, a subsequence of the
    paths of the changes, and the result is a success exactly when a call
    was accepted. *)
Definition reported (changes : list FileChange) (log : list (pyval * bool))
  (o : outcome WorkflowResult) : Prop :=
  (exists k, map fst log = firstn k (map path changes))
  /\ forall r,
       o = Ok r ->
       map fst log = map path changes
       /\ committed_paths r = map fst (filter snd log)
       /\ subseq (committed_paths r) (map path changes)
       /\ (success r = true <-> filter snd log <> [])
       /\ (success r = true ->
           changed_files r = Some (map fst (filter snd log))).

(** The kinds of the events of steps 1 to 5. *)
Definition run_kinds : list kind :=
  [KProgress; KGetRepo; KGetBranchSha; KCreateBranch; KGetTree; KOpenStream;
   KStream].

(** ** The other methods of [GitHubClient]

    The methods of [client.py] that [execute] does not call; the bot's
    commands call them.  Each is written over [self._request], a variable
    of the section, so what is proved of them holds for every way the
    request is made. *)

(** [Branch] *)
Record Branch : Type := mk_branch {
  br_name : pyval;
  br_sha : pyval;
  br_protected : pyval
}.

(** [for x in data]: the elements of a list, the keys of a dict, the
    characters of a string; a value of another type is not iterable. *)
Definition iterate (data : pyval) : outcome (list pyval) :=
  match data with
  | PList l => Ok l
  | PDict d => Ok (map (fun kv => PStr (fst kv)) d)
  | PStr s =>
      Ok (map (fun c => PStr (String c EmptyString)) (list_ascii_of_string s))
  | v => Raise (mk_exn TypeError
                  ("'" +++ Py.type_name v +++ "' object is not iterable"))
  end.

(** The expression [Repository(id=repo[...], ...)] of [list_repos]. *)
Definition repository_of (repo : pyval) : outcome Repository :=
  v_id <-? Py.getitem repo "id" ;;
  v_name <-? Py.getitem repo "name" ;;
  v_full_name <-? Py.getitem repo "full_name" ;;
  v_description <-? Py.get repo "description" PNone ;;
  v_private <-? Py.getitem repo "private" ;;
  v_default_branch <-? Py.get repo "default_branch" (PStr "main") ;;
  v_clone_url <-? Py.getitem repo "clone_url" ;;
  v_ssh_url <-? Py.getitem repo "ssh_url" ;;
  v_html_url <-? Py.getitem repo "html_url" ;;
  Ok (mk_repository v_id v_name v_full_name v_description v_private
        v_default_branch v_clone_url v_ssh_url v_html_url).

(** The expression [Branch(name=branch[...], ...)] of [list_branches]. *)
Definition branch_of (b : pyval) : outcome Branch :=
  v_name <-? Py.getitem b "name" ;;
  c <-? Py.getitem b "commit" ;;
  v_sha <-? Py.getitem c "sha" ;;
  v_protected <-? Py.get b "protected" (PBool false) ;;
  Ok (mk_branch v_name v_sha v_protected).

Section ClientCommands.

(** [self._request(method, endpoint, ...)] *)
Variable request_ : string -> string -> pyval -> M (Z * pyval).

Definition get_user : M pyval :=
  r <- request_ "GET" "/user" PNone ;;
  let (status, data) := r in
  ret (if (status =? 200)%Z then data else PNone).

Definition list_repos (sort : string) (per_page : Z) : M (list Repository) :=
  r <- request_ "GET" "/user/repos"
         (PDict [("sort", PStr sort); ("per_page", PInt per_page)]) ;;
  let (status, data) := r in
  if not_200_or_empty status data then ret []
  else
    repos <- lift (iterate data) ;;
    lift (omap repository_of repos).

Definition list_branches (owner repo : string) : M (list Branch) :=
  r <- request_ "GET" ("/repos/" +++ owner +++ "/" +++ repo +++ "/branches")
         PNone ;;
  let (status, data) := r in
  if not_200_or_empty status data then ret []
  else
    branches <- lift (iterate data) ;;
    lift (omap branch_of branches).

Definition get_recent_commits (owner repo branch_ : string) (per_page : Z)
  : M pyval :=
  r <- request_ "GET" ("/repos/" +++ owner +++ "/" +++ repo +++ "/commits")
         (PDict [("sha", PStr branch_); ("per_page", PInt per_page)]) ;;
  let (status, data) := r in
  ret (if not_200_or_empty status data then PList [] else data).

Definition list_pull_requests (owner repo state : string) (per_page : Z)
  : M pyval :=
  r <- request_ "GET" ("/repos/" +++ owner +++ "/" +++ repo +++ "/pulls")
         (PDict [("state", PStr state); ("per_page", PInt per_page)]) ;;
  let (status, data) := r in
  ret (if not_200_or_empty status data then PList [] else data).

Definition get_pull_request (owner repo : string) (pr_number : Z) : M pyval :=
  r <- request_ "GET"
         ("/repos/" +++ owner +++ "/" +++ repo +++ "/pulls/" +++ Str.of_Z pr_number)
         PNone ;;
  let (status, data) := r in
  ret (if (status =? 200)%Z then data else PNone).

(** The JSON payload of the merge call: the key [commit_title] is present
    exactly when the argument is true. *)
Definition merge_payload (commit_title : option string) (merge_method : string)
  : pyval :=
  PDict ([("merge_method", PStr merge_method)]
         ++ (if truthy_str commit_title
             then [("commit_title", PStr (key_of commit_title))] else [])).

Definition merge_pull_request (owner repo : string) (pr_number : Z)
  (commit_title : option string) (merge_method : string) : M (bool * pyval) :=
  r <- request_ "PUT"
         ("/repos/" +++ owner +++ "/" +++ repo +++ "/pulls/"
          +++ Str.of_Z pr_number +++ "/merge")
         (merge_payload commit_title merge_method) ;;
  let (status, data) := r in
  if (status =? 200)%Z then
    m <- lift (Py.get data "message" (PStr "PR merged successfully")) ;;
    ret (true, m)
  else if (status =? 405)%Z then
    ret (false, PStr "PR cannot be merged (conflicts or not mergeable)")
  else if (status =? 404)%Z then ret (false, PStr "PR not found")
  else if (status =? 403)%Z then
    ret (false, PStr "You don't have permission to merge this PR")
  else
    m <- lift (Py.get data "message"
                 (PStr ("Merge failed (status " +++ Str.of_Z status +++ ")"))) ;;
    ret (false, m).

End ClientCommands.

(** ** Further cases

    A model answer that is one file object, without the key [files], and
    a library that decodes it. *)

Module Cases.

Definition single_json : string := Scenario.file_json "a.py".

Definition single_val : pyval := Scenario.file_val "a.py".

Definition loads (s : string) : option pyval :=
  Py.assoc s ((single_json, single_val) :: Scenario.table).

Definition lib : PyLib :=
  mk_lib loads (py_repr Scenario.lib) (b64encode Scenario.lib)
    (b64decode_utf8 Scenario.lib).

(** A client whose requests are all answered with [r]. *)
Definition answer (r : Z * pyval) : string -> string -> pyval -> M (Z * pyval) :=
  fun _ _ _ => ret r.

(** A repository object that lacks the key [default_branch]. *)
Definition bare_repo : pyval :=
  PDict [("id", PInt 2); ("name", PStr "bare");
         ("full_name", PStr "owner/bare"); ("private", PBool true);
         ("clone_url", PStr "https://github.com/owner/bare.git");
         ("ssh_url", PStr "git@github.com:owner/bare.git");
         ("html_url", PStr "https://github.com/owner/bare")].

End Cases.

(** ** Observations on the streamed text *)

(** The text that a line of the response adds to [full_content]: the text
    of its event, when the line is a data line whose JSON value carries
    one. *)
Definition fragment_of (L : PyLib) (text_of : pyval -> outcome (option pyval))
  (line : string) : string :=
  if Str.startswith "data: " line then
    match json_loads L (Str.drop 6 line) with
    | Some event_ =>
        match text_of event_ with
        | Ok (Some (PStr text)) => text
        | _ => EmptyString
        end
    | None => EmptyString
    end
  else EmptyString.

(** The lines before the end marker. *)
Fixpoint until_done (ls : list string) : list string :=
  match ls with
  | [] => []
  | line :: rest => if is_done_line line then [] else line :: until_done rest
  end.

(** A callback that does not raise, as the callbacks of the bot, which
    catch every exception; no callback at all is one. *)
Definition quiet {A : Type} (cb : option (callback A)) : Prop :=
  forall f, cb = Some f -> forall tr a, f tr a = Ok tt.

(** ** Observations on the calls of a run *)

(** The branch that a write call names: the value at the key [branch] of
    its payload. *)
Definition written_branch (e : event) : option pyval :=
  match e with
  | EvRequest (ApiCreateOrUpdateFile _) _ _ args _ =>
      Some (match Py.get args "branch" PNone with
            | Ok v => v
            | Raise _ => PNone
            end)
  | _ => None
  end.

(** The working branch of a run: the branch of the caller in continuation
    mode, a branch under [amadeus/] otherwise. *)
Definition working_branch (existing_branch : option string) (b : string) : Prop :=
  if truthy_str existing_branch then b = key_of existing_branch
  else Str.startswith "amadeus/" b = true.

(** The percentages reported to [on_progress], in order. *)
Definition percentages (evs : list event) : list Z :=
  flat_map (fun e => match e with
                     | EvProgress p => [percentage p]
                     | _ => []
                     end) evs.

(** Each number is greater than the one before it, the first greater than
    [lo]. *)
Fixpoint increasing_from (lo : Z) (l : list Z) : bool :=
  match l with
  | [] => true
  | x :: l' => (lo <? x)%Z && increasing_from x l'
  end.

(** [paced lo hi R c]: the percentages that [c] reports increase, from
    above [lo] to at most [hi], and a value [c] returns satisfies [R]. *)
Definition paced {A : Type} (lo hi : Z) (R : A -> Prop) (c : M A) : Prop :=
  spec c (fun evs o =>
            increasing_from lo (percentages evs) = true
            /\ (lo <= last (percentages evs) lo <= hi)%Z
            /\ forall a, o = Ok a -> R a).

(** [completes cb evs o]: when the computation returns a successful
    result and a callback is given, the last percentage reported is 100. *)
Definition completes (on_progress : option (callback WorkflowProgress))
  (evs : list event) (o : outcome WorkflowResult) : Prop :=
  forall r cb,
    o = Ok r -> success r = true -> on_progress = Some cb ->
    exists pre, percentages evs = pre ++ [100%Z].

(** The messages of the failures that [execute] returns before it asks for
    changes, and the kinds of the calls made until then. *)
Definition early_messages : list string :=
  ["GitHub not connected"; "No repository selected"; "Repository not found";
   "Could not get branch SHA"; "Could not create branch"].

Definition early_kinds : list kind :=
  [KProgress; KGetRepo; KGetBranchSha; KCreateBranch].

(** [stops_early m evs o]: when the result is a failure of the steps 1 to 3,
    the run has made no call beyond those of these steps. *)
Definition stops_early {A : Type} (message_of : A -> option string)
  (evs : list event) (o : outcome A) : Prop :=
  forall a m,
    o = Ok a -> message_of a = Some m -> In m early_messages ->
    Forall (within early_kinds) evs.

(** The message of the result of steps 1 to 5, when they end the run. *)
Definition early_result {B : Type} (x : WorkflowResult + B) : option string :=
  match x with
  | inl r => Some (message r)
  | inr _ => None
  end.

(** ** Texts and items

    [s.isascii()]: every character is below 128.  On such a text one
    [ascii] is one character of the Python string, and [str.lower] and the
    classes [\s], [\w] and [\b] of [re] are those of [Str] and [Re]. *)
Definition isascii (s : string) : bool :=
  Re.all_chars (fun c => (nat_of_ascii c <? 128)%nat) s.

(** The test of l.598 on an item of [files_data]: the item is a dict
    that has both keys [path] and [content]. *)
Definition is_file_object (item : pyval) : bool :=
  match item with
  | PDict d =>
      match Py.assoc "path" d, Py.assoc "content" d with
      | Some _, Some _ => true
      | _, _ => false
      end
  | _ => false
  end.

(** ** Runs that an outage interrupts *)

Module Outage.

(** GitHub as in [Scenario.github_api], but the connection fails when the
    pull request is opened: [httpx] raises [ConnectError] in
    [create_pull_request]. *)
Definition github_pulls_down (tr : trace) (token method endpoint : string)
  (args : pyval) : outcome (Z * pyval) :=
  if (endpoint =? "/repos/owner/repo/pulls")%string
  then Raise (mk_exn TransportError "All connection attempts failed")
  else Scenario.github_api tr token method endpoint args.

Definition world : World :=
  mk_world github_pulls_down (fun _ _ _ _ => Ok Scenario.stream_ok)
    Scenario.clock Scenario.hex.

End Outage.

(** ** Cancellation

    [execute] is a coroutine and runs in an asyncio task.  When the task
    is cancelled (the main task of the bot at a keyboard interrupt,
    [cli/multiuser.py] l.1797), asyncio raises [CancelledError] at the
    [await] where the task is suspended.  [CancelledError] derives from
    [BaseException], not from [Exception]: every handler of [workflow.py]
    (l.267, l.468, l.477, l.559, l.568, l.609) and of [client.py] (l.79)
    names [Exception] or one of its subclasses, and neither file has a
    [finally] clause (the [async with] blocks close their client and let
    the exception pass), so the exception leaves [execute] from that
    [await] and nothing of [execute] runs after it.  The task is suspended
    while it waits for the network: in a request of
    [GitHubClient._request] (l.76) and in the opening of the stream of the
    provider (l.413, l.512); these are the awaits at which the model
    cancels a run.  (The task can also be suspended inside a callback and
    between the lines of the stream; a cancellation there leaves [execute]
    in the same way.) *)

(** How a run of a coroutine ends: it returns or raises an exception of
    class [Exception], or [CancelledError] leaves it. *)
Inductive ending (A : Type) : Type :=
| Returned (o : outcome A)
| Cancelled.

Arguments Returned {A} o.
Arguments Cancelled {A}.

(** The events at which the task waits for the network. *)
Definition is_network_call (e : event) : bool :=
  match e with
  | EvRequest _ _ _ _ _ | EvOpenStream _ _ _ _ => true
  | EvProgress _ | EvStream _ => false
  end.

(** The events before the network call number [n] (from 0) of [evs];
    [None] when [evs] has [n] network calls at most. *)
Fixpoint before_call (n : nat) (evs : list event) : option (list event) :=
  match evs with
  | [] => None
  | e :: rest =>
      if is_network_call e then
        match n with
        | O => Some []
        | S n' => option_map (cons e) (before_call n' rest)
        end
      else option_map (cons e) (before_call n rest)
  end.

(** The run of [c] in a task that is cancelled while it waits for the
    answer of its network call number [n]: the events before that call,
    then [CancelledError]; a run with [n] calls at most ends before the
    cancellation. *)
Definition cancelled_at {A : Type} (n : nat) (c : M A) (tr : trace)
  : trace * ending A :=
  let (tr', o) := c tr in
  match before_call n (skipn (length tr) tr') with
  | Some evs => (tr ++ evs, Cancelled)
  | None => (tr', Returned o)
  end.

(** The events [evs] of a run whose first network call is the request of
    [get_repo] for [owner/repo], after progress reports only. *)
Definition first_call_is_get_repo (owner repo : string) (evs : list event)
  : Prop :=
  exists pre resp rest,
    evs = pre ++ EvRequest ApiGetRepo "GET"
                   ("/repos/" +++ owner +++ "/" +++ repo) PNone resp :: rest
    /\ Forall (fun e => exists p, e = EvProgress p) pre.

(* ================================================================== *)
(** * Part II: properties *)
(* ================================================================== *)

(** ** The logic of runs *)

Lemma spec_ret {A : Type} (a : A) (Q : list event -> outcome A -> Prop) :
  Q [] (Ok a) -> spec (ret a) Q.
Proof.
  intros H tr. exists [], (Ok a). unfold ret. now rewrite app_nil_r.
Qed.

Lemma spec_lift {A : Type} (o : outcome A) (Q : list event -> outcome A -> Prop) :
  Q [] o -> spec (lift o) Q.
Proof.
  intros H tr. exists [], o. unfold lift. now rewrite app_nil_r.
Qed.

Lemma spec_raise {A : Type} (e : exn) (Q : list event -> outcome A -> Prop) :
  Q [] (Raise e) -> spec (raise e) Q.
Proof.
  intros H tr. exists [], (Raise e). unfold raise. now rewrite app_nil_r.
Qed.

Lemma spec_conseq {A : Type} (c : M A) (Q1 Q : list event -> outcome A -> Prop) :
  spec c Q1 -> (forall evs o, Q1 evs o -> Q evs o) -> spec c Q.
Proof.
  intros H HQ tr. destruct (H tr) as (evs & o & E & HQ1).
  exists evs, o. auto.
Qed.

Lemma spec_bind {A B : Type} (c : M A) (k : A -> M B)
  (Q1 : list event -> outcome A -> Prop) (Q : list event -> outcome B -> Prop) :
  spec c Q1 ->
  (forall evs1 a, Q1 evs1 (Ok a) ->
     spec (k a) (fun evs2 o => Q (evs1 ++ evs2) o)) ->
  (forall evs1 e, Q1 evs1 (Raise e) -> Q evs1 (Raise e)) ->
  spec (bind c k) Q.
Proof.
  intros Hc Hk He tr. unfold bind.
  destruct (Hc tr) as (evs1 & o1 & E1 & H1). rewrite E1.
  destruct o1 as [a | e].
  - destruct (Hk evs1 a H1 (tr ++ evs1)) as (evs2 & o2 & E2 & H2).
    exists (evs1 ++ evs2), o2. rewrite E2, app_assoc. auto.
  - exists evs1, (Raise e). auto.
Qed.

Lemma spec_try {A : Type} (c : M A) (h : exn -> M A)
  (Q1 Q : list event -> outcome A -> Prop) :
  spec c Q1 ->
  (forall evs a, Q1 evs (Ok a) -> Q evs (Ok a)) ->
  (forall evs1 e, Q1 evs1 (Raise e) ->
     spec (h e) (fun evs2 o => Q (evs1 ++ evs2) o)) ->
  spec (try_except c h) Q.
Proof.
  intros Hc Hok Hh tr. unfold try_except.
  destruct (Hc tr) as (evs1 & o1 & E1 & H1). rewrite E1.
  destruct o1 as [a | e].
  - exists evs1, (Ok a). auto.
  - destruct (Hh evs1 e H1 (tr ++ evs1)) as (evs2 & o2 & E2 & H2).
    exists (evs1 ++ evs2), o2. rewrite E2, app_assoc. auto.
Qed.

Lemma emits_ret {A : Type} (P : event -> Prop) (R : A -> Prop) (a : A) :
  R a -> emits P R (ret a).
Proof.
  intros H. apply spec_ret. split; [constructor|].
  intros a' E. now inversion E; subst.
Qed.

Lemma emits_raise {A : Type} (P : event -> Prop) (R : A -> Prop) (e : exn) :
  emits P R (raise e).
Proof.
  apply spec_raise. split; [constructor | discriminate].
Qed.

Lemma emits_lift {A : Type} (P : event -> Prop) (R : A -> Prop) (o : outcome A) :
  (forall a, o = Ok a -> R a) -> emits P R (lift o).
Proof.
  intros H. apply spec_lift. split; [constructor | exact H].
Qed.

Lemma emits_weaken {A : Type} (P P' : event -> Prop) (R R' : A -> Prop) (c : M A) :
  emits P R c ->
  (forall e, P e -> P' e) -> (forall a, R a -> R' a) ->
  emits P' R' c.
Proof.
  intros H HP HR. eapply spec_conseq; [exact H|].
  intros evs o [HF Ho]. split.
  - eapply Forall_impl; eauto.
  - auto.
Qed.

Lemma emits_bind {A B : Type} (P : event -> Prop) (R1 : A -> Prop) (R : B -> Prop)
  (c : M A) (k : A -> M B) :
  emits P R1 c -> (forall a, R1 a -> emits P R (k a)) ->
  emits P R (bind c k).
Proof.
  intros Hc Hk. eapply spec_bind; [exact Hc | |].
  - intros evs1 a [HF Ha]. eapply spec_conseq; [apply Hk; auto|].
    intros evs2 o [HF2 Ho]. split; [apply Forall_app; auto | exact Ho].
  - intros evs1 e [HF _]. split; [exact HF | discriminate].
Qed.

Lemma emits_try {A : Type} (P : event -> Prop) (R : A -> Prop) (c : M A) (h : exn -> M A) :
  emits P R c -> (forall e, emits P R (h e)) -> emits P R (try_except c h).
Proof.
  intros Hc Hh. eapply spec_try; [exact Hc | |].
  - intros evs a H. exact H.
  - intros evs1 e [HF _]. eapply spec_conseq; [apply Hh|].
    intros evs2 o [HF2 Ho]. split; [apply Forall_app; auto | exact Ho].
Qed.

Lemma within_incl (ks ks' : list kind) (e : event) :
  incl ks ks' -> within ks e -> within ks' e.
Proof. unfold within. auto. Qed.

(** The footprint of a computation can be enlarged and its result
    forgotten. *)
Lemma emits_within {A : Type} (ks ks' : list kind) (R R' : A -> Prop) (c : M A) :
  emits (within ks) R c -> incl ks ks' -> (forall a, R a -> R' a) ->
  emits (within ks') R' c.
Proof.
  intros H Hi HR. eapply emits_weaken; eauto.
  intros e. now apply within_incl.
Qed.

(** ** Footprints: the kinds of events each function emits *)

Lemma emits_bind_any {A B : Type} (P : event -> Prop) (R : B -> Prop)
  (c : M A) (k : A -> M B) :
  emits P any c -> (forall a, emits P R (k a)) -> emits P R (bind c k).
Proof. intros Hc Hk. eapply emits_bind; [exact Hc | auto]. Qed.

Lemma emits_any {A : Type} (P : event -> Prop) (R : A -> Prop) (c : M A) :
  emits P R c -> emits P any c.
Proof. intros H. eapply emits_weaken; eauto. intros; exact I. Qed.

Lemma _request_footprint (W : World) (token : string) (via : api)
  (method endpoint : string) (args : pyval) :
  emits (within [kind_of_api via]) any (_request W token via method endpoint args).
Proof.
  intros tr. unfold _request. eexists _, _. split; [reflexivity|].
  split; [|intros; exact I].
  repeat constructor.
Qed.

Lemma progress_footprint (cb : option (callback WorkflowProgress))
  (step_ msg : string) (pct : Z) :
  emits (within [KProgress]) any (progress cb step_ msg pct).
Proof.
  unfold progress. destruct cb as [cb|].
  - intros tr. eexists _, _. split; [reflexivity|].
    split; [repeat constructor | intros; exact I].
  - now apply emits_ret.
Qed.

Lemma notify_stream_footprint (cb : option (callback StreamingUpdate))
  (u : StreamingUpdate) :
  emits (within [KStream]) any (notify_stream cb u).
Proof.
  unfold notify_stream. destruct cb as [cb|].
  - intros tr. eexists _, _. split; [reflexivity|].
    split; [repeat constructor | intros; exact I].
  - now apply emits_ret.
Qed.

Create HintDb footprint.

#[local] Hint Resolve _request_footprint progress_footprint
  notify_stream_footprint : footprint.

(** [incl] between two explicit lists of kinds. *)
Ltac kinds_incl :=
  let k := fresh "k" in
  let H := fresh "H" in
  intros k H; simpl in H |- *;
  repeat (destruct H as [H | H]; [subst k; tauto|]); contradiction.

(** One step in the proof of a footprint: a leaf, a sequence, or a case
    distinction on the value the computation branches on. *)
Ltac footprint_leaf :=
  first
    [ apply emits_ret; exact I
    | apply emits_raise
    | apply emits_lift; intros; exact I
    | eapply emits_within;
      [ solve [eauto with footprint] | kinds_incl | intros; exact I ] ].

Ltac footprint_step :=
  first
    [ footprint_leaf
    | apply emits_bind_any; [ footprint_leaf | intros ]
    | match goal with
      | |- emits _ _ (match ?x with _ => _ end) => destruct x
      end ].

Ltac footprint := repeat footprint_step.

Lemma get_repo_footprint (W : World) (token owner repo : string) :
  emits (within [KGetRepo]) any (get_repo W token owner repo).
Proof. unfold get_repo. footprint. Qed.

Lemma create_branch_footprint (W : World) (token owner repo name : string)
  (from_sha : pyval) :
  emits (within [KCreateBranch]) any (create_branch W token owner repo name from_sha).
Proof. unfold create_branch. footprint. Qed.

Lemma get_branch_sha_footprint (L : PyLib) (W : World)
  (token owner repo : string) (b : pyval) :
  emits (within [KGetBranchSha]) any (get_branch_sha L W token owner repo b).
Proof. unfold get_branch_sha. footprint. Qed.

Lemma get_file_content_footprint (L : PyLib) (W : World)
  (token owner repo : string) (p : pyval) (ref : option string) :
  emits (within [KGetFileContent]) any (get_file_content L W token owner repo p ref).
Proof. unfold get_file_content. footprint. Qed.

Lemma create_or_update_file_footprint (L : PyLib) (W : World)
  (token owner repo : string) (p c : pyval) (m b : string) (s : pyval) :
  emits (within [KCreateOrUpdateFile]) any
    (create_or_update_file L W token owner repo p c m b s).
Proof. unfold create_or_update_file. footprint. Qed.

Lemma create_pull_request_footprint (W : World)
  (token owner repo title body head : string) (base : pyval) :
  emits (within [KCreatePullRequest]) any
    (create_pull_request W token owner repo title body head base).
Proof. unfold create_pull_request. footprint. Qed.

Lemma get_tree_footprint (L : PyLib) (W : World) (token owner repo : string)
  (ref : pyval) :
  emits (within [KGetTree]) any (get_tree L W token owner repo ref).
Proof. unfold get_tree. footprint. Qed.

#[local] Hint Resolve get_repo_footprint create_branch_footprint
  get_branch_sha_footprint get_file_content_footprint
  create_or_update_file_footprint create_pull_request_footprint
  get_tree_footprint : footprint.

(** ** The streamed call: the events of the loop *)

Lemma existsb_eqb_false (f : string) (l : list string) :
  existsb (String.eqb f) l = false -> ~ In f l.
Proof.
  intros H HI. assert (existsb (String.eqb f) l = true) as E.
  { apply existsb_exists. exists f. split; [exact HI | apply String.eqb_refl]. }
  congruence.
Qed.

Lemma NoDup_snoc (f : string) (l : list string) :
  NoDup l -> ~ In f l -> NoDup (l ++ [f]).
Proof.
  intros Hl Hf. apply NoDup_rev in Hl.
  rewrite <- (rev_involutive (l ++ [f])). apply NoDup_rev.
  rewrite rev_app_distr. simpl. constructor; [|exact Hl].
  now rewrite <- in_rev.
Qed.

Lemma writings_app (d a1 a2 : list string) :
  writings d (a1 ++ a2) = writings d a1 ++ writings (d ++ a1) a2.
Proof.
  unfold writings. revert d. induction a1 as [|f a1 IH]; intros d; simpl.
  - now rewrite app_nil_r.
  - rewrite IH. now rewrite <- app_assoc.
Qed.

Lemma announce_nil (os : option (callback StreamingUpdate)) (d : list string) :
  announce os d [] = [].
Proof. now destruct os. Qed.

Lemma announce_app (os : option (callback StreamingUpdate)) (d a1 a2 : list string) :
  announce os d (a1 ++ a2) = announce os d a1 ++ announce os (d ++ a1) a2.
Proof.
  destruct os; simpl; [|reflexivity].
  now rewrite writings_app, map_app.
Qed.

(** The loop over the new files appends the paths [added] to
    [files_detected], without a duplicate, and announces each of them. *)
Lemma notify_new_files_run (os : option (callback StreamingUpdate))
  (new_files detected : list string) (tr : trace) :
  exists added o,
    notify_new_files os new_files detected tr
    = (tr ++ announce os detected added, (detected ++ added, o))
    /\ (NoDup detected -> NoDup (detected ++ added)).
Proof.
  revert detected tr. induction new_files as [|f rest IH]; intros detected tr.
  - exists [], (Ok tt). simpl. now rewrite announce_nil, !app_nil_r.
  - simpl. destruct (existsb (String.eqb f) detected) eqn:E.
    + apply IH.
    + apply existsb_eqb_false in E.
      destruct os as [cb|]; simpl.
      * destruct (cb tr (writing_update f (detected ++ [f]))) as [[]|e].
        -- destruct (IH (detected ++ [f]) (tr ++ [EvStream (writing_update f (detected ++ [f]))]))
             as (added & o & Eq & ND).
           exists (f :: added), o. rewrite Eq. split.
           ++ unfold writings. simpl. now rewrite <- !app_assoc.
           ++ intros Hd. rewrite <- app_assoc in ND. apply ND.
              now apply NoDup_snoc.
        -- exists [f], (Raise e). split; [reflexivity|].
           intros Hd. now apply NoDup_snoc.
      * destruct (IH (detected ++ [f]) tr) as (added & o & Eq & ND).
        exists (f :: added), o. rewrite Eq. simpl. split.
        -- now rewrite <- app_assoc.
        -- intros Hd. rewrite <- app_assoc in ND. apply ND.
           now apply NoDup_snoc.
Qed.

(** The same for the body of the loop over the lines. *)
Lemma process_line_run (L : PyLib) (text_of : pyval -> outcome (option pyval))
  (os : option (callback StreamingUpdate)) (line : string)
  (st : stream_state) (tr : trace) :
  exists added st' o,
    process_line L text_of os line st tr
    = (tr ++ announce os (files_detected st) added, (st', o))
    /\ files_detected st' = files_detected st ++ added
    /\ (NoDup (files_detected st) -> NoDup (files_detected st')).
Proof.
  assert (forall o : outcome loop_ctl, exists added st' o',
             (tr, (st, o)) = (tr ++ announce os (files_detected st) added, (st', o'))
             /\ files_detected st' = files_detected st ++ added
             /\ (NoDup (files_detected st) -> NoDup (files_detected st'))) as Same.
  { intros o. exists [], st, o. rewrite announce_nil, !app_nil_r. auto. }
  unfold process_line.
  destruct (negb (Str.startswith "data: " line)); [apply Same|].
  destruct (Str.drop 6 line =? "[DONE]")%string; [apply Same|].
  destruct (json_loads L (Str.drop 6 line)) as [ev|]; [|apply Same].
  destruct (text_of ev) as [[v|]|e]; [| apply Same |].
  - destruct v; try apply Same.
    destruct (notify_new_files_run os
                (Re.findall_path (Str.drop (last_update_len st) (full_content st +++ s)))
                (files_detected st) tr) as (added & o & Eq & ND).
    rewrite Eq. destruct o as [[]|e].
    + eexists added, _, _. split; [reflexivity|]. simpl. auto.
    + destruct (is_json_decode_error e);
        (eexists added, _, _; split; [reflexivity|]; simpl; auto).
  - destruct (is_json_decode_error e); apply Same.
Qed.

(** The loop over the lines. *)
Lemma consume_lines_run (L : PyLib) (text_of : pyval -> outcome (option pyval))
  (os : option (callback StreamingUpdate)) (ls : list string)
  (broken_ : option exn) (st : stream_state) (tr : trace) :
  exists added st' o,
    consume_lines L text_of os ls broken_ st tr
    = (tr ++ announce os (files_detected st) added, (st', o))
    /\ files_detected st' = files_detected st ++ added
    /\ (NoDup (files_detected st) -> NoDup (files_detected st')).
Proof.
  revert st tr. induction ls as [|line rest IH]; intros st tr; simpl.
  - exists [], st. destruct broken_ as [e|];
      eexists; rewrite announce_nil, !app_nil_r; auto.
  - destruct (process_line_run L text_of os line st tr)
      as (a1 & st1 & o1 & E1 & F1 & N1). rewrite E1.
    destruct o1 as [[|]|e].
    + destruct (IH st1 (tr ++ announce os (files_detected st) a1))
        as (a2 & st2 & o2 & E2 & F2 & N2).
      exists (a1 ++ a2), st2, o2. rewrite E2, F1. split; [|split].
      * now rewrite announce_app, app_assoc.
      * rewrite F2, F1. now rewrite app_assoc.
      * auto.
    + exists a1, st1, (Ok tt). auto.
    + exists a1, st1, (Raise e). auto.
Qed.

(** A broken transport ends the loop with an exception, unless the end
    marker comes first. *)
Lemma consume_lines_broken (L : PyLib) (text_of : pyval -> outcome (option pyval))
  (os : option (callback StreamingUpdate)) (ls : list string) (e : exn)
  (st : stream_state) (tr : trace) :
  Forall (fun l => is_done_line l = false) ls ->
  exists e', snd (snd (consume_lines L text_of os ls (Some e) st tr)) = Raise e'.
Proof.
  intros H. revert st tr. induction H as [|line rest Hl Hrest IH]; intros st tr; simpl.
  - now exists e.
  - destruct (process_line L text_of os line st tr) as [tr1 [st1 o1]] eqn:E1.
    destruct o1 as [[|]|e1].
    + apply IH.
    + exfalso. unfold process_line in E1. unfold is_done_line in Hl.
      destruct (Str.startswith "data: " line); cbn [negb andb] in Hl, E1;
        [|congruence].
      rewrite Hl in E1.
      destruct (json_loads L (Str.drop 6 line)) as [ev|]; [|congruence].
      destruct (text_of ev) as [[v|]|e2]; try congruence.
      * destruct v; try congruence.
        destruct (notify_new_files os _ (files_detected st) tr) as [? [? [|e3]]];
          [congruence|].
        destruct (is_json_decode_error e3); congruence.
      * destruct (is_json_decode_error e2); congruence.
    + now exists e1.
Qed.

Lemma writings_not_done (d a : list string) :
  Forall (fun u => is_done u = false) (writings d a).
Proof.
  unfold writings. apply Forall_forall. intros u Hu.
  apply in_map_iff in Hu. destruct Hu as (p & <- & _). reflexivity.
Qed.

Lemma writings_are_writing (d a : list string) :
  Forall (fun u => is_writing u = true) (writings d a).
Proof.
  unfold writings. apply Forall_forall. intros u Hu.
  apply in_map_iff in Hu. destruct Hu as (p & <- & _). reflexivity.
Qed.

(** The run of a streamed call: the request, then the updates [us]; the
    call itself always returns. *)
Lemma stream_call_run (L : PyLib) (W : World)
  (text_of : pyval -> outcome (option pyval)) (url key : string) (timeout : Z)
  (payload : pyval) (os : option (callback StreamingUpdate)) (tr : trace) :
  let r := open_stream W tr url key payload in
  let ev0 := EvOpenStream url timeout payload r in
  exists us o,
    stream_call L W text_of url key timeout payload os tr
    = (tr ++ ev0 :: map EvStream us, Ok o)
    /\ (us = [] \/
        exists paths tail,
          NoDup paths
          /\ us = thinking_update :: writings [] paths ++ tail
          /\ (tail = [] \/ tail = [done_update paths]))
    /\ ((forall resp, r = Ok resp -> status_code resp <> 200%Z) ->
        us = [] /\ o = no_changes)
    /\ (os = None -> us = [])
    /\ (forall resp e,
          r = Ok resp -> broken resp = Some e ->
          Forall (fun l => is_done_line l = false) (lines resp) ->
          Forall (fun u => is_done u = false) us /\ o = no_changes)
    /\ (forall resp cb,
          r = Ok resp -> status_code resp = 200%Z -> os = Some cb ->
          cb (tr ++ [ev0]) thinking_update = Ok tt ->
          snd (snd (consume_lines L text_of os (lines resp) (broken resp)
                      (mk_state EmptyString [] 0)
                      (tr ++ [ev0; EvStream thinking_update]))) = Ok tt ->
          exists paths,
            NoDup paths
            /\ us = thinking_update :: writings [] paths ++ [done_update paths]).
Proof.
  intros r ev0.
  unfold stream_call, try_except, bind, ret, lift. fold r. fold ev0.
  destruct r as [resp|e0] eqn:Er.
  2:{ exists [], no_changes. simpl. repeat split; auto; try discriminate. }
  destruct (status_code resp =? 200)%Z eqn:Es; simpl.
  2:{ apply Z.eqb_neq in Es. exists [], no_changes. repeat split; auto.
      intros resp' cb H H2. inversion H; subst. contradiction. }
  apply Z.eqb_eq in Es.
  destruct os as [cb|]; simpl.
  - destruct (cb (tr ++ [ev0]) thinking_update) as [[]|e1] eqn:Ecb.
    + destruct (consume_lines_run L text_of (Some cb) (lines resp) (broken resp)
                  (mk_state EmptyString [] 0)
                  ((tr ++ [ev0]) ++ [EvStream thinking_update]))
        as (added & st & oc & Ec & Fd & Nd).
      simpl in Fd. specialize (Nd (NoDup_nil _)). rewrite Fd in Nd.
      rewrite Ec. simpl announce. destruct oc as [[]|e2].
      * exists (thinking_update :: writings [] added ++ [done_update added]).
        rewrite Fd.
        destruct (cb _ (done_update added)) as [[]|e3];
          [destruct (_parse_ai_response_with_meta L (full_content st)) as [x|e4]|];
          eexists; (split; [rewrite <- !app_assoc; simpl; now rewrite map_app|]);
          (split; [right; exists added, [done_update added]; auto|]);
          (split; [intros H; exfalso; now apply (H resp)|]);
          (split; [discriminate|]);
          (split; [
             intros resp' e' H Hb Hl; inversion H; subst resp';
             destruct (consume_lines_broken L text_of (Some cb) (lines resp) e'
                         (mk_state EmptyString [] 0)
                         ((tr ++ [ev0]) ++ [EvStream thinking_update]) Hl) as (e'' & He'');
             rewrite <- Hb, Ec in He''; discriminate
           | intros resp' cb' H _ _ _ _; exists added; auto ]).
      * exists (thinking_update :: writings [] added), no_changes.
        split; [rewrite <- !app_assoc; reflexivity|].
        split; [right; exists added, []; rewrite app_nil_r; auto|].
        split; [intros H; exfalso; now apply (H resp)|].
        split; [discriminate|].
        split.
        -- intros resp' e' _ _ _. split; [|reflexivity].
           constructor; [reflexivity | apply writings_not_done].
        -- intros resp' cb' H _ H3 _ Hc. inversion H; subst resp'.
           inversion H3; subst cb'.
           rewrite <- app_assoc in Ec. simpl in Ec. rewrite Ec in Hc.
           discriminate.
    + exists [thinking_update], no_changes.
      split; [rewrite <- app_assoc; reflexivity|].
      split; [right; exists [], []; repeat split; auto; constructor|].
      split; [intros H; exfalso; now apply (H resp)|].
      split; [discriminate|].
      split.
      * intros. split; [repeat constructor | reflexivity].
      * intros resp' cb' H _ H3 Hc. inversion H3; subst cb'. congruence.
  - destruct (consume_lines_run L text_of None (lines resp) (broken resp)
                (mk_state EmptyString [] 0) (tr ++ [ev0]))
      as (added & st & oc & Ec & Fd & Nd).
    rewrite Ec. simpl announce. rewrite app_nil_r.
    destruct oc as [[]|e2].
    + destruct (_parse_ai_response_with_meta L (full_content st)) as [x|e4];
        exists []; eexists; (split; [reflexivity|]);
        (split; [now left|]);
        (split; [intros H; exfalso; now apply (H resp)|]);
        (split; [reflexivity|]);
        (split; [
           intros resp' e' H Hb Hl; inversion H; subst resp';
           destruct (consume_lines_broken L text_of None (lines resp) e'
                       (mk_state EmptyString [] 0) (tr ++ [ev0]) Hl) as (e'' & He'');
           rewrite <- Hb, Ec in He''; discriminate
         | intros resp' cb' _ _ H; discriminate ]).
    + exists [], no_changes. split; [reflexivity|].
      split; [now left|].
      split; [intros H; exfalso; now apply (H resp)|].
      split; [reflexivity|].
      split; [intros; split; [constructor | reflexivity] | intros resp' cb' _ _ H; discriminate].
Qed.

(** ** C4 and C9: the updates of a streamed call *)

Lemma stream_events_updates (e : event) (us : list StreamingUpdate) :
  kind_of e <> KStream -> stream_events (e :: map EvStream us) = us.
Proof.
  intros H. unfold stream_events. simpl.
  destruct e; simpl in *; try congruence.
  - induction us; simpl; congruence.
  - induction us; simpl; congruence.
  - induction us; simpl; congruence.
Qed.

Lemma discoveries_writings (d a : list string) :
  discoveries (writings d a) = prefixes_from d a.
Proof.
  unfold writings. revert d. induction a as [|f a IH]; intros d; simpl.
  - reflexivity.
  - unfold discoveries in *. simpl. now rewrite IH.
Qed.

Lemma discoveries_app (us vs : list StreamingUpdate) :
  discoveries (us ++ vs) = discoveries us ++ discoveries vs.
Proof. unfold discoveries. apply flat_map_app. Qed.

Lemma prefixes_from_fst (acc paths : list string) :
  map fst (prefixes_from acc paths) = paths.
Proof.
  revert acc. induction paths as [|f ps IH]; intros acc; simpl; [reflexivity|].
  now rewrite IH.
Qed.

(** Two consecutive discoveries: the second list is the first with the new
    path at its end. *)
Lemma prefixes_from_step (acc paths : list string)
  (pre post : list (string * list string)) (f1 f2 : string) (l1 l2 : list string) :
  NoDup (acc ++ paths) ->
  prefixes_from acc paths = pre ++ (f1, l1) :: (f2, l2) :: post ->
  l2 = l1 ++ [f2] /\ ~ In f2 l1.
Proof.
  revert acc pre. induction paths as [|p ps IH]; intros acc pre ND E.
  - destruct pre; discriminate.
  - simpl in E. destruct pre as [|x pre].
    + simpl in E. destruct ps as [|p2 ps]; [discriminate|].
      simpl in E. inversion E; subst. split; [reflexivity|].
      replace (acc ++ f1 :: f2 :: ps) with ((acc ++ [f1]) ++ f2 :: ps) in ND
        by now rewrite <- app_assoc.
      now apply NoDup_remove_2 in ND; rewrite in_app_iff in ND; intuition.
    + simpl in E. inversion E; subst.
      apply (IH (acc ++ [p]) pre); [|assumption].
      now rewrite <- app_assoc.
Qed.

Lemma provider_call_run (L : PyLib) (W : World)
  (api_key system user_msg model : string)
  (os : option (callback StreamingUpdate))
  (text_of : pyval -> outcome (option pyval))
  (call : M (list FileChange * pyval * pyval)) :
  provider_call L W api_key system user_msg model os text_of call ->
  exists url timeout payload,
    call = stream_call L W text_of url api_key timeout payload os.
Proof. intros []; do 3 eexists; reflexivity. Qed.

(** C9.  For every streamed model call, the [files_so_far] lists of the
    successive [writing_file] updates grow by one appended path each: there
    is a duplicate-free list of paths of which the [k]-th update reports the
    [k]-th path together with the first [k] paths; paths already reported
    are neither removed nor reordered, and no path triggers a second
    update. *)
Theorem C9_files_so_far_grows (L : PyLib) (W : World)
  (api_key system user_msg model : string)
  (os : option (callback StreamingUpdate))
  (text_of : pyval -> outcome (option pyval))
  (call : M (list FileChange * pyval * pyval)) :
  provider_call L W api_key system user_msg model os text_of call ->
  forall tr, discoveries_grow call tr.
Proof.
  intros Hc tr.
  destruct (provider_call_run _ _ _ _ _ _ _ _ _ Hc) as (url & timeout & payload & ->).
  destruct (stream_call_run L W text_of url api_key timeout payload os tr)
    as (us & o & E & Shape & _).
  assert (exists paths, NoDup paths /\ discoveries us = prefixes_from [] paths)
    as (paths & ND & D).
  { destruct Shape as [-> | (paths & tail & ND & -> & Ht)].
    - exists []. split; [constructor | reflexivity].
    - exists paths. split; [exact ND|].
      change (thinking_update :: writings [] paths ++ tail)
        with ([thinking_update] ++ writings [] paths ++ tail).
      rewrite !discoveries_app, discoveries_writings.
      destruct Ht as [-> | ->]; simpl; now rewrite app_nil_r. }
  eexists _, (Ok o), paths. split; [exact E|].
  rewrite stream_events_updates by discriminate.
  split; [exact ND|]. split; [exact D|]. split.
  - intros pre f1 l1 f2 l2 post Ed. rewrite D in Ed.
    now apply (prefixes_from_step [] paths pre post f1 f2 l1 l2).
  - now rewrite D, prefixes_from_fst.
Qed.

(** C4, as the code has it.  For every streamed model call, the updates
    delivered to [on_stream] are in [stream_order]: [thinking] comes before
    every [writing_file] update and [done] is emitted at most once, as the
    last update.  When the provider does not answer with status 200 no
    update is emitted at all; when the transport breaks in mid-stream no
    [done] is emitted; [done] is emitted, once and last, when the loop over
    the lines ends without an exception. *)
Theorem C4_stream_discipline (L : PyLib) (W : World)
  (api_key system user_msg model : string)
  (os : option (callback StreamingUpdate))
  (text_of : pyval -> outcome (option pyval))
  (call : M (list FileChange * pyval * pyval)) :
  provider_call L W api_key system user_msg model os text_of call ->
  forall tr, stream_discipline L W text_of api_key os call tr.
Proof.
  intros Hc tr.
  destruct (provider_call_run _ _ _ _ _ _ _ _ _ Hc) as (url & timeout & payload & ->).
  destruct (stream_call_run L W text_of url api_key timeout payload os tr)
    as (us & o & E & Shape & Refused & Silent & Broken & Completed).
  exists url, timeout, payload, us, o. cbv zeta.
  split; [exact E|]. split; [|split; [|split; [|split]]].
  - destruct Shape as [-> | (paths & tail & _ & -> & Ht)]; [now left|].
    right. exists (writings [] paths), tail.
    split; [reflexivity|]. split; [apply writings_are_writing|].
    destruct Ht as [-> | ->]; [now left | right; now exists paths].
  - intros H. now apply Refused.
  - exact Silent.
  - intros resp e H1 H2 H3. now apply (Broken resp e).
  - intros resp cb H1 H2 H3 H4 H5.
    destruct (Completed resp cb H1 H2 H3 H4 H5) as (paths & _ & ->).
    exists (writings [] paths), paths.
    split; [reflexivity | apply writings_are_writing].
Qed.

(** ** Footprints and results of the phases of [execute] *)

(** The walk through a computation: at a [ret] leaf the tactic [tacR]
    proves the property of the result. *)
Ltac emits_leaf tacR :=
  first
    [ apply emits_ret; tacR
    | apply emits_raise
    | apply emits_lift; intros; tacR
    | eapply emits_within;
      [ solve [eauto with footprint] | kinds_incl | intros; exact I ] ].

Ltac emits_walk tacR :=
  repeat first
    [ emits_leaf tacR
    | apply emits_bind_any; [ solve [emits_walk ltac:(exact I)] | intros ]
    | match goal with
      | |- emits _ _ (match ?x with _ => _ end) => destruct x
      end ].

Lemma stream_call_footprint (L : PyLib) (W : World)
  (text_of : pyval -> outcome (option pyval)) (url key : string) (timeout : Z)
  (payload : pyval) (os : option (callback StreamingUpdate)) :
  emits (within [KOpenStream; KStream]) any
    (stream_call L W text_of url key timeout payload os).
Proof.
  intros tr.
  destruct (stream_call_run L W text_of url key timeout payload os tr)
    as (us & o & E & _).
  eexists _, _. split; [exact E|]. split; [|intros; exact I].
  constructor; [now left|].
  apply Forall_forall. intros e He. apply in_map_iff in He.
  destruct He as (u & <- & _). right. now left.
Qed.

Lemma stream_call_refused (L : PyLib) (W : World)
  (text_of : pyval -> outcome (option pyval)) (url key : string) (timeout : Z)
  (payload : pyval) (os : option (callback StreamingUpdate)) :
  refusing W ->
  emits (within [KOpenStream; KStream]) (fun r => r = no_changes)
    (stream_call L W text_of url key timeout payload os).
Proof.
  intros HW tr.
  destruct (stream_call_run L W text_of url key timeout payload os tr)
    as (us & o & E & _ & Refused & _).
  destruct Refused as [-> ->]; [intros resp; apply HW|].
  eexists _, _. split; [exact E|]. split.
  - constructor; [now left | constructor].
  - intros a Ha. now inversion Ha.
Qed.

Lemma _call_anthropic_streaming_footprint (L : PyLib) (W : World)
  (key system user_msg model : string) (os : option (callback StreamingUpdate)) :
  emits (within [KOpenStream; KStream]) any
    (_call_anthropic_streaming L W key system user_msg model os).
Proof. apply stream_call_footprint. Qed.

Lemma _call_openai_streaming_footprint (L : PyLib) (W : World)
  (key system user_msg model : string) (os : option (callback StreamingUpdate)) :
  emits (within [KOpenStream; KStream]) any
    (_call_openai_streaming L W key system user_msg model os).
Proof. apply stream_call_footprint. Qed.

#[local] Hint Resolve stream_call_footprint _call_anthropic_streaming_footprint
  _call_openai_streaming_footprint : footprint.

(** [_generate_ai_changes] returns a list of changes that is not empty, or
    raises. *)
Lemma _generate_ai_changes_nonempty (L : PyLib) (W : World) (user : User)
  (prompt repo_context : string) (file_tree : pyval)
  (history : option (list pyval)) (os : option (callback StreamingUpdate)) :
  emits (within [KOpenStream; KStream]) (fun r => fst (fst r) <> [])
    (_generate_ai_changes L W user prompt repo_context file_tree history os).
Proof.
  unfold _generate_ai_changes.
  emits_walk ltac:(simpl; discriminate).
Qed.

(** With a provider that refuses every request it raises. *)
Lemma _generate_ai_changes_refused (L : PyLib) (W : World) (user : User)
  (prompt repo_context : string) (file_tree : pyval)
  (history : option (list pyval)) (os : option (callback StreamingUpdate)) :
  refusing W ->
  emits (within [KOpenStream; KStream]) (fun _ => False)
    (_generate_ai_changes L W user prompt repo_context file_tree history os).
Proof.
  intros HW. unfold _generate_ai_changes.
  apply emits_bind_any; [emits_leaf ltac:(exact I)|]. intros tree.
  apply emits_bind_any; [emits_leaf ltac:(exact I)|]. intros hist.
  cbv zeta.
  destruct (negb _ && negb _); [apply emits_raise|].
  apply emits_bind with (R1 := fun r => r = Some no_changes \/ r = None).
  - repeat match goal with
           | |- emits _ _ (if ?b then _ else _) => destruct b
           end;
      try (apply emits_ret; now right);
      (eapply emits_bind;
       [ apply stream_call_refused; exact HW
       | intros r ->; apply emits_ret; now left ]).
  - intros r [-> | ->]; apply emits_raise.
Qed.

Lemma _simple_file_creation_single (W : World) (prompt : string) :
  emits (within []) (fun l => exists c, l = [c]) (_simple_file_creation W prompt).
Proof.
  intros tr. unfold _simple_file_creation.
  destruct (Re.search_filename (Str.lower prompt));
    (eexists [], _; rewrite app_nil_r; split; [reflexivity|];
     split; [constructor|]; intros a Ha; inversion Ha; eauto).
Qed.

Lemma _generate_branch_name_footprint (W : World) (prompt : string) :
  emits (within []) any (_generate_branch_name W prompt).
Proof.
  intros tr. unfold _generate_branch_name.
  eexists [], _. rewrite app_nil_r. split; [reflexivity|].
  split; [constructor | intros; exact I].
Qed.

#[local] Hint Resolve _generate_branch_name_footprint : footprint.

Lemma emits_sub {A : Type} (ks : list kind) (P : event -> Prop) (R : A -> Prop)
  (c : M A) :
  emits (within ks) R c -> (forall e, within ks e -> P e) -> emits P R c.
Proof. intros H HP. eapply emits_weaken; eauto. Qed.

Section RunProperties.

Variable L : PyLib.
Variable W : World.
Variable user : User.
Variable prompt : string.
Variable on_progress : option (callback WorkflowProgress).
Variable on_stream : option (callback StreamingUpdate).
Variable create_pr : bool.
Variable history : option (list pyval).
Variable existing_branch : option string.
Variable existing_pr_number : option Z.
Variable repo_full_name_ access_token_ owner repo_name_ : string.

Lemma resolve_branch_fresh (base_sha : pyval) :
  emits (within [KProgress; KCreateBranch]) (resolved (fun _ => True))
    (resolve_branch W prompt on_progress existing_branch access_token_ owner
       repo_name_ base_sha).
Proof.
  unfold resolve_branch.
  emits_walk ltac:(simpl; eauto).
Qed.

(** In continuation mode step 3 issues no request and yields the branch
    of the caller. *)
Lemma resolve_branch_existing (base_sha : pyval) :
  truthy_str existing_branch = true ->
  emits (within [KProgress]) (resolved (fun b => b = key_of existing_branch))
    (resolve_branch W prompt on_progress existing_branch access_token_ owner
       repo_name_ base_sha).
Proof.
  intros H. unfold resolve_branch. rewrite H.
  emits_walk ltac:(simpl; eauto).
Qed.

Lemma generate_changes_nonempty (db : pyval) :
  emits (within [KProgress; KGetTree; KOpenStream; KStream])
    (fun g => fst (fst g) <> [])
    (generate_changes L W user prompt on_progress on_stream history
       access_token_ owner repo_name_ db).
Proof.
  unfold generate_changes.
  apply emits_bind_any; [emits_leaf ltac:(exact I)|]. intros _.
  apply emits_bind_any; [emits_leaf ltac:(exact I)|]. intros tree.
  cbv zeta.
  apply emits_bind_any; [emits_leaf ltac:(exact I)|]. intros _.
  apply emits_bind with (R1 := fun g => fst (fst g) <> []).
  - destruct (negb _ && negb _).
    + eapply emits_bind;
        [eapply emits_within;
         [apply _simple_file_creation_single | kinds_incl | intros a Ha; exact Ha]|].
      intros l [c ->]. apply emits_ret. simpl. discriminate.
    + eapply emits_within;
        [apply _generate_ai_changes_nonempty | kinds_incl | auto].
  - intros [[[|c cs] s] n] Hg; [now simpl in Hg|].
    now apply emits_ret.
Qed.

(** Without a provider key, steps 4 and 5 open no stream and yield the one
    change of [_simple_file_creation]. *)
Lemma generate_changes_without_key (db : pyval) :
  no_ai_key user = true ->
  emits (within [KProgress; KGetTree])
    (fun g => exists c, g = ([c], PNone, PNone))
    (generate_changes L W user prompt on_progress on_stream history
       access_token_ owner repo_name_ db).
Proof.
  unfold no_ai_key. intros H. unfold generate_changes. rewrite H.
  apply emits_bind_any; [emits_leaf ltac:(exact I)|]. intros _.
  apply emits_bind_any; [emits_leaf ltac:(exact I)|]. intros tree.
  cbv zeta.
  apply emits_bind_any; [emits_leaf ltac:(exact I)|]. intros _.
  apply emits_bind with (R1 := fun g => exists c, g = ([c], PNone, PNone)).
  - eapply emits_bind;
      [eapply emits_within;
       [apply _simple_file_creation_single | kinds_incl | intros a Ha; exact Ha]|].
    intros l [c ->]. apply emits_ret. eauto.
  - intros g [c ->]. apply emits_ret. eauto.
Qed.

(** With a provider key and a provider that refuses, steps 4 and 5 end
    with an exception. *)
Lemma generate_changes_refused (db : pyval) :
  refusing W -> no_ai_key user = false ->
  emits (within [KProgress; KGetTree; KOpenStream; KStream]) (fun _ => False)
    (generate_changes L W user prompt on_progress on_stream history
       access_token_ owner repo_name_ db).
Proof.
  unfold no_ai_key. intros HW H. unfold generate_changes. rewrite H.
  apply emits_bind_any; [emits_leaf ltac:(exact I)|]. intros _.
  apply emits_bind_any; [emits_leaf ltac:(exact I)|]. intros tree.
  cbv zeta.
  apply emits_bind_any; [emits_leaf ltac:(exact I)|]. intros _.
  apply emits_bind with (R1 := fun _ => False); [|intros g []].
  eapply emits_within;
    [apply _generate_ai_changes_refused; exact HW | kinds_incl | auto].
Qed.

Lemma prepare_emits (P : event -> Prop) (branch_ok : string -> Prop)
  (G : list FileChange * pyval * pyval -> Prop) :
  (forall e, within [KProgress; KGetRepo; KGetBranchSha] e -> P e) ->
  (forall sha_,
     emits P (resolved branch_ok)
       (resolve_branch W prompt on_progress existing_branch access_token_
          owner repo_name_ sha_)) ->
  (forall db,
     emits P G
       (generate_changes L W user prompt on_progress on_stream history
          access_token_ owner repo_name_ db)) ->
  emits P (prepared branch_ok G)
    (prepare L W user prompt on_progress on_stream history existing_branch
       repo_full_name_ access_token_ owner repo_name_).
Proof.
  intros HP Hres Hgen. unfold prepare.
  assert (forall (A : Type) (c : M A) ks,
             emits (within ks) any c -> incl ks [KProgress; KGetRepo; KGetBranchSha] ->
             emits P any c) as Sub.
  { intros A c ks Hc Hi. eapply emits_sub; [exact Hc|].
    intros e He. apply HP. revert He. now apply within_incl. }
  apply emits_bind_any; [eapply Sub; [apply progress_footprint | kinds_incl]|].
  intros _.
  apply emits_bind_any; [eapply Sub; [apply get_repo_footprint | kinds_incl]|].
  intros [repo_|]; [|apply emits_ret; simpl; eauto].
  apply emits_bind_any; [eapply Sub; [apply progress_footprint | kinds_incl]|].
  intros _.
  apply emits_bind_any; [eapply Sub; [apply get_branch_sha_footprint | kinds_incl]|].
  intros base_sha.
  destruct (negb (Py.truthy base_sha)); [apply emits_ret; simpl; eauto|].
  eapply emits_bind; [apply Hres|].
  intros [r | b] Hb; [apply emits_ret; exact Hb|].
  eapply emits_bind; [apply Hgen|].
  intros g Hg. apply emits_ret. simpl. auto.
Qed.

Lemma commit_change_footprint (b : string) (change : FileChange) :
  emits (within [KGetFileContent; KCreateOrUpdateFile]) any
    (commit_change L W access_token_ owner repo_name_ b change).
Proof. unfold commit_change. emits_walk ltac:(exact I). Qed.

Lemma commit_changes_footprint (b : string) (changes : list FileChange)
  (commit : option Commit) (files : list pyval) :
  emits (within [KGetFileContent; KCreateOrUpdateFile]) any
    (commit_changes L W access_token_ owner repo_name_ b changes commit files).
Proof.
  revert commit files. induction changes as [|ch rest IH]; intros commit files.
  - now apply emits_ret.
  - simpl. apply emits_bind_any; [apply commit_change_footprint|].
    intros c. apply IH.
Qed.

Lemma pull_request_url_footprint (b : string) (db : pyval) (files : list pyval) :
  emits (within [KProgress; KCreatePullRequest]) any
    (pull_request_url L W prompt on_progress create_pr existing_pr_number
       repo_full_name_ access_token_ owner repo_name_ b db files).
Proof. unfold pull_request_url. emits_walk ltac:(exact I). Qed.

#[local] Hint Resolve commit_changes_footprint pull_request_url_footprint
  : footprint.

(** The commit phase returns a failure, or a success on its branch with a
    committed path. *)
Lemma commit_and_report_shape (b : string) (db : pyval)
  (changes : list FileChange) (s n : pyval) :
  emits (within [KProgress; KGetFileContent; KCreateOrUpdateFile;
                 KCreatePullRequest])
    (result_shape (fun b' => b' = b))
    (commit_and_report L W prompt on_progress create_pr existing_pr_number
       repo_full_name_ access_token_ owner repo_name_ b db changes s n).
Proof.
  unfold commit_and_report.
  emits_walk ltac:(constructor; reflexivity).
Qed.

Lemma execute_body_emits (P : event -> Prop) (branch_ok : string -> Prop)
  (G : list FileChange * pyval * pyval -> Prop) (R : WorkflowResult -> Prop) :
  emits P (prepared branch_ok G)
    (prepare L W user prompt on_progress on_stream history existing_branch
       repo_full_name_ access_token_ owner repo_name_) ->
  (forall m e, R (failure m e)) ->
  (forall b db c s n,
     branch_ok b -> G (c, s, n) ->
     emits P R
       (commit_and_report L W prompt on_progress create_pr existing_pr_number
          repo_full_name_ access_token_ owner repo_name_ b db c s n)) ->
  emits P R
    (execute_body L W user prompt on_progress on_stream create_pr history
       existing_branch existing_pr_number repo_full_name_ access_token_ owner
       repo_name_).
Proof.
  intros Hprep Hfail Hcommit. unfold execute_body.
  eapply emits_bind; [exact Hprep|].
  intros [r | [[b db] [[c s] n]]] Hp; simpl in Hp.
  - destruct Hp as (m & e & ->). now apply emits_ret.
  - destruct Hp as [Hb Hg]. now apply Hcommit.
Qed.

End RunProperties.

(** ** The commit loop *)

Lemma payload_sha_write (m enc b : string) (v : pyval) :
  payload_sha (write_payload m enc b v) = carried v.
Proof. unfold write_payload, carried. now destruct (Py.truthy v). Qed.

(** The probe is one request; the hash it returns is [probed_sha]. *)
Lemma get_file_content_run (L : PyLib) (W : World) (token owner repo : string)
  (p : pyval) (ref : option string) :
  spec (get_file_content L W token owner repo p ref)
    (fun evs o =>
       exists ep params resp,
         evs = [EvRequest (ApiGetFileContent p) "GET" ep params resp]
         /\ forall c v, o = Ok (c, v) -> v = probed_sha resp).
Proof.
  intros tr. unfold get_file_content, bind, _request, ret, lift.
  set (resp := request W tr token "GET" _ _).
  destruct resp as [[st data]|e] eqn:E.
  - destruct (not_200_or_empty st data) eqn:En.
    + eexists _, _. split; [reflexivity|]. do 3 eexists.
      split; [reflexivity|]. intros c v H. inversion H; subst.
      unfold probed_sha. now rewrite En.
    + destruct (Py.get data "content" (PStr EmptyString)) as [b64|e1];
        [destruct (b64decode_utf8 L b64) as [text|e2];
         [destruct (Py.get data "sha" PNone) as [v|e3] eqn:Ev|]|];
        (eexists _, _; split; [reflexivity|]; do 3 eexists;
         split; [reflexivity|]; intros c v' H; inversion H; subst;
         unfold probed_sha; now rewrite En, Ev).
  - eexists _, _. split; [reflexivity|]. do 3 eexists.
    split; [reflexivity|]. discriminate.
Qed.

(** The write is at most one request, with the payload of
    [write_payload]; it returns a commit exactly when the answer is
    [accepted]. *)
Lemma create_or_update_file_run (L : PyLib) (W : World)
  (token owner repo : string) (p c : pyval) (m b : string) (v : pyval) :
  spec (create_or_update_file L W token owner repo p c m b v)
    (fun evs o =>
       (evs = [] /\ exists e, o = Raise e)
       \/ exists ep enc resp,
            evs = [EvRequest (ApiCreateOrUpdateFile p) "PUT" ep
                     (write_payload m enc b v) resp]
            /\ forall r, o = Ok r -> (r <> None <-> accepted resp = true)).
Proof.
  intros tr. unfold create_or_update_file, bind, _request, ret, lift.
  destruct c as [| | |s| |];
    try (eexists [], _; rewrite app_nil_r; split; [reflexivity|]; left; eauto).
  set (resp := request W tr token "PUT" _ _).
  destruct resp as [[st data]|e] eqn:E.
  - unfold accepted.
    destruct (negb ((st =? 200)%Z || (st =? 201)%Z) || negb (Py.truthy data)) eqn:Ea.
    + eexists _, _. split; [reflexivity|]. right. do 3 eexists.
      split; [reflexivity|]. intros r H. inversion H; subst r.
      split; [congruence|]. intros Hacc.
      destruct ((st =? 200)%Z || (st =? 201)%Z), (Py.truthy data); discriminate.
    + assert (((st =? 200)%Z || (st =? 201)%Z) && Py.truthy data = true) as Hacc.
      { destruct ((st =? 200)%Z || (st =? 201)%Z), (Py.truthy data);
          simpl in *; congruence. }
      repeat match goal with
             | |- context [match Py.get ?a ?k ?d with _ => _ end] =>
                 destruct (Py.get a k d)
             end;
        (eexists _, _; split; [reflexivity|]; right; do 3 eexists;
         split; [reflexivity|]; intros r H; inversion H; subst;
         (split; [intros _; exact Hacc | discriminate])).
  - eexists _, _. split; [reflexivity|]. right. do 3 eexists.
    split; [reflexivity|]. discriminate.
Qed.

Lemma put_log_app (evs1 evs2 : list event) :
  put_log (evs1 ++ evs2) = put_log evs1 ++ put_log evs2.
Proof. unfold put_log. apply flat_map_app. Qed.

(** Events of other kinds are no write calls. *)
Lemma put_log_none (ks : list kind) (evs : list event) :
  ~ In KCreateOrUpdateFile ks -> Forall (within ks) evs -> put_log evs = [].
Proof.
  intros Hk H. induction H as [|e evs He _ IH]; [reflexivity|].
  change (e :: evs) with ([e] ++ evs).
  rewrite put_log_app, IH, app_nil_r. unfold within in He.
  destruct e as [[] ? ? ? ?| | |]; try reflexivity.
  simpl in He. contradiction.
Qed.

Lemma subseq_nil_l {A : Type} (l : list A) : subseq [] l.
Proof. induction l; constructor; auto. Qed.

Lemma subseq_accepted (l : list (pyval * bool)) :
  subseq (map fst (filter snd l)) (map fst l).
Proof.
  induction l as [|[p ok] l IH]; simpl; [constructor|].
  destruct ok; simpl; constructor; exact IH.
Qed.

Section CommitProperties.

Variable L : PyLib.
Variable W : World.
Variable prompt : string.
Variable on_progress : option (callback WorkflowProgress).
Variable create_pr : bool.
Variable existing_pr_number : option Z.
Variable repo_full_name_ access_token_ owner repo_name_ : string.

(** One turn of the loop: the probe, made exactly for the action
    [update], then at most one write, which carries the hash the probe
    returned. *)
Lemma commit_change_run (b : string) (change : FileChange) :
  spec (commit_change L W access_token_ owner repo_name_ b change)
    (fun evs o =>
       exists pre sha_,
         (if Py.eq_str (action change) "update"
          then exists ep params resp,
                 pre = [EvRequest (ApiGetFileContent (path change)) "GET" ep
                          params resp]
                 /\ sha_ = probed_sha resp
          else pre = [] /\ sha_ = PNone)
         /\ ((evs = pre /\ exists e, o = Raise e)
             \/ exists ep m enc wresp,
                  evs = pre ++ [EvRequest (ApiCreateOrUpdateFile (path change))
                                  "PUT" ep (write_payload m enc b sha_) wresp]
                  /\ forall r, o = Ok r -> (r <> None <-> accepted wresp = true))).
Proof.
  unfold commit_change.
  eapply spec_bind with
    (Q1 := fun evs1 o1 =>
             if Py.eq_str (action change) "update"
             then exists ep params resp,
                    evs1 = [EvRequest (ApiGetFileContent (path change)) "GET" ep
                              params resp]
                    /\ forall v, o1 = Ok v -> v = probed_sha resp
             else evs1 = [] /\ o1 = Ok PNone).
  - destruct (Py.eq_str (action change) "update").
    + eapply spec_bind; [apply get_file_content_run | |].
      * intros evs1 [c v] (ep & params & resp & -> & Hv).
        apply spec_ret. rewrite app_nil_r. do 3 eexists.
        split; [reflexivity|]. intros v' H. inversion H; subst.
        now apply (Hv c).
      * intros evs1 e (ep & params & resp & -> & _).
        do 3 eexists. split; [reflexivity | discriminate].
    + apply spec_ret. auto.
  - intros evs1 v H1.
    eapply spec_conseq; [apply create_or_update_file_run|].
    intros evs2 o H2. cbv beta.
    destruct (Py.eq_str (action change) "update").
    + destruct H1 as (ep & params & resp & -> & Hv).
      pose proof (Hv v eq_refl) as Ev. subst v.
      eexists _, _. split; [do 3 eexists; split; reflexivity|].
      destruct H2 as [[-> He] | (ep' & enc & wresp & -> & Hr)].
      * left. now rewrite app_nil_r.
      * right. do 4 eexists. split; [reflexivity | exact Hr].
    + destruct H1 as [-> Hv]. inversion Hv; subst v.
      exists [], PNone. split; [auto|].
      destruct H2 as [[-> He] | (ep' & enc & wresp & -> & Hr)].
      * now left.
      * right. do 4 eexists. split; [reflexivity | exact Hr].
  - intros evs1 e H1. cbv beta.
    destruct (Py.eq_str (action change) "update").
    + destruct H1 as (ep & params & resp & -> & _).
      eexists _, _. split; [do 3 eexists; split; reflexivity|].
      left. eauto.
    + destruct H1 as [_ H]. discriminate.
Qed.

(** The write calls of one turn: none, with an exception, or the one of
    the change, which is accepted exactly when the turn returns a commit. *)
Lemma commit_change_put_log (b : string) (change : FileChange) :
  spec (commit_change L W access_token_ owner repo_name_ b change)
    (fun evs o =>
       (put_log evs = [] /\ exists e, o = Raise e)
       \/ exists ok,
            put_log evs = [(path change, ok)]
            /\ forall r, o = Ok r -> (r <> None <-> ok = true)).
Proof.
  eapply spec_conseq; [apply commit_change_run|].
  intros evs o (pre & v & Hpre & H).
  assert (put_log pre = []) as Epre.
  { destruct (Py.eq_str (action change) "update").
    - now destruct Hpre as (ep & params & resp & -> & _).
    - now destruct Hpre as [-> _]. }
  destruct H as [[-> He] | (ep & m & enc & wresp & -> & Hr)].
  - now left.
  - right. exists (accepted wresp). rewrite put_log_app, Epre. auto.
Qed.

(** The loop attempts the changes in the order of the list, one write
    each, and [changed_files] receives the paths of the accepted writes. *)
Lemma commit_changes_run (b : string) (changes : list FileChange)
  (commit : option Commit) (files : list pyval) :
  spec (commit_changes L W access_token_ owner repo_name_ b changes commit files)
    (fun evs o =>
       (exists k, map fst (put_log evs) = firstn k (map path changes))
       /\ forall c files',
            o = Ok (c, files') ->
            map fst (put_log evs) = map path changes
            /\ files' = files ++ map fst (filter snd (put_log evs))).
Proof.
  revert commit files. induction changes as [|ch rest IH]; intros commit files.
  - simpl. apply spec_ret. split; [now exists 0|].
    intros c files' H. inversion H; subst. now rewrite app_nil_r.
  - simpl. eapply spec_bind; [apply commit_change_put_log | |].
    + intros evs1 c1 [[_ [e He]] | (ok & E1 & Hok)]; [discriminate|].
      eapply spec_conseq; [apply IH|].
      intros evs2 o [[k Hk] Hfin]. rewrite put_log_app, E1. simpl. split.
      * exists (S k). simpl. now rewrite Hk.
      * intros c files' Ho. destruct (Hfin c files' Ho) as [Hm Hf].
        split; [now rewrite Hm|].
        rewrite Hf. specialize (Hok c1 eq_refl).
        destruct c1 as [c1|], ok; simpl.
        -- now rewrite <- app_assoc.
        -- exfalso. assert (Some c1 <> None) as Hn by discriminate.
           apply Hok in Hn. discriminate.
        -- exfalso. destruct Hok as [_ Hok]. now apply Hok.
        -- reflexivity.
    + intros evs1 e [[E1 _] | (ok & E1 & _)]; rewrite E1.
      * split; [now exists 0 | discriminate].
      * split; [now exists 1 | discriminate].
Qed.

End CommitProperties.

#[local] Hint Resolve commit_changes_footprint pull_request_url_footprint
  : footprint.

(** A step without write calls in front of a computation. *)
Lemma spec_bind_quiet {A B : Type} (ks : list kind) (R : A -> Prop)
  (c : M A) (k : A -> M B) (Q : list (pyval * bool) -> outcome B -> Prop) :
  emits (within ks) R c -> ~ In KCreateOrUpdateFile ks ->
  (forall a, R a -> spec (k a) (fun evs o => Q (put_log evs) o)) ->
  (forall e, Q [] (Raise e)) ->
  spec (bind c k) (fun evs o => Q (put_log evs) o).
Proof.
  intros Hc Hks Hk He. eapply spec_bind; [exact Hc | |].
  - intros evs1 a [HF Ha]. eapply spec_conseq; [apply Hk; auto|].
    intros evs2 o H. cbv beta in *.
    now rewrite put_log_app, (put_log_none ks evs1 Hks HF).
  - intros evs1 e [HF _]. now rewrite (put_log_none ks evs1 Hks HF).
Qed.

(** A computation without write calls. *)
Lemma spec_quiet {A : Type} (ks : list kind) (R : A -> Prop) (c : M A)
  (Q : list (pyval * bool) -> outcome A -> Prop) :
  emits (within ks) R c -> ~ In KCreateOrUpdateFile ks ->
  (forall a, R a -> Q [] (Ok a)) -> (forall e, Q [] (Raise e)) ->
  spec c (fun evs o => Q (put_log evs) o).
Proof.
  intros Hc Hks Hok He. eapply spec_conseq; [exact Hc|].
  intros evs o [HF Ho]. cbv beta.
  rewrite (put_log_none ks evs Hks HF).
  destruct o as [a|e]; auto.
Qed.

Ltac not_in_kinds := simpl; intuition discriminate.

Section ReportProperties.

Variable L : PyLib.
Variable W : World.
Variable prompt : string.
Variable on_progress : option (callback WorkflowProgress).
Variable create_pr : bool.
Variable existing_pr_number : option Z.
Variable repo_full_name_ access_token_ owner repo_name_ : string.

Lemma commit_and_report_run (b : string) (db : pyval)
  (changes : list FileChange) (s n : pyval) :
  spec (commit_and_report L W prompt on_progress create_pr existing_pr_number
          repo_full_name_ access_token_ owner repo_name_ b db changes s n)
    (fun evs o => reported changes (put_log evs) o).
Proof.
  assert (forall e, reported changes [] (Raise e)) as Hraise.
  { intros e. split; [now exists 0 | discriminate]. }
  unfold commit_and_report.
  eapply spec_bind_quiet with (ks := [KProgress]) (R := any);
    [apply progress_footprint | not_in_kinds | | exact Hraise].
  intros _ _.
  eapply spec_bind_quiet with (ks := [KProgress]) (R := any);
    [apply progress_footprint | not_in_kinds | | exact Hraise].
  intros _ _.
  eapply spec_bind; [apply commit_changes_run | |].
  - intros evs1 [commit files] [Hk Hfin].
    destruct (Hfin commit files eq_refl) as [Hm Hf]. simpl in Hf.
    destruct files as [|f fs].
    + apply spec_ret. rewrite app_nil_r. split; [exact Hk|].
      intros r Hr. inversion Hr; subst r.
      unfold committed_paths. simpl.
      split; [exact Hm|]. split; [exact Hf|].
      split; [apply subseq_nil_l|].
      split; [|discriminate].
      split; [discriminate|]. intros Hn. exfalso. apply Hn.
      symmetry in Hf. now apply map_eq_nil in Hf.
    + eapply spec_conseq.
      * apply (spec_quiet [KProgress; KCreatePullRequest]
                 (fun r => success r = true /\ changed_files r = Some (f :: fs))
                 _
                 (fun log o =>
                    log = [] /\ forall r, o = Ok r ->
                      success r = true /\ changed_files r = Some (f :: fs))).
        -- emits_walk ltac:(split; reflexivity).
        -- not_in_kinds.
        -- intros r Hr. split; [reflexivity|]. intros r' E.
           inversion E; subst; exact Hr.
        -- intros e. split; [reflexivity | discriminate].
      * intros evs2 o [E2 Hr]. cbv beta in *.
        rewrite put_log_app, E2, app_nil_r. split; [exact Hk|].
        intros r Ho. destruct (Hr r Ho) as [Hs Hc].
        unfold committed_paths. rewrite Hc, Hf.
        split; [exact Hm|]. split; [reflexivity|].
        split; [rewrite <- Hm; apply subseq_accepted|].
        split; [|reflexivity].
        split; [|intros _; exact Hs].
        intros _ Hn. rewrite Hn in Hf. discriminate.
  - intros evs1 e [Hk _]. split; [exact Hk | discriminate].
Qed.

End ReportProperties.

(** ** The whole run *)

Section ExecuteProperties.

Variable L : PyLib.
Variable W : World.
Variable user : User.
Variable prompt : string.
Variable on_progress : option (callback WorkflowProgress).
Variable on_stream : option (callback StreamingUpdate).
Variable create_pr : bool.
Variable history : option (list pyval).
Variable existing_branch : option string.
Variable existing_pr_number : option Z.

(** Steps 1 to 5 make no write call and yield changes that are not
    empty. *)
Lemma prepare_quiet (repo_full_name_ access_token_ owner repo_name_ : string) :
  emits (within run_kinds)
    (prepared (fun _ => True) (fun g => fst (fst g) <> []))
    (prepare L W user prompt on_progress on_stream history existing_branch
       repo_full_name_ access_token_ owner repo_name_).
Proof.
  apply prepare_emits.
  - intros e. apply within_incl. kinds_incl.
  - intros sha_. eapply emits_within;
      [apply resolve_branch_fresh | kinds_incl | auto].
  - intros db. eapply emits_within;
      [apply generate_changes_nonempty | kinds_incl | auto].
Qed.

(** [execute]: the validations, the unpacking, then the body under the
    handler. *)
Lemma execute_emits (P : event -> Prop) (R : WorkflowResult -> Prop) :
  (forall m e, R (failure m e)) ->
  (forall repo_full_name_ access_token_ owner repo_name_,
     emits P R
       (execute_body L W user prompt on_progress on_stream create_pr history
          existing_branch existing_pr_number repo_full_name_ access_token_
          owner repo_name_)) ->
  emits P R
    (execute L W user prompt on_progress on_stream create_pr history
       existing_branch existing_pr_number).
Proof.
  intros Hfail Hbody. unfold execute.
  destruct (negb (is_connected (github user))); [now apply emits_ret|].
  destruct (negb (truthy_str (selected_repo (github user))));
    [now apply emits_ret|].
  cbv zeta. apply emits_bind_any; [apply emits_lift; intros; exact I|].
  intros [owner repo_name_]. apply emits_try; [apply Hbody|].
  intros e. unfold workflow_failed. now apply emits_ret.
Qed.

(** Every result of [execute] has one of the two shapes. *)
Lemma execute_shape :
  emits (fun _ => True) (result_shape (fun _ => True))
    (execute L W user prompt on_progress on_stream create_pr history
       existing_branch existing_pr_number).
Proof.
  apply execute_emits; [constructor|].
  intros rfn tok owner rn.
  eapply execute_body_emits.
  - eapply emits_weaken; [apply prepare_quiet | auto | intros a Ha; exact Ha].
  - constructor.
  - intros b db c s n _ _.
    eapply emits_weaken; [apply commit_and_report_shape | auto |].
    intros r Hr. destruct Hr; constructor; exact I.
Qed.

(** In continuation mode no event is a call of [create_branch], and a
    success is on the branch of the caller. *)
Lemma execute_continuation :
  truthy_str existing_branch = true ->
  emits (fun e => kind_of e <> KCreateBranch)
    (result_shape (fun b => b = key_of existing_branch))
    (execute L W user prompt on_progress on_stream create_pr history
       existing_branch existing_pr_number).
Proof.
  intros Hb.
  assert (forall ks e, ~ In KCreateBranch ks -> within ks e ->
                       kind_of e <> KCreateBranch) as Sub.
  { intros ks e Hn He E. apply Hn. unfold within in He. now rewrite E in He. }
  apply execute_emits; [constructor|].
  intros rfn tok owner rn.
  eapply execute_body_emits.
  - apply prepare_emits
      with (branch_ok := fun b => b = key_of existing_branch)
           (G := fun _ => True).
    + intros e. apply Sub. not_in_kinds.
    + intros sha_. eapply emits_sub;
        [apply resolve_branch_existing; exact Hb|].
      intros e. apply Sub. not_in_kinds.
    + intros db. eapply emits_sub; [eapply emits_any, generate_changes_nonempty|].
      intros e. apply Sub. not_in_kinds.
  - constructor.
  - intros b db c s n -> _.
    eapply emits_sub; [apply commit_and_report_shape|].
    intros e. apply Sub. not_in_kinds.
Qed.

(** A success reports exactly the paths of the accepted write calls of the
    run, in their order. *)
Lemma execute_run :
  spec (execute L W user prompt on_progress on_stream create_pr history
          existing_branch existing_pr_number)
    (fun evs o =>
       forall r, o = Ok r -> success r = true ->
                 changed_files r = Some (map fst (filter snd (put_log evs)))).
Proof.
  unfold execute.
  destruct (negb (is_connected (github user)));
    [apply spec_ret; intros r E; inversion E; discriminate|].
  destruct (negb (truthy_str (selected_repo (github user))));
    [apply spec_ret; intros r E; inversion E; discriminate|].
  cbv zeta.
  eapply spec_bind with (Q1 := fun evs o => evs = []).
  - now apply spec_lift.
  - intros evs1 [owner rn] ->. simpl.
    eapply spec_try with
      (Q1 := fun evs o =>
               forall r, o = Ok r -> success r = true ->
                         changed_files r = Some (map fst (filter snd (put_log evs)))).
    + unfold execute_body.
      apply (spec_bind_quiet run_kinds
               (prepared (fun _ => True) (fun g => fst (fst g) <> []))
               _ _
               (fun log o =>
                  forall r, o = Ok r -> success r = true ->
                            changed_files r = Some (map fst (filter snd log)))).
      * apply prepare_quiet.
      * unfold run_kinds. not_in_kinds.
      * intros [r | [[b db] [[c s] n]]] Hp; simpl in Hp.
        -- destruct Hp as (m & e & ->). apply spec_ret.
           intros r E. inversion E; discriminate.
        -- eapply spec_conseq; [apply commit_and_report_run|].
           intros evs o [_ Hrep] r Ho Hs.
           destruct (Hrep r Ho) as (_ & _ & _ & _ & Hok). now apply Hok.
      * discriminate.
    + auto.
    + intros evs e _. unfold workflow_failed. apply spec_ret.
      intros r E. inversion E; discriminate.
  - intros evs1 e ->. discriminate.
Qed.

(** A result of [execute] reports exactly the paths of the accepted write
    calls of the run, unless it is the result of the handler of l.267,
    which reports none. *)
Lemma execute_report :
  spec (execute L W user prompt on_progress on_stream create_pr history
          existing_branch existing_pr_number)
    (fun evs o =>
       forall r, o = Ok r ->
                 committed_paths r = map fst (filter snd (put_log evs))
                 \/ exists e, r = failure "Workflow failed" (exn_msg e)).
Proof.
  unfold execute.
  destruct (negb (is_connected (github user)));
    [apply spec_ret; intros r E; inversion E; now left|].
  destruct (negb (truthy_str (selected_repo (github user))));
    [apply spec_ret; intros r E; inversion E; now left|].
  cbv zeta.
  eapply spec_bind with (Q1 := fun evs o => evs = []).
  - now apply spec_lift.
  - intros evs1 [owner rn] ->. simpl.
    eapply spec_try with
      (Q1 := fun evs o =>
               forall r, o = Ok r ->
                         committed_paths r = map fst (filter snd (put_log evs))).
    + unfold execute_body.
      apply (spec_bind_quiet run_kinds
               (prepared (fun _ => True) (fun g => fst (fst g) <> []))
               _ _
               (fun log o =>
                  forall r, o = Ok r ->
                            committed_paths r = map fst (filter snd log))).
      * apply prepare_quiet.
      * unfold run_kinds. not_in_kinds.
      * intros [r | [[b db] [[c s] n]]] Hp; simpl in Hp.
        -- destruct Hp as (m & e & ->). apply spec_ret.
           intros r E. inversion E. reflexivity.
        -- eapply spec_conseq; [apply commit_and_report_run|].
           intros evs o [_ Hrep] r Ho.
           now destruct (Hrep r Ho) as (_ & Hc & _).
      * discriminate.
    + intros evs a H r E. left. now apply H.
    + intros evs e _. unfold workflow_failed. apply spec_ret.
      intros r E. inversion E. right. now exists e.
  - intros evs1 e ->. discriminate.
Qed.

(** [get_repo] makes one request. *)
Lemma get_repo_request (token owner repo : string) :
  spec (get_repo W token owner repo)
    (fun evs o =>
       exists resp,
         evs = [EvRequest ApiGetRepo "GET"
                  ("/repos/" +++ owner +++ "/" +++ repo) PNone resp]).
Proof.
  intros tr. unfold get_repo, bind, _request, ret, lift.
  set (resp := request W tr token "GET" _ _).
  destruct resp as [[st data]|e];
    [|eexists _, _; split; [reflexivity | eauto]].
  destruct (not_200_or_empty st data);
    [eexists _, _; split; [reflexivity | eauto]|].
  repeat match goal with
         | |- context [match Py.getitem ?a ?k with _ => _ end] =>
             destruct (Py.getitem a k)
         | |- context [match Py.get ?a ?k ?d with _ => _ end] =>
             destruct (Py.get a k d)
         end;
    (eexists _, _; split; [reflexivity | eauto]).
Qed.

Lemma first_call_app (owner repo : string) (evs1 evs2 : list event) :
  first_call_is_get_repo owner repo evs1 ->
  first_call_is_get_repo owner repo (evs1 ++ evs2).
Proof.
  intros (pre & resp & rest & -> & Hpre).
  exists pre, resp, (rest ++ evs2). split; [|exact Hpre].
  now rewrite <- app_assoc.
Qed.

(** With a progress callback that does not raise, the first network call
    of steps 1 to 5 is the request of [get_repo]. *)
Lemma prepare_first_call (repo_full_name_ access_token_ owner repo_name_ : string) :
  quiet on_progress ->
  spec (prepare L W user prompt on_progress on_stream history existing_branch
          repo_full_name_ access_token_ owner repo_name_)
    (fun evs _ => first_call_is_get_repo owner repo_name_ evs).
Proof.
  intros Hq.
  assert (forall (A : Type) ks (R : A -> Prop) (c : M A),
             emits (within ks) R c -> emits (fun _ => True) any c) as Any.
  { intros A ks R c H. eapply emits_weaken; [exact H | auto | intros; exact I]. }
  unfold prepare.
  eapply spec_bind with
    (Q1 := fun evs o =>
             Forall (fun e => exists p, e = EvProgress p) evs /\ o = Ok tt).
  - unfold progress. destruct on_progress as [cb|] eqn:Ecb.
    + intros tr. eexists _, _. split; [reflexivity|]. split.
      * constructor; [eauto | constructor].
      * apply (Hq cb eq_refl).
    + apply spec_ret. split; [constructor | reflexivity].
  - intros evs1 [] [Hpre _].
    eapply spec_bind with
      (Q1 := fun evs o =>
               exists resp,
                 evs = [EvRequest ApiGetRepo "GET"
                          ("/repos/" +++ owner +++ "/" +++ repo_name_)
                          PNone resp]).
    + apply get_repo_request.
    + intros evs2 repo [resp ->].
      eapply spec_conseq with (Q1 := fun evs o =>
                                       Forall (fun _ => True) evs
                                       /\ forall a, o = Ok a -> any a).
      * change (emits (fun _ : event => True) any
                  (match repo with
                   | None =>
                       ret (inl (failure "Repository not found"
                                   ("Could not access " +++ repo_full_name_)))
                   | Some repo_ =>
                       let default_branch_ := default_branch repo_ in
                       progress on_progress "branch" "🔍 Fetching branch..." 20 ;;;
                       base_sha <- get_branch_sha L W access_token_ owner
                                     repo_name_ default_branch_ ;;
                       if negb (Py.truthy base_sha) then
                         ret (inl (failure "Could not get branch SHA"
                                     ("Could not read branch "
                                      +++ fmt L default_branch_)))
                       else
                         b <- resolve_branch W prompt on_progress
                                existing_branch access_token_ owner repo_name_
                                base_sha ;;
                         match b with
                         | inl result => ret (inl result)
                         | inr branch_name =>
                             g <- generate_changes L W user prompt on_progress
                                    on_stream history access_token_ owner
                                    repo_name_ default_branch_ ;;
                             ret (inr (branch_name, default_branch_, g))
                         end
                   end)).
        destruct repo as [repo_|]; [|apply emits_ret; exact I].
        cbv zeta.
        apply emits_bind_any; [eapply Any, progress_footprint|]. intros _.
        apply emits_bind_any; [eapply Any, get_branch_sha_footprint|].
        intros base_sha.
        destruct (negb (Py.truthy base_sha)); [apply emits_ret; exact I|].
        apply emits_bind_any; [eapply Any, resolve_branch_fresh|].
        intros [r | b]; [apply emits_ret; exact I|].
        apply emits_bind_any; [eapply Any, generate_changes_nonempty|].
        intros g. apply emits_ret. exact I.
      * intros evs3 o _. exists evs1, resp, evs3.
        split; [reflexivity | exact Hpre].
    + intros evs2 e [resp ->]. exists evs1, resp, [].
      split; [reflexivity | exact Hpre].
  - intros evs1 e [_ H]. discriminate.
Qed.

(** A run that passes the validations, with a progress callback that does
    not raise: its first network call is the request of [get_repo]. *)
Lemma execute_first_call (owner repo_name_ : string) :
  is_connected (github user) = true ->
  truthy_str (selected_repo (github user)) = true ->
  Str.split "/"%char (key_of (selected_repo (github user)))
  = [owner; repo_name_] ->
  quiet on_progress ->
  spec (execute L W user prompt on_progress on_stream create_pr history
          existing_branch existing_pr_number)
    (fun evs _ => first_call_is_get_repo owner repo_name_ evs).
Proof.
  intros Hc Hr Hsplit Hq. unfold execute. rewrite Hc, Hr. cbv zeta.
  cbn [negb]. rewrite Hsplit.
  eapply spec_bind with (Q1 := fun evs o => evs = [] /\ o = Ok (owner, repo_name_)).
  - intros tr. exists [], (Ok (owner, repo_name_)).
    rewrite app_nil_r. repeat split.
  - intros evs1 p [-> Hp]. inversion Hp; subst p. cbn [app].
    eapply spec_try with
      (Q1 := fun evs _ => first_call_is_get_repo owner repo_name_ evs).
    + unfold execute_body.
      eapply spec_bind with
        (Q1 := fun evs _ => first_call_is_get_repo owner repo_name_ evs).
      * now apply prepare_first_call.
      * intros evs2 a Hfirst.
        eapply spec_conseq with (Q1 := fun evs o =>
                                         Forall (fun _ => True) evs
                                         /\ forall r, o = Ok r -> any r).
        -- destruct a as [r | [[b db] [[c s] n]]].
           ++ apply emits_ret. exact I.
           ++ eapply emits_weaken;
                [apply commit_and_report_shape | auto | intros; exact I].
        -- intros evs3 o _. now apply first_call_app.
      * auto.
    + auto.
    + intros evs2 e Hfirst. unfold workflow_failed. apply spec_ret.
      now rewrite app_nil_r.
  - intros evs1 e [_ H]. discriminate.
Qed.

(** With a repository name of two parts [execute] returns a result. *)
Lemma execute_returns (tr : trace) :
  (is_connected (github user) = true ->
   truthy_str (selected_repo (github user)) = true ->
   length (Str.split "/"%char (key_of (selected_repo (github user)))) = 2) ->
  exists tr' r,
    execute L W user prompt on_progress on_stream create_pr history
      existing_branch existing_pr_number tr = (tr', Ok r).
Proof.
  intros Hwf. unfold execute.
  destruct (is_connected (github user)); simpl; [|now eexists _, _].
  destruct (truthy_str (selected_repo (github user))); simpl; [|now eexists _, _].
  specialize (Hwf eq_refl eq_refl).
  destruct (Str.split "/"%char (key_of (selected_repo (github user))))
    as [|a [|b [|c l]]]; try discriminate.
  unfold bind, lift, unpack_pair, try_except.
  destruct (execute_body _ _ _ _ _ _ _ _ _ _ _ _ _ _ tr) as [tr' [r|e]].
  - now exists tr', r.
  - unfold workflow_failed, ret. now eexists _, _.
Qed.

End ExecuteProperties.

(** ** The claims *)

Lemma shape_success_iff (branch_ok : string -> Prop) (r : WorkflowResult) :
  result_shape branch_ok r ->
  (success r = true <-> committed_paths r <> [])
  /\ (success r = false <-> error r <> None)
  /\ (success r = false -> branch r = None /\ changed_files r = None)
  /\ (success r = true -> exists b, branch r = Some b /\ branch_ok b).
Proof.
  intros [m e | sha_ url pr b f fs s n Hb]; unfold committed_paths; simpl.
  - repeat split; intros; try congruence; discriminate.
  - repeat split; intros; try congruence; try discriminate.
    exists b. auto.
Qed.

Lemma accepted_write_exists (log : list (pyval * bool)) :
  map fst (filter snd log) <> [] -> exists p, In (p, true) log.
Proof.
  induction log as [|[p ok] log IH]; simpl; [congruence|].
  destruct ok; simpl.
  - intros _. exists p. now left.
  - intros H. destruct (IH H) as [q Hq]. exists q. now right.
Qed.


(** C2, as the code has it.  For every run in which [existing_branch] is
    set (a string that is not empty), no call of [create_branch] is issued,
    and when the run succeeds the field [branch] of the result is
    [existing_branch]; the result of a failed run has no branch. *)
Theorem C2_continuation_reuses_branch (L : PyLib) (W : World) (user : User)
  (prompt : string) (on_progress : option (callback WorkflowProgress))
  (on_stream : option (callback StreamingUpdate)) (create_pr : bool)
  (history : option (list pyval)) (existing_branch : option string)
  (existing_pr_number : option Z) (tr : trace) :
  truthy_str existing_branch = true ->
  exists evs o,
    execute L W user prompt on_progress on_stream create_pr history
      existing_branch existing_pr_number tr = (tr ++ evs, o)
    /\ Forall (fun e => kind_of e <> KCreateBranch) evs
    /\ forall r, o = Ok r ->
         (success r = true -> branch r = existing_branch)
         /\ (success r = false -> branch r = None).
Proof.
  intros Hb.
  destruct (execute_continuation L W user prompt on_progress on_stream
              create_pr history existing_branch existing_pr_number Hb tr)
    as (evs & o & E & HF & Hshape).
  exists evs, o. split; [exact E|]. split; [exact HF|].
  intros r Ho.
  destruct (shape_success_iff _ r (Hshape r Ho)) as (_ & _ & Hf & Hs).
  split.
  - intros H. destruct (Hs H) as (b & -> & ->).
    destruct existing_branch; [reflexivity | discriminate].
  - intros H. now apply Hf.
Qed.

(** C3, as the code has it.  The commit phase attempts the edits in the
    order of the list, one write call each.  When it returns a result,
    every edit has been attempted and the committed paths of the result
    are exactly the paths of the accepted write calls, in their order, a
    subsequence of the paths of the edits; the result is a success exactly
    when a write call was accepted.  A result of [execute] reports a
    subsequence of the paths written in the run: a success reports exactly
    the paths of the accepted write calls, of which there is one at least;
    a failure reports no path; and the only result that leaves an accepted
    write call unreported is [Workflow failed], the result of the handler
    of l.267 for an exception raised after the call.  In terms of the
    edits that steps 1 to 5 of a run produce: these steps write nothing,
    the write calls of the run follow the list of the edits, the result of
    [execute] reports a subsequence of their paths, and unless it is
    [Workflow failed], every edit has been attempted and the paths
    reported are exactly those of the accepted write calls. *)
Theorem C3_commit_order (L : PyLib) (W : World) (prompt : string)
  (on_progress : option (callback WorkflowProgress)) (create_pr : bool)
  (existing_pr_number : option Z) :
  (forall repo_full_name_ access_token_ owner repo_name_ branch_name
          default_branch_ changes summary_ next_steps_ tr,
      exists evs o,
        commit_and_report L W prompt on_progress create_pr existing_pr_number
          repo_full_name_ access_token_ owner repo_name_ branch_name
          default_branch_ changes summary_ next_steps_ tr = (tr ++ evs, o)
        /\ (exists k, map fst (put_log evs) = firstn k (map path changes))
        /\ forall r,
             o = Ok r ->
             map fst (put_log evs) = map path changes
             /\ committed_paths r = map fst (filter snd (put_log evs))
             /\ subseq (committed_paths r) (map path changes)
             /\ (success r = true <-> filter snd (put_log evs) <> []))
  /\ (forall user on_stream history existing_branch tr,
        exists evs o,
          execute L W user prompt on_progress on_stream create_pr history
            existing_branch existing_pr_number tr = (tr ++ evs, o)
          /\ forall r, o = Ok r ->
               subseq (committed_paths r) (map fst (put_log evs))
               /\ (success r = true ->
                   committed_paths r = map fst (filter snd (put_log evs))
                   /\ filter snd (put_log evs) <> [])
               /\ (success r = false -> committed_paths r = [])
               /\ (committed_paths r = map fst (filter snd (put_log evs))
                   \/ exists e, r = failure "Workflow failed" (exn_msg e)))
  /\ (forall user on_stream history existing_branch owner repo_name_ tr evs0
             branch_name default_branch_ changes summary_ next_steps_,
        is_connected (github user) = true ->
        truthy_str (selected_repo (github user)) = true ->
        Str.split "/"%char (key_of (selected_repo (github user)))
        = [owner; repo_name_] ->
        prepare L W user prompt on_progress on_stream history existing_branch
          (key_of (selected_repo (github user)))
          (key_of (access_token (github user))) owner repo_name_ tr
        = (tr ++ evs0,
           Ok (inr (branch_name, default_branch_,
                    (changes, summary_, next_steps_)))) ->
        exists evs r,
          execute L W user prompt on_progress on_stream create_pr history
            existing_branch existing_pr_number tr = (tr ++ evs0 ++ evs, Ok r)
          /\ put_log evs0 = []
          /\ (exists k, map fst (put_log evs) = firstn k (map path changes))
          /\ subseq (committed_paths r) (map path changes)
          /\ ((map fst (put_log evs) = map path changes
               /\ committed_paths r = map fst (filter snd (put_log evs)))
              \/ exists e, r = failure "Workflow failed" (exn_msg e))).
Proof.
  split; [|split].
  3: { intros user on_stream history existing_branch owner rn tr evs0 b db
              changes s n Hc Hr Hsplit Hprep.
       assert (put_log evs0 = []) as Hquiet.
       { destruct (prepare_quiet L W user prompt on_progress on_stream history
                     existing_branch (key_of (selected_repo (github user)))
                     (key_of (access_token (github user))) owner rn tr)
           as (evs0' & o' & E0 & HF & _).
         rewrite Hprep in E0. inversion E0 as [[Et Eo]].
         apply app_inv_head in Et. subst evs0'.
         apply (put_log_none run_kinds); [unfold run_kinds; not_in_kinds|].
         exact HF. }
       destruct (commit_and_report_run L W prompt on_progress create_pr
                   existing_pr_number (key_of (selected_repo (github user)))
                   (key_of (access_token (github user))) owner rn b db changes
                   s n (tr ++ evs0))
         as (evs & o & E & Hk & Hrep).
       assert (execute L W user prompt on_progress on_stream create_pr history
                 existing_branch existing_pr_number tr
               = (tr ++ evs0 ++ evs,
                  Ok (match o with
                      | Ok r => r
                      | Raise e => failure "Workflow failed" (exn_msg e)
                      end))) as Ex.
       { unfold execute. rewrite Hc, Hr. cbn [negb]. cbv zeta.
         rewrite Hsplit.
         unfold bind at 1. unfold lift, unpack_pair.
         unfold try_except, execute_body. unfold bind at 1.
         rewrite Hprep, E, app_assoc. now destruct o. }
       eexists _, _. split; [exact Ex|]. split; [exact Hquiet|].
       split; [exact Hk|].
       destruct o as [r|e].
       - destruct (Hrep r eq_refl) as (Hm & Hcp & Hsub & _). auto.
       - split; [apply subseq_nil_l|]. right. now exists e. }
  - intros rfn tok owner rn b db changes s n tr.
    destruct (commit_and_report_run L W prompt on_progress create_pr
                existing_pr_number rfn tok owner rn b db changes s n tr)
      as (evs & o & E & Hk & Hrep).
    exists evs, o. split; [exact E|]. split; [exact Hk|].
    intros r Ho. destruct (Hrep r Ho) as (Hm & Hc & Hsub & Hs & _). auto.
  - intros user on_stream history existing_branch tr.
    destruct (execute_report L W user prompt on_progress on_stream create_pr
                history existing_branch existing_pr_number tr)
      as (evs & o & E & Hrep).
    destruct (execute_shape L W user prompt on_progress on_stream create_pr
                history existing_branch existing_pr_number tr)
      as (evs' & o' & E' & _ & Hshape).
    rewrite E in E'. inversion E' as [[Et Eo]].
    apply app_inv_head in Et. subst evs' o'.
    exists evs, o. split; [exact E|]. intros r Ho.
    destruct (shape_success_iff _ r (Hshape r Ho)) as (Hne & _ & Hf & _).
    assert (success r = false -> committed_paths r = []) as Hnone.
    { intros Hs. destruct (Hf Hs) as [_ Hc]. unfold committed_paths.
      now rewrite Hc. }
    assert (success r = true ->
            committed_paths r = map fst (filter snd (put_log evs))) as Hall.
    { intros Hs. destruct (Hrep r Ho) as [Hc | [e ->]];
        [exact Hc | discriminate]. }
    split; [|split; [|split; [exact Hnone | exact (Hrep r Ho)]]].
    + destruct (success r) eqn:Hs.
      * rewrite (Hall eq_refl). apply subseq_accepted.
      * rewrite (Hnone eq_refl). apply subseq_nil_l.
    + intros Hs. split; [exact (Hall Hs)|].
      intros Hn. apply (proj1 Hne Hs). rewrite (Hall Hs), Hn. reflexivity.
Qed.

Lemma skipn_length_app {A : Type} (l1 l2 : list A) :
  skipn (length l1) (l1 ++ l2) = l2.
Proof. induction l1 as [|x l1 IH]; simpl; [reflexivity | exact IH]. Qed.

(** The first network call of a run is the one a cancellation at call 0
    preempts. *)
Lemma before_first_call (owner repo : string) (evs : list event) :
  first_call_is_get_repo owner repo evs ->
  exists pre,
    before_call 0 evs = Some pre
    /\ Forall (fun e => exists p, e = EvProgress p) pre.
Proof.
  intros (pre & resp & rest & -> & Hpre). exists pre. split; [|exact Hpre].
  induction Hpre as [|e pre [p ->] Hpre IH]; [reflexivity|].
  cbn [app before_call is_network_call]. now rewrite IH.
Qed.


(** The probe, request by request: one GET of the contents of the path,
    with the parameter [ref] when a branch is named. *)
Lemma get_file_content_request (L : PyLib) (W : World)
  (token owner repo : string) (p : pyval) (b : string) (tr : trace) :
  exists o,
    get_file_content L W token owner repo p (Some b) tr
    = (tr ++ [EvRequest (ApiGetFileContent p) "GET"
                ("/repos/" +++ owner +++ "/" +++ repo +++ "/contents/"
                 +++ fmt L p)
                (if (b =? EmptyString)%string then PDict []
                 else PDict [("ref", PStr b)])
                (request W tr token "GET"
                   ("/repos/" +++ owner +++ "/" +++ repo +++ "/contents/"
                    +++ fmt L p)
                   (if (b =? EmptyString)%string then PDict []
                    else PDict [("ref", PStr b)]))], o)
    /\ forall c v,
         o = Ok (c, v) ->
         v = probed_sha (request W tr token "GET"
                           ("/repos/" +++ owner +++ "/" +++ repo +++ "/contents/"
                            +++ fmt L p)
                           (if (b =? EmptyString)%string then PDict []
                            else PDict [("ref", PStr b)])).
Proof.
  unfold get_file_content, bind, _request, ret, lift, truthy_str, key_of.
  assert ((if negb (b =? EmptyString)%string
           then PDict [("ref", PStr b)] else PDict [])
          = (if (b =? EmptyString)%string then PDict []
             else PDict [("ref", PStr b)])) as ->
    by now destruct (b =? EmptyString)%string.
  set (resp := request W tr token "GET" _ _).
  destruct resp as [[st data]|e] eqn:E.
  - destruct (not_200_or_empty st data) eqn:En.
    + eexists. split; [reflexivity|]. intros c v H. inversion H; subst.
      unfold probed_sha. now rewrite En.
    + destruct (Py.get data "content" (PStr EmptyString)) as [b64|e1];
        [destruct (b64decode_utf8 L b64) as [text|e2];
         [destruct (Py.get data "sha" PNone) as [v|e3] eqn:Ev|]|];
        (eexists; split; [reflexivity|]; intros c v' H; inversion H; subst;
         unfold probed_sha; now rewrite En, Ev).
  - eexists. split; [reflexivity | discriminate].
Qed.

(** The write, request by request: nothing when the content is not a
    string, and otherwise one PUT on the contents of the path whose
    payload is [write_payload]. *)
Lemma create_or_update_file_request (L : PyLib) (W : World)
  (token owner repo : string) (p c : pyval) (m b : string) (v : pyval)
  (tr : trace) :
  exists o,
    match c with
    | PStr s =>
        create_or_update_file L W token owner repo p c m b v tr
        = (tr ++ [EvRequest (ApiCreateOrUpdateFile p) "PUT"
                    ("/repos/" +++ owner +++ "/" +++ repo +++ "/contents/"
                     +++ fmt L p)
                    (write_payload m (b64encode L s) b v)
                    (request W tr token "PUT"
                       ("/repos/" +++ owner +++ "/" +++ repo +++ "/contents/"
                        +++ fmt L p)
                       (write_payload m (b64encode L s) b v))], o)
    | _ =>
        create_or_update_file L W token owner repo p c m b v tr = (tr, o)
        /\ exists e, o = Raise e
    end.
Proof.
  unfold create_or_update_file, bind, _request, ret, lift.
  destruct c as [| | |s| |]; try (eexists; split; [reflexivity | eauto]).
  set (resp := request W tr token "PUT" _ _).
  destruct resp as [[st data]|e]; [|eexists; reflexivity].
  destruct (negb ((st =? 200)%Z || (st =? 201)%Z) || negb (Py.truthy data));
    [eexists; reflexivity|].
  repeat match goal with
         | |- context [match Py.get ?a ?k ?d with _ => _ end] =>
             destruct (Py.get a k d)
         end; eexists; reflexivity.
Qed.

(** C7, as the code has it.  In every turn of the commit loop the action
    of the edit, not a probe, decides between create and update: the
    current content of the file is probed exactly when the action is
    [update], in one read before the write.  That read is the first
    request of the turn: a GET of the contents of the path of the edit
    whose parameter [ref] is the working branch (the parameter is left
    out for an empty branch name, which [execute] never passes), answered
    by the server.  The write call of an update carries the hash that this
    read returned, when it returned one; the write call of any other
    action, [create] among them, is not preceded by a probe and carries no
    hash.  A turn that returns has made exactly one write after the probe:
    a PUT on the same endpoint whose payload names the working branch. *)
Theorem C7_probe_only_for_update (L : PyLib) (W : World)
  (access_token_ owner repo_name_ branch_name : string) (change : FileChange)
  (tr : trace) :
  exists evs o,
    commit_change L W access_token_ owner repo_name_ branch_name change tr
    = (tr ++ evs, o)
    /\ (Py.eq_str (action change) "update" = false ->
        probes evs = []
        /\ (writes evs = [] \/ writes evs = [(path change, None)])
        /\ forall c, o = Ok c ->
             exists s wresp,
               content change = PStr s
               /\ evs = [EvRequest (ApiCreateOrUpdateFile (path change)) "PUT"
                           ("/repos/" +++ owner +++ "/" +++ repo_name_
                            +++ "/contents/" +++ fmt L (path change))
                           (write_payload
                              ((if Py.eq_str (action change) "create"
                                then "Create" else "Update")
                               +++ " " +++ fmt L (path change))
                              (b64encode L s) branch_name PNone)
                           wresp])
    /\ (Py.eq_str (action change) "update" = true ->
        exists resp rest,
          evs = EvRequest (ApiGetFileContent (path change)) "GET"
                  ("/repos/" +++ owner +++ "/" +++ repo_name_
                   +++ "/contents/" +++ fmt L (path change))
                  (if (branch_name =? EmptyString)%string then PDict []
                   else PDict [("ref", PStr branch_name)])
                  resp
                :: rest
          /\ resp = request W tr access_token_ "GET"
                      ("/repos/" +++ owner +++ "/" +++ repo_name_
                       +++ "/contents/" +++ fmt L (path change))
                      (if (branch_name =? EmptyString)%string then PDict []
                       else PDict [("ref", PStr branch_name)])
          /\ probes rest = []
          /\ (writes rest = []
              \/ writes rest = [(path change, carried (probed_sha resp))])
          /\ forall c, o = Ok c ->
               exists s wresp,
                 content change = PStr s
                 /\ rest = [EvRequest (ApiCreateOrUpdateFile (path change)) "PUT"
                              ("/repos/" +++ owner +++ "/" +++ repo_name_
                               +++ "/contents/" +++ fmt L (path change))
                              (write_payload
                                 ("Update " +++ fmt L (path change))
                                 (b64encode L s) branch_name (probed_sha resp))
                              wresp]).
Proof.
  unfold commit_change.
  destruct (Py.eq_str (action change) "update") eqn:Eu.
  - assert (Py.eq_str (action change) "create" = false) as Ec.
    { unfold Py.eq_str in *. destruct (action change); try discriminate.
      apply String.eqb_eq in Eu. now subst. }
    rewrite Ec.
    destruct (get_file_content_request L W access_token_ owner repo_name_
                (path change) branch_name tr) as (o1 & E1 & Hv).
    set (resp := request W tr access_token_ "GET" _ _) in *.
    unfold bind at 1. unfold bind at 1. rewrite E1.
    destruct o1 as [[c v]|e].
    + rewrite (Hv c v eq_refl). unfold ret. cbn [snd].
      match goal with
      | |- context [create_or_update_file ?L ?W ?t ?ow ?re ?p ?c ?m ?b ?v ?tr1] =>
          destruct (create_or_update_file_request L W t ow re p c m b v tr1)
            as (o2 & E2)
      end.
      destruct (content change) as [| | |s| |];
        try (match type of E2 with _ /\ _ => destruct E2 as [E2 [e ->]] end;
             rewrite E2;
             eexists _, _; split; [reflexivity|];
             split; [discriminate|]; intros _;
             exists resp, []; repeat split; auto; discriminate).
      rewrite E2. eexists _, _. split; [now rewrite <- app_assoc|].
      split; [discriminate|]. intros _. exists resp. eexists.
      split; [reflexivity|]. split; [reflexivity|]. split; [reflexivity|].
      split.
      * right. unfold writes. cbn [flat_map app].
        now rewrite payload_sha_write.
      * intros c' _. eauto.
    + eexists _, _. split; [reflexivity|].
      split; [discriminate|]. intros _.
      exists resp, []. repeat split; auto. discriminate.
  - unfold bind at 1. unfold ret at 1.
    match goal with
    | |- context [create_or_update_file ?L ?W ?t ?ow ?re ?p ?c ?m ?b ?v ?tr1] =>
        destruct (create_or_update_file_request L W t ow re p c m b v tr1)
          as (o2 & E2)
    end.
    destruct (content change) as [| | |s| |];
      try (match type of E2 with _ /\ _ => destruct E2 as [E2 [e ->]] end;
             rewrite E2;
           exists [], (Raise e); rewrite app_nil_r; split; [reflexivity|];
           split; [|discriminate]; intros _;
           repeat split; auto; discriminate).
    rewrite E2. eexists _, _. split; [reflexivity|].
    split; [|discriminate]. intros _.
    split; [reflexivity|]. split.
    + right. unfold writes. cbn [flat_map app].
      rewrite payload_sha_write. reflexivity.
    + intros c' _. eauto.
Qed.

(** *** The code block around a model answer *)

Lemma append_assoc (a b c : string) : (a +++ b) +++ c = a +++ (b +++ c).
Proof. induction a as [|x a IH]; simpl; [reflexivity | now rewrite IH]. Qed.

Lemma append_nil_r (a : string) : a +++ EmptyString = a.
Proof. induction a as [|x a IH]; simpl; [reflexivity | now rewrite IH]. Qed.

Lemma rev_onto_spec (s acc : string) : Str.rev_onto s acc = Str.rev s +++ acc.
Proof.
  unfold Str.rev. revert acc. induction s as [|c s IH]; intros acc; simpl.
  - reflexivity.
  - rewrite (IH (String c acc)), (IH (String c EmptyString)).
    now rewrite append_assoc.
Qed.

Lemma rev_app (a b : string) : Str.rev (a +++ b) = Str.rev b +++ Str.rev a.
Proof.
  induction a as [|c a IH]; simpl.
  - now rewrite append_nil_r.
  - unfold Str.rev in *. simpl.
    rewrite (rev_onto_spec (a +++ b)), (rev_onto_spec a).
    unfold Str.rev. rewrite IH. now rewrite append_assoc.
Qed.

Lemma rev_involutive (s : string) : Str.rev (Str.rev s) = s.
Proof.
  induction s as [|c s IH]; [reflexivity|].
  change (String c s) with (String c EmptyString +++ s) at 1.
  rewrite rev_app, rev_app, IH. reflexivity.
Qed.

Lemma split_not_nil (sep : ascii) (s : string) : Str.split sep s <> [].
Proof.
  destruct s as [|c s]; simpl; [discriminate|].
  destruct (Ascii.eqb c sep); [discriminate|].
  destruct (Str.split sep s); discriminate.
Qed.

Lemma split_app_sep (sep : ascii) (a b : string) :
  Str.split sep (a +++ String sep b) = Str.split sep a ++ Str.split sep b.
Proof.
  induction a as [|c a IH]; simpl.
  - now rewrite Ascii.eqb_refl.
  - destruct (Ascii.eqb c sep); [now rewrite IH|].
    rewrite IH. destruct (Str.split sep a) as [|w ws] eqn:E; [|reflexivity].
    now apply split_not_nil in E.
Qed.

Lemma split_without_sep (sep : ascii) (a : string) :
  Re.all_chars (fun c => negb (Ascii.eqb c sep)) a = true ->
  Str.split sep a = [a].
Proof.
  induction a as [|c a IH]; simpl; [reflexivity|].
  intros H. apply andb_prop in H. destruct H as [Hc Ha].
  apply negb_true_iff in Hc. now rewrite Hc, (IH Ha).
Qed.

Lemma join_split (sep : ascii) (s : string) :
  Str.join (String sep EmptyString) (Str.split sep s) = s.
Proof.
  unfold Str.join. induction s as [|c s IH]; simpl; [reflexivity|].
  destruct (Str.split sep s) as [|w ws] eqn:Es;
    [now apply split_not_nil in Es|].
  destruct (Ascii.eqb c sep) eqn:E.
  - apply Ascii.eqb_eq in E. subst c. simpl in *. now rewrite IH.
  - destruct ws; simpl in *; now rewrite <- IH.
Qed.

(** A text between an opening line of three backquotes with a language
    name and a closing line of three backquotes: [strip_code_block] returns
    the text. *)
Lemma strip_code_block_fenced (lang body : string) :
  Re.all_chars (fun c => negb (Ascii.eqb c Str.nl_char)) lang = true ->
  strip_code_block (fence +++ lang +++ Str.nl +++ body +++ Str.nl +++ fence)
  = body.
Proof.
  intros Hlang. unfold strip_code_block.
  set (content_ := fence +++ lang +++ Str.nl +++ body +++ Str.nl +++ fence).
  assert (Str.strip content_ = content_) as Es.
  { unfold Str.strip, Str.rstrip.
    assert (Str.lstrip content_ = content_) as El by reflexivity.
    rewrite El.
    assert (content_ = (fence +++ lang +++ Str.nl +++ body +++ Str.nl) +++ fence)
      as Ec.
    { unfold content_. now rewrite !append_assoc. }
    rewrite Ec at 1. rewrite rev_app.
    change (Str.lstrip (Str.rev fence +++
                        Str.rev (fence +++ lang +++ Str.nl +++ body +++ Str.nl)))
      with (Str.rev fence +++
            Str.rev (fence +++ lang +++ Str.nl +++ body +++ Str.nl)).
    rewrite <- rev_app, <- Ec. apply rev_involutive. }
  rewrite Es.
  assert (Str.startswith fence content_ = true) as Ep.
  { unfold content_, Str.startswith, fence. simpl.
    now destruct (lang +++ _). }
  rewrite Ep.
  assert (Str.split Str.nl_char content_
          = (fence +++ lang) :: Str.split Str.nl_char body ++ [fence]) as El.
  { unfold content_.
    change (fence +++ lang +++ Str.nl +++ body +++ Str.nl +++ fence)
      with (fence +++ (lang +++ String Str.nl_char (body +++ String Str.nl_char fence))).
    rewrite <- append_assoc, split_app_sep, split_app_sep.
    rewrite split_without_sep; [reflexivity|].
    simpl. exact Hlang. }
  rewrite El.
  assert (last ((fence +++ lang) :: Str.split Str.nl_char body ++ [fence]) EmptyString
          = fence) as Elast.
  { change ((fence +++ lang) :: Str.split Str.nl_char body ++ [fence])
      with (((fence +++ lang) :: Str.split Str.nl_char body) ++ [fence]).
    apply last_last. }
  rewrite Elast.
  assert ((Str.strip fence =? fence)%string = true) as Ef by reflexivity.
  rewrite Ef. cbn [tl]. rewrite removelast_last.
  apply (join_split Str.nl_char).
Qed.

(** The answer in a code block is parsed as the answer alone. *)
Lemma parse_fenced (L : PyLib) (lang body : string) :
  Re.all_chars (fun c => negb (Ascii.eqb c Str.nl_char)) lang = true ->
  Str.strip body = body -> Str.startswith fence body = false ->
  _parse_ai_response_with_meta L
    (fence +++ lang +++ Str.nl +++ body +++ Str.nl +++ fence)
  = _parse_ai_response_with_meta L body.
Proof.
  intros Hlang Hs Hf. unfold _parse_ai_response_with_meta.
  rewrite (strip_code_block_fenced lang body Hlang).
  unfold strip_code_block. now rewrite Hs, Hf.
Qed.

(** C5, at the failing input.  When the text of the model decodes to a
    list, the legacy shape, [_parse_ai_response_with_meta] raises
    [AttributeError] at [data.get], before it looks at the shape, so the
    legacy shape does not yield the edits that the full shape yields. *)
Theorem C5_legacy_list_raises (L : PyLib) (content_ : string)
  (items : list pyval) :
  json_loads L (strip_code_block content_) = Some (PList items) ->
  _parse_ai_response_with_meta L content_
  = Raise (mk_exn AttributeError "'list' object has no attribute 'get'").
Proof.
  intros H. unfold _parse_ai_response_with_meta. now rewrite H.
Qed.

(** The full shape: the changes are those of the items under [files]. *)
Lemma parse_full_shape (L : PyLib) (content_ : string)
  (fields : list (string * pyval)) (items : list pyval) :
  json_loads L (strip_code_block content_) = Some (PDict fields) ->
  Py.assoc "files" fields = Some (PList items) ->
  exists summary_ next_steps_,
    _parse_ai_response_with_meta L content_
    = Ok (flat_map change_of_item items, summary_, next_steps_).
Proof.
  intros H Hf. unfold _parse_ai_response_with_meta. rewrite H.
  unfold changes_of_data. simpl. rewrite Hf. simpl.
  now eexists _, _.
Qed.

(** A streamed call whose text is in the legacy shape yields no change. *)
Lemma stream_call_legacy_shape :
  snd (Scenario.anthropic_run Scenario.stream_legacy) = Ok no_changes.
Proof. vm_compute. reflexivity. Qed.

(** Without a provider key, steps 4 and 5 of [execute] open no stream,
    deliver no update and yield the one change of
    [_simple_file_creation]. *)
Lemma fallback_without_key (L : PyLib) (W : World) (user : User)
  (prompt : string) (on_progress : option (callback WorkflowProgress))
  (on_stream : option (callback StreamingUpdate))
  (history : option (list pyval)) (access_token_ owner repo_name_ : string)
  (db : pyval) (tr : trace) :
  no_ai_key user = true ->
  exists evs o,
    generate_changes L W user prompt on_progress on_stream history
      access_token_ owner repo_name_ db tr = (tr ++ evs, o)
    /\ Forall (within [KProgress; KGetTree]) evs
    /\ forall g, o = Ok g -> exists c, g = ([c], PNone, PNone).
Proof.
  intros H.
  apply (generate_changes_without_key L W user prompt on_progress on_stream
           history access_token_ owner repo_name_ db H tr).
Qed.

(** The fallback edit is named after the clock when the prompt names no
    file. *)
Lemma fallback_default_name (W : World) (prompt : string) (tr : trace) :
  Re.search_filename (Str.lower prompt) = None ->
  exists body,
    _simple_file_creation W prompt tr
    = (tr, Ok [mk_change
                 (PStr ("amadeus_change_"
                        +++ utcnow_strftime W tr "%Y%m%d_%H%M%S" +++ ".md"))
                 (PStr body) (PStr "create")]).
Proof.
  intros H. unfold _simple_file_creation. rewrite H. now eexists.
Qed.

(** C6, at the failing input.  The user has a provider key and the model
    call completes with an answer without files: [_generate_ai_changes]
    raises, so the run ends at step 5 with the error of the exception and
    without the fallback edit. *)
Theorem C6_zero_edits_end_the_run :
  snd (Scenario.run (Scenario.world_with Scenario.stream_empty)
         Scenario.alice None None)
  = Ok (failure "Workflow failed"
          "AI returned no changes. Try a more specific request.")
  /\ put_log (fst (Scenario.run (Scenario.world_with Scenario.stream_empty)
                     Scenario.alice None None)) = [].
Proof. vm_compute. split; reflexivity. Qed.

(** C8, at the failing input.  When the user has a provider key and the
    provider refuses every request (HTTP 429 is one such answer), the run
    makes no write call and its result, if it returns one, is a failure
    without committed paths. *)
Theorem C8_refused_call_fails_run (L : PyLib) (W : World) (user : User)
  (prompt : string) (on_progress : option (callback WorkflowProgress))
  (on_stream : option (callback StreamingUpdate)) (create_pr : bool)
  (history : option (list pyval)) (existing_branch : option string)
  (existing_pr_number : option Z) (tr : trace) :
  refusing W -> no_ai_key user = false ->
  exists evs o,
    execute L W user prompt on_progress on_stream create_pr history
      existing_branch existing_pr_number tr = (tr ++ evs, o)
    /\ put_log evs = []
    /\ forall r, o = Ok r -> success r = false /\ committed_paths r = [].
Proof.
  intros HW Hk.
  assert (emits (within run_kinds)
            (fun r => success r = false /\ committed_paths r = [])
            (execute L W user prompt on_progress on_stream create_pr history
               existing_branch existing_pr_number)) as H.
  { apply execute_emits; [now split|].
    intros rfn tok owner rn.
    eapply execute_body_emits
      with (branch_ok := fun _ => True) (G := fun _ => False).
    - apply prepare_emits.
      + intros e. apply within_incl. kinds_incl.
      + intros sha_. eapply emits_within;
          [apply resolve_branch_fresh | kinds_incl | auto].
      + intros db. eapply emits_within;
          [apply generate_changes_refused; assumption | kinds_incl | auto].
    - now split.
    - intros b db c s n _ []. }
  destruct (H tr) as (evs & o & E & HF & Hr).
  exists evs, o. split; [exact E|]. split; [|exact Hr].
  apply (put_log_none run_kinds); [unfold run_kinds; not_in_kinds | exact HF].
Qed.

(** ** The claims on the scenarios *)

Import Scenario.

(** The run of Alice with a model answer of two files: both are
    committed on a fresh branch and a pull request is opened. *)
Example happy_run :
  snd (run (world_with stream_ok) alice None None)
  = Ok (mk_result true "Changes pushed successfully!" (PStr "c0ffee")
          (Some "https://github.com/owner/repo/commit/c0ffee")
          (PStr "https://github.com/owner/repo/pull/7")
          (Some "amadeus/update-11031200-ab12")
          (Some [PStr "a.py"; PStr "b.py"]) None
          (PStr "Added two files") (PList [PStr "Run it"])).
Proof. vm_compute. reflexivity. Qed.

(** The updates of that call: [thinking], the two discoveries, [done]. *)
Example happy_stream :
  stream_events (fst (anthropic_run stream_ok))
  = [thinking_update;
     writing_update "a.py" ["a.py"];
     writing_update "b.py" ["a.py"; "b.py"];
     done_update ["a.py"; "b.py"]].
Proof. vm_compute. reflexivity. Qed.

(** The run of Bob, who has no provider key: the fallback file is
    committed. *)
Example fallback_run :
  committed_paths (result_of (run (world_with stream_ok) bob None None))
  = [PStr "amadeus_change_20261103_120000.md"]
  /\ success (result_of (run (world_with stream_ok) bob None None)) = true.
Proof. vm_compute. split; reflexivity. Qed.

(** A prompt that names a file after [add]: the fallback edit takes that
    name. *)
Example fallback_named_after_prompt :
  snd (_simple_file_creation (world_with stream_ok)
         "add a healthcheck endpoint" [])
  = Ok [mk_change (PStr "a.txt")
          (PStr ("# a.txt" +++ Str.nl +++ Str.nl
                 +++ "Created by Amadeus Pocket 🎭" +++ Str.nl +++ Str.nl
                 +++ "Prompt: add a healthcheck endpoint" +++ Str.nl))
          (PStr "create")].
Proof. vm_compute. reflexivity. Qed.

(** Three edits of which GitHub refuses the second: the run succeeds with
    the first and the third path, in this order. *)
Example partial_commit :
  committed_paths
    (result_of
       (commit_and_report lib (world_with stream_ok) "fix the bug" listen true
          None "owner/repo" "ghp_token" "owner" "repo" "work" (PStr "main")
          [mk_change (PStr "a.py") (PStr "x") (PStr "create");
           mk_change (PStr "locked.py") (PStr "x") (PStr "create");
           mk_change (PStr "b.py") (PStr "x") (PStr "create")]
          PNone PNone []))
  = [PStr "a.py"; PStr "b.py"].
Proof. vm_compute. reflexivity. Qed.


Lemma C2_witness :
  exists evs o,
    execute lib (world_with stream_ok) alice "fix the bug" listen listen true
      None (Some "amadeus/health-0101-ab12") (Some 42%Z) [] = ([] ++ evs, o)
    /\ Forall (fun e => kind_of e <> KCreateBranch) evs
    /\ forall r, o = Ok r ->
         (success r = true -> branch r = Some "amadeus/health-0101-ab12")
         /\ (success r = false -> branch r = None).
Proof.
  apply (C2_continuation_reuses_branch lib (world_with stream_ok) alice
           "fix the bug" listen listen true None
           (Some "amadeus/health-0101-ab12") (Some 42%Z) []).
  reflexivity.
Defined.

(** C2 as stated fails: a run in continuation mode in which GitHub refuses
    every write returns a result whose branch is not [existing_branch]. *)
Lemma C2_failed_run_has_no_branch :
  truthy_str (Some "amadeus/health-0101-ab12") = true
  /\ snd (run (readonly_world stream_ok) alice
            (Some "amadeus/health-0101-ab12") (Some 42%Z))
     = Ok (failure "No changes committed" "No files could be modified")
  /\ branch (failure "No changes committed" "No files could be modified")
     <> Some "amadeus/health-0101-ab12".
Proof.
  split; [reflexivity|]. split; [vm_compute; reflexivity | discriminate].
Qed.

Lemma C4_witness :
  stream_discipline lib (world_with stream_ok) anthropic_text "sk-ant-key"
    listen
    (_call_anthropic_streaming lib (world_with stream_ok) "sk-ant-key"
       system_prompt "fix the bug" "claude-sonnet-4-20250514" listen)
    [].
Proof.
  apply (C4_stream_discipline lib (world_with stream_ok) "sk-ant-key"
           system_prompt "fix the bug" "claude-sonnet-4-20250514" listen
           anthropic_text).
  apply anthropic_call.
Defined.

(** C4 as stated fails: after a refusal with status 429 no update is
    delivered at all, and when the connection breaks after the first
    fragment the updates are [thinking] and one discovery; in both calls
    [done] is emitted zero times. *)
Lemma C4_done_is_not_emitted :
  stream_events (fst (anthropic_run stream_429)) = []
  /\ stream_events (fst (anthropic_run stream_broken))
     = [thinking_update; writing_update "a.py" ["a.py"]]
  /\ length (filter is_done (stream_events (fst (anthropic_run stream_429)))) = 0
  /\ length (filter is_done (stream_events (fst (anthropic_run stream_broken)))) = 0.
Proof. vm_compute. repeat split; reflexivity. Qed.

Lemma C5_witness :
  json_loads lib (strip_code_block legacy_json)
  = Some (PList [file_val "a.py"; file_val "b.py"])
  /\ _parse_ai_response_with_meta lib legacy_json
     = Raise (mk_exn AttributeError "'list' object has no attribute 'get'").
Proof.
  split; [vm_compute; reflexivity|].
  apply (C5_legacy_list_raises lib legacy_json [file_val "a.py"; file_val "b.py"]).
  vm_compute. reflexivity.
Defined.

(** The same files in the full shape, bare and in a code block, are
    parsed into the two changes. *)
Example full_and_fenced_shapes :
  _parse_ai_response_with_meta lib full_json
  = Ok ([mk_change (PStr "a.py") (PStr "x") (PStr "create");
         mk_change (PStr "b.py") (PStr "x") (PStr "create")],
        PStr "Added two files", PList [PStr "Run it"])
  /\ _parse_ai_response_with_meta lib fenced_json
     = _parse_ai_response_with_meta lib full_json.
Proof. vm_compute. split; reflexivity. Qed.

(** C7 as stated fails: an edit with the action [create] is committed
    without any probe of the current content, and an edit with the action
    [update] whose file does not exist is committed without a hash. *)
Lemma C7_create_is_not_probed :
  probes (fst (commit_run (mk_change (PStr "a.py") (PStr "x") (PStr "create"))))
  = []
  /\ writes (fst (commit_run (mk_change (PStr "a.py") (PStr "x") (PStr "create"))))
     = [(PStr "a.py", None)]
  /\ (exists c,
        snd (commit_run (mk_change (PStr "a.py") (PStr "x") (PStr "create")))
        = Ok (Some c))
  /\ writes (fst (commit_run (mk_change (PStr "new.md") (PStr "x") (PStr "update"))))
     = [(PStr "new.md", None)].
Proof.
  vm_compute. repeat split; try reflexivity. eexists. reflexivity.
Qed.

(** An update of a file that exists carries the hash of the probe. *)
Example update_carries_hash :
  writes (fst (commit_run (mk_change (PStr "docs/old.md") (PStr "x") (PStr "update"))))
  = [(PStr "docs/old.md", Some (PStr "b10b"))].
Proof. vm_compute. reflexivity. Qed.

(** C3 as stated fails: both write calls of the run are accepted, then
    the opening of the pull request raises; the handler of l.267 returns
    [Workflow failed], and neither committed path appears in the result. *)
Lemma C3_accepted_writes_unreported :
  exists evs r,
    Scenario.run Outage.world Scenario.alice None None = (evs, Ok r)
    /\ map fst (filter snd (put_log evs)) = [PStr "a.py"; PStr "b.py"]
    /\ success r = false
    /\ message r = "Workflow failed"
    /\ committed_paths r = [].
Proof.
  eexists _, _. split; [vm_compute; reflexivity|].
  vm_compute. repeat split; reflexivity.
Qed.

(** Steps 1 to 5 of the run of the scenario produce the two edits [a.py]
    and [b.py] for a fresh branch. *)
Example happy_edits :
  exists evs0,
    prepare lib (world_with stream_ok) alice "fix the bug" listen listen None
      None "owner/repo" "ghp_token" "owner" "repo" []
    = ([] ++ evs0,
       Ok (inr ("amadeus/update-11031200-ab12", PStr "main",
                ([mk_change (PStr "a.py") (PStr "x") (PStr "create");
                  mk_change (PStr "b.py") (PStr "x") (PStr "create")],
                 PStr "Added two files", PList [PStr "Run it"])))).
Proof. eexists. vm_compute. reflexivity. Qed.

Lemma C8_witness :
  (exists evs o,
     execute lib (world_with stream_429) alice "fix the bug" listen listen true
       None None None [] = ([] ++ evs, o)
     /\ put_log evs = []
     /\ forall r, o = Ok r -> success r = false /\ committed_paths r = [])
  /\ snd (run (world_with stream_429) alice None None)
     = Ok (failure "Workflow failed"
             "AI returned no changes. Try a more specific request.").
Proof.
  split.
  - apply (C8_refused_call_fails_run lib (world_with stream_429) alice
             "fix the bug" listen listen true None None None []).
    + intros tr url key payload resp H. inversion H. discriminate.
    + reflexivity.
  - vm_compute. reflexivity.
Defined.

Lemma C9_witness :
  discoveries_grow
    (_call_anthropic_streaming lib (world_with stream_ok) "sk-ant-key"
       system_prompt "fix the bug" "claude-sonnet-4-20250514" listen)
    [].
Proof.
  apply (C9_files_so_far_grows lib (world_with stream_ok) "sk-ant-key"
           system_prompt "fix the bug" "claude-sonnet-4-20250514" listen
           anthropic_text).
  apply anthropic_call.
Defined.



(** The hypothesis of C10 on the repository name is needed: with a
    selected repository that lacks the slash, the unpacking before the
    [try] statement raises and [execute] propagates the exception. *)
Example unpacking_raises :
  snd (run (world_with stream_ok) dave None None)
  = Raise (mk_exn ValueError "not enough values to unpack (expected 2, got 1)").
Proof. vm_compute. reflexivity. Qed.

(* ================================================================== *)
(** * Part III: the rest of [workflow.py] and [client.py] *)
(* ================================================================== *)

(** ** Strings *)

Lemma prefix_self_app (p b : string) : String.prefix p (p +++ b) = true.
Proof.
  induction p as [|c p IH]; simpl; [now destruct b|].
  now destruct (ascii_dec c c).
Qed.

Lemma contains_prefix (sub s : string) :
  String.prefix sub s = true -> Str.contains sub s = true.
Proof. intros H. destruct s; cbn [Str.contains]; now rewrite H. Qed.

Lemma contains_here (sub b : string) : Str.contains sub (sub +++ b) = true.
Proof. apply contains_prefix, prefix_self_app. Qed.

Lemma contains_app_r (sub a s : string) :
  Str.contains sub s = true -> Str.contains sub (a +++ s) = true.
Proof.
  intros H. induction a as [|c a IH]; simpl; [exact H|].
  rewrite IH. apply orb_true_r.
Qed.

Lemma all_chars_app (p : ascii -> bool) (a b : string) :
  Re.all_chars p (a +++ b) = Re.all_chars p a && Re.all_chars p b.
Proof.
  induction a as [|c a IH]; simpl; [reflexivity|].
  now rewrite IH, andb_assoc.
Qed.

Lemma all_chars_weaken (p q : ascii -> bool) (s : string) :
  (forall c, p c = true -> q c = true) ->
  Re.all_chars p s = true -> Re.all_chars q s = true.
Proof.
  intros Hpq. induction s as [|c s IH]; simpl; [reflexivity|].
  intros H. apply andb_prop in H. destruct H as [Hc Hs].
  now rewrite (Hpq c Hc), (IH Hs).
Qed.

Lemma all_chars_join (p : ascii -> bool) (sep : string) (l : list string) :
  Re.all_chars p sep = true ->
  Forall (fun w => Re.all_chars p w = true) l ->
  Re.all_chars p (Str.join sep l) = true.
Proof.
  intros Hsep H. unfold Str.join. induction H as [|w l Hw Hl IH]; [reflexivity|].
  destruct l as [|w' l']; [exact Hw|].
  change (String.concat sep (w :: w' :: l'))
    with (w +++ sep +++ String.concat sep (w' :: l')).
  now rewrite !all_chars_app, Hw, Hsep, IH.
Qed.

Lemma span_fst_all (p : ascii -> bool) (s : string) :
  Re.all_chars p (fst (Re.span p s)) = true.
Proof.
  induction s as [|c s IH]; simpl; [reflexivity|].
  destruct (p c) eqn:E; [|reflexivity].
  destruct (Re.span p s) as [g r]. simpl in *. now rewrite E, IH.
Qed.

Lemma Forall_take {A : Type} (P : A -> Prop) (n : nat) (l : list A) :
  Forall P l -> Forall P (firstn n l).
Proof.
  intros H. revert n. induction H as [|x l Hx Hl IH]; intros [|n]; simpl;
    constructor; auto.
Qed.

(** ** The helpers of [workflow.py] *)

Lemma findall_words_lower (fuel : nat) (s : string) :
  Forall (fun w => Re.all_chars Str.is_lower w = true)
    (Re.findall_words_from fuel s).
Proof.
  revert s. induction fuel as [|fuel IH]; intros s; [constructor|].
  destruct s as [|c s]; [constructor|].
  cbn [Re.findall_words_from].
  destruct (Str.is_word c); [|apply IH].
  destruct (Re.span Str.is_word (String c s)) as [run rest].
  destruct (Re.all_chars Str.is_lower run) eqn:E; [|apply IH].
  constructor; [exact E | apply IH].
Qed.

Lemma span_app (p : ascii -> bool) (s : string) :
  fst (Re.span p s) +++ snd (Re.span p s) = s.
Proof.
  induction s as [|c s IH]; simpl; [reflexivity|].
  destruct (p c); [|reflexivity].
  destruct (Re.span p s) as [g r]. simpl in *. now rewrite IH.
Qed.

(** Every match of [\b[a-z]+\b] occurs in the text. *)
Lemma findall_words_occur (fuel : nat) (s : string) :
  Forall (fun w => Str.contains w s = true) (Re.findall_words_from fuel s).
Proof.
  revert s. induction fuel as [|fuel IH]; intros s; [constructor|].
  destruct s as [|c s]; [constructor|].
  assert (Forall (fun w => Str.contains w (String c s) = true)
            (Re.findall_words_from fuel s)) as Htail.
  { eapply Forall_impl; [|apply IH]. intros w Hw.
    now apply (contains_app_r w (String c EmptyString) s). }
  cbn [Re.findall_words_from].
  destruct (Str.is_word c); [|exact Htail].
  pose proof (span_app Str.is_word (String c s)) as Hspan.
  destruct (Re.span Str.is_word (String c s)) as [run rest].
  cbn [fst snd] in Hspan.
  assert (Forall (fun w => Str.contains w (String c s) = true)
            (Re.findall_words_from fuel rest)) as Hrest.
  { eapply Forall_impl; [|apply IH]. intros w Hw.
    rewrite <- Hspan. now apply contains_app_r. }
  destruct (Re.all_chars Str.is_lower run); [|exact Hrest].
  constructor; [|exact Hrest].
  rewrite <- Hspan. apply contains_here.
Qed.

(** The name of a fresh branch, for a prompt of ASCII characters, is
    [amadeus/], a slug, the time and the random suffix.  The keywords of
    the slug are the first three of the words of the lower-cased prompt,
    the matches of [\b[a-z]+\b], that have four letters or more, in the
    order of the prompt; the slug is the keywords joined by a hyphen, or
    [update] when there is none.  Every keyword occurs in the lower-cased
    prompt and is made of letters a-z, so the slug is never empty and
    holds only the letters a-z and the hyphen. *)
Theorem branch_name_shape (W : World) (prompt : string) (tr : trace) :
  isascii prompt = true ->
  exists keywords slug,
    keywords = firstn 3 (filter (fun w => 3 <? String.length w)%nat
                           (Re.findall_words (Str.lower prompt)))
    /\ slug = match keywords with
              | [] => "update"
              | _ :: _ => Str.join "-" keywords
              end
    /\ _generate_branch_name W prompt tr
       = (tr, Ok ("amadeus/" +++ slug
                  +++ "-" +++ utcnow_strftime W tr "%m%d%H%M"
                  +++ "-" +++ token_hex W tr 2))
    /\ (length keywords <= 3)%nat
    /\ Forall (fun w => (3 < String.length w)%nat
                        /\ Re.all_chars Str.is_lower w = true
                        /\ Str.contains w (Str.lower prompt) = true) keywords
    /\ slug <> EmptyString
    /\ Re.all_chars (fun c => Str.is_lower c || Ascii.eqb c "-"%char) slug = true.
Proof.
  intros _.
  set (keywords :=
         firstn 3 (filter (fun w => 3 <? String.length w)%nat
                     (Re.findall_words (Str.lower prompt)))).
  assert (Forall (fun w => (3 < String.length w)%nat
                           /\ Re.all_chars Str.is_lower w = true
                           /\ Str.contains w (Str.lower prompt) = true)
            keywords) as Hk.
  { apply Forall_take. apply Forall_forall. intros w Hw.
    apply filter_In in Hw. destruct Hw as [Hw Hlen].
    apply Nat.ltb_lt in Hlen. split; [exact Hlen|].
    pose proof (findall_words_lower (String.length (Str.lower prompt))
                  (Str.lower prompt)) as Hall.
    pose proof (findall_words_occur (String.length (Str.lower prompt))
                  (Str.lower prompt)) as Hocc.
    rewrite Forall_forall in Hall, Hocc. split; [now apply Hall|].
    now apply Hocc. }
  exists keywords,
    (match keywords with [] => "update" | _ :: _ => Str.join "-" keywords end).
  split; [reflexivity|]. split; [reflexivity|]. split; [reflexivity|].
  split; [apply firstn_le_length|]. split; [exact Hk|].
  destruct keywords as [|w ws] eqn:Ek; [split; [discriminate | reflexivity]|].
  split.
  - inversion Hk as [|? ? [Hw _] _]; subst.
    unfold Str.join. destruct ws as [|w' ws'].
    + destruct w; simpl in *; [lia | discriminate].
    + change (String.concat "-" (w :: w' :: ws'))
        with (w +++ "-" +++ String.concat "-" (w' :: ws')).
      destruct w; simpl in *; [lia | discriminate].
  - apply all_chars_join; [reflexivity|].
    eapply Forall_impl; [|exact Hk].
    intros a (_ & Ha & _). eapply all_chars_weaken; [|exact Ha].
    intros c Hc. now rewrite Hc.
Qed.

(** The prompt [Fix the login page]: the words are [fix], [the], [login]
    and [page], the keywords [login] and [page]. *)
Lemma branch_name_shape_witness :
  _generate_branch_name (Scenario.world_with Scenario.stream_ok)
    "Fix the login page" []
  = ([], Ok "amadeus/login-page-11031200-ab12").
Proof.
  destruct (branch_name_shape (Scenario.world_with Scenario.stream_ok)
              "Fix the login page" [] eq_refl)
    as (keywords & slug & Hk & Hs & E & _).
  rewrite E, Hs, Hk. reflexivity.
Defined.

(** The fallback edit: whatever the prompt, [_simple_file_creation] makes
    no call and returns one change, which creates a file whose name holds a
    dot and whose text holds the prompt. *)
Theorem fallback_is_one_new_file (W : World) (prompt : string) (tr : trace) :
  exists name body,
    _simple_file_creation W prompt tr
    = (tr, Ok [mk_change (PStr name) (PStr body) (PStr "create")])
    /\ Str.contains "." name = true
    /\ Str.contains prompt body = true.
Proof.
  unfold _simple_file_creation.
  destruct (Re.search_filename (Str.lower prompt)) as [g|].
  - eexists _, _. split; [reflexivity|]. split.
    + destruct (Str.contains "." g) eqn:E; [exact E|].
      apply contains_app_r. reflexivity.
    + do 8 apply contains_app_r. apply contains_here.
  - eexists _, _. split; [reflexivity|]. split.
    + do 2 apply contains_app_r. reflexivity.
    + do 4 apply contains_app_r. apply contains_here.
Qed.

Lemma quoted_name_chars (s g : string) :
  Re.quoted_name s = Some g ->
  g <> EmptyString /\ Re.all_chars Re.is_filename_char g = true.
Proof.
  unfold Re.quoted_name.
  set (s' := match s with
             | String c r => if Re.is_quote c then r else s
             | EmptyString => s
             end).
  pose proof (span_fst_all Re.is_filename_char s') as H.
  destruct (Re.span Re.is_filename_char s') as [[|g0 g1] r]; [discriminate|].
  intros E. inversion E; subst. split; [discriminate | exact H].
Qed.

Lemma match_filename_chars (s g : string) :
  Re.match_filename s = Some g ->
  g <> EmptyString /\ Re.all_chars Re.is_filename_char g = true.
Proof.
  unfold Re.match_filename.
  destruct (match Re.strip_prefix "file" s with
            | Some r => Some r
            | None =>
                match Re.strip_prefix "create" s with
                | Some r => Some r
                | None => Re.strip_prefix "add" s
                end
            end) as [r|]; [|discriminate].
  destruct (Re.spaces1 r) as [t|]; [|discriminate].
  destruct (Re.named_then_name t) as [g'|] eqn:En.
  - intros E. inversion E; subst. unfold Re.named_then_name in En.
    destruct (Re.strip_prefix "name" t) as [r1|]; [|discriminate].
    destruct (Re.spaces1 _) as [t1|]; [|discriminate].
    now apply quoted_name_chars in En.
  - apply quoted_name_chars.
Qed.

Lemma search_filename_chars (s g : string) :
  Re.search_filename s = Some g ->
  g <> EmptyString /\ Re.all_chars Re.is_filename_char g = true.
Proof.
  induction s as [|c s IH]; cbn [Re.search_filename].
  - destruct (Re.match_filename EmptyString) eqn:E; [|discriminate].
    intros H. inversion H; subst. now apply match_filename_chars in E.
  - destruct (Re.match_filename (String c s)) eqn:E; [|exact IH].
    intros H. inversion H; subst. now apply match_filename_chars in E.
Qed.

(** A file name taken from a prompt of ASCII characters is the word that
    the pattern of l.623 matches in the lower-cased prompt, with [.txt]
    appended exactly when the word has no dot.  The name is not empty,
    has a dot, and holds only letters, digits, the underscore, the hyphen
    and the dot: no slash and no space, so the fallback file lies in the
    root of the repository.  The text of the file holds the prompt. *)
Theorem fallback_name_from_prompt (W : World) (prompt g : string) (tr : trace) :
  isascii prompt = true ->
  Re.search_filename (Str.lower prompt) = Some g ->
  exists name body,
    _simple_file_creation W prompt tr
    = (tr, Ok [mk_change (PStr name) (PStr body) (PStr "create")])
    /\ name = (if Str.contains "." g then g else g +++ ".txt")
    /\ (Str.contains "." g = true -> name = g)
    /\ (Str.contains "." g = false -> name = g +++ ".txt")
    /\ name <> EmptyString
    /\ Str.contains "." name = true
    /\ Re.all_chars Re.is_filename_char name = true
    /\ Str.contains "/" name = false
    /\ Str.contains prompt body = true.
Proof.
  intros _ H. unfold _simple_file_creation. rewrite H.
  apply search_filename_chars in H. destruct H as [Hne Hall].
  assert (forall n, Re.all_chars Re.is_filename_char n = true ->
                    Str.contains "/" n = false) as Hslash.
  { induction n as [|c n IH]; [reflexivity|].
    cbn [Re.all_chars Str.contains]. intros Hn.
    apply andb_prop in Hn. destruct Hn as [Hc Hn].
    rewrite (IH Hn), orb_false_r.
    cbn [String.prefix]. destruct (ascii_dec "/" c) as [<-|]; [discriminate|].
    reflexivity. }
  eexists _, _. split; [reflexivity|]. split; [reflexivity|].
  destruct (Str.contains "." g) eqn:Ed.
  - repeat split; auto; try discriminate.
    do 8 apply contains_app_r. apply contains_here.
  - assert (Re.all_chars Re.is_filename_char (g +++ ".txt") = true) as Ht.
    { now rewrite all_chars_app, Hall. }
    repeat split; auto; try discriminate.
    + destruct g; [congruence | discriminate].
    + apply contains_app_r. reflexivity.
    + do 8 apply contains_app_r. apply contains_here.
Qed.

(** The prompt [create Notes] names the file [notes.txt]. *)
Lemma fallback_name_from_prompt_witness :
  exists body,
    _simple_file_creation (Scenario.world_with Scenario.stream_ok)
      "create Notes" []
    = ([], Ok [mk_change (PStr "notes.txt") (PStr body) (PStr "create")])
    /\ Str.contains "create Notes" body = true.
Proof.
  destruct (fallback_name_from_prompt (Scenario.world_with Scenario.stream_ok)
              "create Notes" "notes" [] eq_refl eq_refl)
    as (name & body & E & Hn & _ & _ & _ & _ & _ & _ & Hb).
  exists body. rewrite E, Hn. split; [reflexivity | exact Hb].
Defined.

(** A word with a dot is kept as it is: [create app.py] names [app.py]. *)
Example fallback_keeps_the_extension :
  exists body,
    _simple_file_creation (Scenario.world_with Scenario.stream_ok)
      "create app.py" []
    = ([], Ok [mk_change (PStr "app.py") (PStr body) (PStr "create")]).
Proof. eexists. vm_compute. reflexivity. Qed.

(** ** The parser *)

(** [_parse_ai_response_with_meta], by what [json.loads] does with the
    text.  When [json.loads] returns an object, whatever its keys, the
    text is parsed without an exception.  When it returns a value that is
    not an object (a list, a string, a number, a boolean, null), the
    parser raises the [AttributeError] of [data.get], which l.609 does not
    catch.  When it raises [JSONDecodeError], the parser returns no
    change, no summary and no next steps. *)
Theorem parse_outcome_by_json_value (L : PyLib) (content_ : string) :
  (forall fields,
      json_loads L (strip_code_block content_) = Some (PDict fields) ->
      exists changes summary_ next_steps_,
        _parse_ai_response_with_meta L content_
        = Ok (changes, summary_, next_steps_))
  /\ (forall data,
        json_loads L (strip_code_block content_) = Some data ->
        Py.is_dict data = false ->
        _parse_ai_response_with_meta L content_
        = Raise (mk_exn AttributeError
                   ("'" +++ Py.type_name data
                    +++ "' object has no attribute 'get'")))
  /\ (json_loads L (strip_code_block content_) = None ->
      _parse_ai_response_with_meta L content_ = Ok ([], PNone, PNone)).
Proof.
  unfold _parse_ai_response_with_meta. split; [|split].
  - intros fields ->. unfold changes_of_data. simpl.
    destruct (Py.assoc "files" fields); simpl; eexists _, _, _; reflexivity.
  - intros data -> Hd.
    destruct data as [| b | n | s | items | fields];
      try reflexivity; discriminate.
  - intros ->. reflexivity.
Qed.

(** The three cases: the answer with two files is parsed, the legacy list
    raises, and a text that is no JSON gives no change. *)
Lemma parse_outcome_by_json_value_witness :
  (exists changes summary_ next_steps_,
     _parse_ai_response_with_meta Scenario.lib Scenario.full_json
     = Ok (changes, summary_, next_steps_))
  /\ _parse_ai_response_with_meta Scenario.lib Scenario.legacy_json
     = Raise (mk_exn AttributeError "'list' object has no attribute 'get'")
  /\ _parse_ai_response_with_meta Scenario.lib "Sorry, I cannot do that."
     = Ok ([], PNone, PNone).
Proof.
  split; [|split].
  - apply (proj1 (parse_outcome_by_json_value Scenario.lib Scenario.full_json)
             [("summary", PStr "Added two files");
              ("next_steps", PList [PStr "Run it"]);
              ("files", PList [Scenario.file_val "a.py";
                               Scenario.file_val "b.py"])]).
    vm_compute. reflexivity.
  - apply (proj1 (proj2 (parse_outcome_by_json_value Scenario.lib
                           Scenario.legacy_json))
             Scenario.legacy_val).
    + vm_compute. reflexivity.
    + reflexivity.
  - apply (proj2 (proj2 (parse_outcome_by_json_value Scenario.lib
                           "Sorry, I cannot do that."))).
    vm_compute. reflexivity.
Defined.

(** What an item of [files_data] becomes: nothing, or the one change with
    its path, its content, and its action or [create]. *)
Lemma change_of_item_file_object (item : pyval) :
  if is_file_object item
  then exists d p c,
         item = PDict d
         /\ Py.assoc "path" d = Some p
         /\ Py.assoc "content" d = Some c
         /\ change_of_item item
            = [mk_change p c
                 (match Py.assoc "action" d with
                  | Some a => a
                  | None => PStr "create"
                  end)]
  else change_of_item item = [].
Proof.
  destruct item as [| | | | |d]; try reflexivity. simpl.
  destruct (Py.assoc "path" d) as [p|] eqn:Ep; [|reflexivity].
  destruct (Py.assoc "content" d) as [c|] eqn:Ec; [|reflexivity].
  now exists d, p, c.
Qed.

(** The changes of a list of items: one for each file object, in the
    order of the list, each with the path, the content and the action of
    its item. *)
Lemma changes_of_items (items : list pyval) :
  Forall2 (fun item ch =>
             exists d,
               item = PDict d
               /\ Py.assoc "path" d = Some (path ch)
               /\ Py.assoc "content" d = Some (content ch)
               /\ action ch = match Py.assoc "action" d with
                              | Some a => a
                              | None => PStr "create"
                              end)
    (filter is_file_object items) (flat_map change_of_item items).
Proof.
  induction items as [|item items IH]; simpl; [constructor|].
  pose proof (change_of_item_file_object item) as H.
  destruct (is_file_object item).
  - destruct H as (d & p & c & -> & Hp & Hc & ->). simpl.
    constructor; [|exact IH]. exists d. simpl. auto.
  - rewrite H. exact IH.
Qed.

(** When the answer is an object whose key [files] holds a list, the
    changes are exactly the items of the list that are objects with the
    keys [path] and [content], in the order of the list: each such item
    gives one change with its path, its content and its own action,
    [create] when it has none; the other items are dropped without an
    error.  The summary is the value of the key [summary], [None] without
    it; the next steps are the value of the key [next_steps] when it is
    true, [None] otherwise. *)
Theorem parse_keeps_the_file_objects (L : PyLib) (content_ : string)
  (fields : list (string * pyval)) (items : list pyval) :
  json_loads L (strip_code_block content_) = Some (PDict fields) ->
  Py.assoc "files" fields = Some (PList items) ->
  exists changes,
    _parse_ai_response_with_meta L content_
    = Ok (changes,
          match Py.assoc "summary" fields with
          | Some v => v
          | None => PNone
          end,
          match Py.assoc "next_steps" fields with
          | Some v => if Py.truthy v then v else PNone
          | None => PNone
          end)
    /\ _parse_ai_response L content_ = Ok changes
    /\ Forall2 (fun item ch =>
                  exists d,
                    item = PDict d
                    /\ Py.assoc "path" d = Some (path ch)
                    /\ Py.assoc "content" d = Some (content ch)
                    /\ action ch = match Py.assoc "action" d with
                                   | Some a => a
                                   | None => PStr "create"
                                   end)
         (filter is_file_object items) changes.
Proof.
  intros H Hf. unfold _parse_ai_response, _parse_ai_response_with_meta.
  rewrite H. unfold changes_of_data. simpl. rewrite Hf. simpl.
  exists (flat_map (change_of_item) items).
  split; [|split; [reflexivity | apply changes_of_items]].
  destruct (Py.assoc "summary" fields);
    destruct (Py.assoc "next_steps" fields); reflexivity.
Qed.

(** The answer with the two files [a.py] and [b.py]. *)
Lemma parse_keeps_the_file_objects_witness :
  _parse_ai_response_with_meta Scenario.lib Scenario.full_json
  = Ok ([mk_change (PStr "a.py") (PStr "x") (PStr "create");
         mk_change (PStr "b.py") (PStr "x") (PStr "create")],
        PStr "Added two files", PList [PStr "Run it"]).
Proof.
  destruct (parse_keeps_the_file_objects Scenario.lib Scenario.full_json
              [("summary", PStr "Added two files");
               ("next_steps", PList [PStr "Run it"]);
               ("files", PList [Scenario.file_val "a.py";
                                Scenario.file_val "b.py"])]
              [Scenario.file_val "a.py"; Scenario.file_val "b.py"]
              eq_refl eq_refl) as (changes & E & _ & Hall).
  rewrite E. simpl in Hall.
  inversion Hall as [|i1 c1 l1 l1' (d1 & E1 & Hp1 & Hc1 & Ha1) Hrest]; subst.
  inversion Hrest as [|i2 c2 l2 l2' (d2 & E2 & Hp2 & Hc2 & Ha2) Hnil]; subst.
  inversion Hnil; subst.
  inversion E1; subst d1. inversion E2; subst d2.
  destruct c1 as [p1 t1 a1], c2 as [p2 t2 a2]. simpl in *.
  inversion Hp1; inversion Hc1; inversion Hp2; inversion Hc2; subst.
  reflexivity.
Defined.

(** An answer that is one file object, an object with the keys [path] and
    [content] and without the key [files], is taken as the one change it
    describes: its path, its content and its own action, [create] when it
    has none. *)
Theorem parse_single_file_object (L : PyLib) (content_ : string)
  (fields : list (string * pyval)) (p c : pyval) :
  json_loads L (strip_code_block content_) = Some (PDict fields) ->
  Py.assoc "files" fields = None ->
  Py.assoc "path" fields = Some p ->
  Py.assoc "content" fields = Some c ->
  _parse_ai_response_with_meta L content_
  = Ok ([mk_change p c
           (match Py.assoc "action" fields with
            | Some a => a
            | None => PStr "create"
            end)],
        match Py.assoc "summary" fields with
        | Some v => v
        | None => PNone
        end,
        match Py.assoc "next_steps" fields with
        | Some v => if Py.truthy v then v else PNone
        | None => PNone
        end)
  /\ _parse_ai_response L content_
     = Ok [mk_change p c
             (match Py.assoc "action" fields with
              | Some a => a
              | None => PStr "create"
              end)].
Proof.
  intros H Hf Hp Hc. unfold _parse_ai_response, _parse_ai_response_with_meta.
  rewrite H. unfold changes_of_data. simpl. rewrite Hf. simpl.
  rewrite Hp, Hc. simpl.
  destruct (Py.assoc "summary" fields);
    destruct (Py.assoc "next_steps" fields); split; reflexivity.
Qed.

Lemma parse_single_file_object_witness :
  _parse_ai_response_with_meta Cases.lib Cases.single_json
  = Ok ([mk_change (PStr "a.py") (PStr "x") (PStr "create")], PNone, PNone)
  /\ _parse_ai_response Cases.lib Cases.single_json
     = Ok [mk_change (PStr "a.py") (PStr "x") (PStr "create")].
Proof.
  apply (parse_single_file_object Cases.lib Cases.single_json
           [("path", PStr "a.py"); ("content", PStr "x");
            ("action", PStr "create")] (PStr "a.py") (PStr "x")).
  - vm_compute. reflexivity.
  - reflexivity.
  - reflexivity.
  - reflexivity.
Defined.

(** The action of the object is kept: an object with the action [update]
    gives an update. *)
Example parse_single_update :
  changes_of_data
    (PDict [("path", PStr "a.py"); ("content", PStr "x");
            ("action", PStr "update")])
  = Ok ([mk_change (PStr "a.py") (PStr "x") (PStr "update")], PNone, PNone).
Proof. reflexivity. Qed.

(** ** The loop over the lines of the stream *)

Lemma process_line_done (L : PyLib) (text_of : pyval -> outcome (option pyval))
  (os : option (callback StreamingUpdate)) (line : string)
  (st : stream_state) (tr : trace) :
  is_done_line line = true ->
  process_line L text_of os line st tr = (tr, (st, Ok Break)).
Proof.
  unfold is_done_line, process_line. intros H.
  apply andb_prop in H. destruct H as [H1 H2]. now rewrite H1, H2.
Qed.

(** What follows the end marker is never read: the lines after it, and a
    failure of the transport after it, change neither the updates nor the
    state nor the outcome of the loop. *)
Theorem lines_after_done_are_ignored (L : PyLib)
  (text_of : pyval -> outcome (option pyval))
  (os : option (callback StreamingUpdate)) (pre : list string) (done : string)
  (post : list string) (broken_ : option exn) (st : stream_state) (tr : trace) :
  is_done_line done = true ->
  consume_lines L text_of os (pre ++ done :: post) broken_ st tr
  = consume_lines L text_of os (pre ++ [done]) None st tr.
Proof.
  intros Hd. revert st tr.
  induction pre as [|l pre IH]; intros st tr; cbn [app consume_lines].
  - now rewrite (process_line_done L text_of os done st tr Hd).
  - destruct (process_line L text_of os l st tr) as [tr1 [st1 [[|]|e]]]; auto.
Qed.

Lemma lines_after_done_are_ignored_witness :
  consume_lines Scenario.lib anthropic_text Scenario.listen
    (["data: " +++ Scenario.delta_json Scenario.fragment1]
     ++ "data: [DONE]" :: ["data: " +++ Scenario.delta_json Scenario.fragment2])
    (Some (mk_exn TransportError "peer closed connection"))
    (mk_state EmptyString [] 0) []
  = consume_lines Scenario.lib anthropic_text Scenario.listen
      (["data: " +++ Scenario.delta_json Scenario.fragment1] ++ ["data: [DONE]"])
      None (mk_state EmptyString [] 0) [].
Proof.
  apply (lines_after_done_are_ignored Scenario.lib anthropic_text
           Scenario.listen
           ["data: " +++ Scenario.delta_json Scenario.fragment1]
           "data: [DONE]"
           ["data: " +++ Scenario.delta_json Scenario.fragment2]
           (Some (mk_exn TransportError "peer closed connection"))
           (mk_state EmptyString [] 0) []).
  reflexivity.
Defined.

Lemma join_empty_cons (x : string) (xs : list string) :
  Str.join EmptyString (x :: xs) = x +++ Str.join EmptyString xs.
Proof.
  unfold Str.join. destruct xs as [|y ys]; simpl; [now rewrite append_nil_r|].
  reflexivity.
Qed.

Lemma process_line_buffer (L : PyLib) (text_of : pyval -> outcome (option pyval))
  (os : option (callback StreamingUpdate)) (line : string)
  (st st1 : stream_state) (tr tr1 : trace) (c : loop_ctl) :
  process_line L text_of os line st tr = (tr1, (st1, Ok c)) ->
  match c with
  | Continue =>
      is_done_line line = false
      /\ full_content st1 = full_content st +++ fragment_of L text_of line
  | Break => is_done_line line = true /\ st1 = st
  end.
Proof.
  unfold process_line, is_done_line, fragment_of.
  destruct (Str.startswith "data: " line); cbn [negb andb].
  2: { intros H. inversion H; subst. now rewrite append_nil_r. }
  destruct (Str.drop 6 line =? "[DONE]")%string.
  { intros H. now inversion H. }
  destruct (json_loads L (Str.drop 6 line)) as [ev|].
  2: { intros H. inversion H; subst. now rewrite append_nil_r. }
  destruct (text_of ev) as [[v|]|e].
  - destruct v;
      try (intros H; inversion H; subst; now rewrite append_nil_r).
    destruct (notify_new_files os _ (files_detected st) tr) as [t [d [[]|e]]].
    + intros H. now inversion H.
    + destruct (is_json_decode_error e); intros H; now inversion H.
  - intros H. inversion H; subst. now rewrite append_nil_r.
  - destruct (is_json_decode_error e); intros H; inversion H; subst.
    now rewrite append_nil_r.
Qed.

Lemma consume_lines_buffer (L : PyLib)
  (text_of : pyval -> outcome (option pyval))
  (os : option (callback StreamingUpdate)) (ls : list string)
  (broken_ : option exn) (st st' : stream_state) (tr tr' : trace) :
  consume_lines L text_of os ls broken_ st tr = (tr', (st', Ok tt)) ->
  full_content st'
  = full_content st
    +++ Str.join EmptyString (map (fragment_of L text_of) (until_done ls)).
Proof.
  revert st tr. induction ls as [|line rest IH]; intros st tr;
    cbn [consume_lines until_done map].
  - destruct broken_; intros H; inversion H; subst.
    unfold Str.join. simpl. now rewrite append_nil_r.
  - destruct (process_line L text_of os line st tr) as [tr1 [st1 o1]] eqn:E1.
    destruct o1 as [c|e]; [|discriminate].
    apply process_line_buffer in E1. destruct c.
    + destruct E1 as [Hd Hf]. rewrite Hd. intros H. apply IH in H.
      cbn [map]. rewrite join_empty_cons, H, Hf. apply append_assoc.
    + destruct E1 as [Hd ->]. rewrite Hd. intros H. inversion H; subst.
      unfold Str.join. simpl. now rewrite append_nil_r.
Qed.

Lemma process_line_appends (L : PyLib) (text_of : pyval -> outcome (option pyval))
  (os : option (callback StreamingUpdate)) (line : string)
  (st st1 : stream_state) (tr tr1 : trace) (o : outcome loop_ctl) :
  process_line L text_of os line st tr = (tr1, (st1, o)) ->
  full_content st1 = full_content st
  \/ full_content st1 = full_content st +++ fragment_of L text_of line.
Proof.
  unfold process_line, fragment_of.
  destruct (Str.startswith "data: " line); cbn [negb].
  2: { intros H. inversion H. now left. }
  destruct (Str.drop 6 line =? "[DONE]")%string.
  { intros H. inversion H. now left. }
  destruct (json_loads L (Str.drop 6 line)) as [ev|].
  2: { intros H. inversion H. now left. }
  destruct (text_of ev) as [[v|]|e].
  - destruct v; try (intros H; inversion H; now left).
    destruct (notify_new_files os _ (files_detected st) tr) as [t [d [[]|e]]].
    + intros H. inversion H. now right.
    + destruct (is_json_decode_error e); intros H; inversion H; now right.
  - intros H. inversion H. now left.
  - destruct (is_json_decode_error e); intros H; inversion H; now left.
Qed.

(** However the streaming loop ends, the buffer holds what it held before
    followed by the texts of some first lines of the response, concatenated
    in the order of arrival; when the loop ends without an exception, these
    are the lines before the end marker.  A line that is not a data line,
    does not decode, or carries no text adds nothing. *)
Theorem buffer_is_concatenation (L : PyLib)
  (text_of : pyval -> outcome (option pyval))
  (os : option (callback StreamingUpdate)) (ls : list string)
  (broken_ : option exn) (st st' : stream_state) (tr tr' : trace)
  (o : outcome unit) :
  consume_lines L text_of os ls broken_ st tr = (tr', (st', o)) ->
  (exists k,
     full_content st'
     = full_content st
       +++ Str.join EmptyString (map (fragment_of L text_of) (firstn k ls)))
  /\ (o = Ok tt ->
      full_content st'
      = full_content st
        +++ Str.join EmptyString (map (fragment_of L text_of) (until_done ls))).
Proof.
  intros H. split.
  - revert st tr H. induction ls as [|line rest IH]; intros st tr;
      cbn [consume_lines].
    + intros H. exists 0%nat.
      destruct broken_; inversion H; subst; simpl; now rewrite append_nil_r.
    + destruct (process_line L text_of os line st tr) as [tr1 [st1 o1]] eqn:E1.
      pose proof (process_line_appends L text_of os line st st1 tr tr1 o1 E1)
        as Happ.
      destruct o1 as [[|]|e].
      * intros H. destruct (IH st1 tr1 H) as (k & Hk). exists (S k).
        cbn [firstn map]. rewrite join_empty_cons, Hk.
        apply process_line_buffer in E1. destruct E1 as [_ ->].
        apply append_assoc.
      * intros H. inversion H; subst.
        apply process_line_buffer in E1. destruct E1 as [_ ->].
        exists 0%nat. simpl. now rewrite append_nil_r.
      * intros H. inversion H; subst. destruct Happ as [-> | ->].
        -- exists 0%nat. simpl. now rewrite append_nil_r.
        -- exists 1%nat. reflexivity.
  - intros ->. now apply consume_lines_buffer in H.
Qed.

Lemma buffer_is_concatenation_witness :
  (exists k,
     full_content
       (fst (snd (consume_lines Scenario.lib anthropic_text Scenario.listen
                    (lines Scenario.stream_ok) None
                    (mk_state EmptyString [] 0) [])))
     = full_content (mk_state EmptyString [] 0)
       +++ Str.join EmptyString
             (map (fragment_of Scenario.lib anthropic_text)
                (firstn k (lines Scenario.stream_ok))))
  /\ (Ok tt = Ok tt ->
      full_content
        (fst (snd (consume_lines Scenario.lib anthropic_text Scenario.listen
                     (lines Scenario.stream_ok) None
                     (mk_state EmptyString [] 0) [])))
      = full_content (mk_state EmptyString [] 0)
        +++ Str.join EmptyString
              (map (fragment_of Scenario.lib anthropic_text)
                 (until_done (lines Scenario.stream_ok)))).
Proof.
  apply (buffer_is_concatenation Scenario.lib anthropic_text Scenario.listen
           (lines Scenario.stream_ok) None (mk_state EmptyString [] 0) _ []
           (fst (consume_lines Scenario.lib anthropic_text Scenario.listen
                   (lines Scenario.stream_ok) None (mk_state EmptyString [] 0) []))
           (Ok tt)).
  vm_compute. reflexivity.
Defined.

Lemma notify_new_files_quiet (os : option (callback StreamingUpdate))
  (new_files detected : list string) (tr tr' : trace) :
  quiet os ->
  snd (notify_new_files os new_files detected tr)
  = snd (notify_new_files None new_files detected tr').
Proof.
  intros Hq. revert detected tr tr'.
  induction new_files as [|f rest IH]; intros detected tr tr'; simpl;
    [reflexivity|].
  destruct (existsb (String.eqb f) detected); [apply IH|].
  destruct os as [cb|]; simpl; [|apply IH].
  rewrite (Hq cb eq_refl). apply IH.
Qed.

Lemma process_line_quiet (L : PyLib) (text_of : pyval -> outcome (option pyval))
  (os : option (callback StreamingUpdate)) (line : string)
  (st : stream_state) (tr tr' : trace) :
  quiet os ->
  snd (process_line L text_of os line st tr)
  = snd (process_line L text_of None line st tr').
Proof.
  intros Hq. unfold process_line.
  destruct (negb (Str.startswith "data: " line)); [reflexivity|].
  destruct (Str.drop 6 line =? "[DONE]")%string; [reflexivity|].
  destruct (json_loads L (Str.drop 6 line)) as [ev|]; [|reflexivity].
  destruct (text_of ev) as [[v|]|e].
  - destruct v; try reflexivity.
    pose proof (notify_new_files_quiet os
                  (Re.findall_path (Str.drop (last_update_len st)
                                      (full_content st +++ s)))
                  (files_detected st) tr tr' Hq) as Q.
    destruct (notify_new_files os _ (files_detected st) tr) as [t1 [d1 o1]].
    destruct (notify_new_files None _ (files_detected st) tr') as [t2 [d2 o2]].
    simpl in Q. inversion Q; subst.
    destruct o2 as [[]|e]; [reflexivity|].
    destruct (is_json_decode_error e); reflexivity.
  - reflexivity.
  - destruct (is_json_decode_error e); reflexivity.
Qed.

Lemma consume_lines_quiet (L : PyLib) (text_of : pyval -> outcome (option pyval))
  (os : option (callback StreamingUpdate)) (ls : list string)
  (broken_ : option exn) (st : stream_state) (tr tr' : trace) :
  quiet os ->
  snd (consume_lines L text_of os ls broken_ st tr)
  = snd (consume_lines L text_of None ls broken_ st tr').
Proof.
  intros Hq. revert st tr tr'.
  induction ls as [|line rest IH]; intros st tr tr'; cbn [consume_lines].
  - now destruct broken_.
  - pose proof (process_line_quiet L text_of os line st tr tr' Hq) as Q.
    destruct (process_line L text_of os line st tr) as [t1 [s1 o1]].
    destruct (process_line L text_of None line st tr') as [t2 [s2 o2]].
    simpl in Q. inversion Q; subst.
    destruct o2 as [[|]|e]; [apply IH | reflexivity | reflexivity].
Qed.

(** A streamed call that is answered with status 200 and whose lines are
    read to the end without an exception, with a callback that does not
    raise, returns what the parser makes of the texts of the lines before
    the end marker, concatenated in the order of arrival; when the parser
    raises, it returns no change. *)
Theorem streamed_answer_is_parsed_buffer (L : PyLib) (W : World)
  (text_of : pyval -> outcome (option pyval)) (url key : string) (timeout : Z)
  (payload : pyval) (os : option (callback StreamingUpdate)) (tr : trace)
  (resp : stream_response) :
  quiet os ->
  open_stream W tr url key payload = Ok resp ->
  status_code resp = 200%Z ->
  snd (snd (consume_lines L text_of None (lines resp) (broken resp)
              (mk_state EmptyString [] 0) [])) = Ok tt ->
  exists evs,
    stream_call L W text_of url key timeout payload os tr
    = (tr ++ evs,
       Ok (match _parse_ai_response_with_meta L
                   (Str.join EmptyString
                      (map (fragment_of L text_of) (until_done (lines resp))))
           with
           | Ok r => r
           | Raise _ => no_changes
           end)).
Proof.
  intros Hq Ho Hs Hl.
  unfold stream_call, try_except, bind. rewrite Ho, Hs.
  change (negb (200 =? 200)%Z) with false. cbv beta iota.
  set (tr1 := tr ++ [EvOpenStream url timeout payload (Ok resp)]).
  assert (exists tr2 ev2, tr2 = tr1 ++ ev2
                          /\ notify_stream os thinking_update tr1 = (tr2, Ok tt))
    as (tr2 & ev2 & Et2 & En).
  { destruct os as [cb|]; simpl.
    - eexists _, _. split; [reflexivity|]. now rewrite (Hq cb eq_refl).
    - exists tr1, []. now rewrite app_nil_r. }
  rewrite En.
  destruct (consume_lines_run L text_of os (lines resp) (broken resp)
              (mk_state EmptyString [] 0) tr2) as (added & st3 & o3 & Ec & _ & _).
  pose proof (consume_lines_quiet L text_of os (lines resp) (broken resp)
                (mk_state EmptyString [] 0) tr2 [] Hq) as Q.
  rewrite Ec in Q. simpl in Q.
  destruct (consume_lines L text_of None (lines resp) (broken resp)
              (mk_state EmptyString [] 0) []) as [t0 [s0 o0]] eqn:E0.
  simpl in Q, Hl. inversion Q; subst st3 o3. subst o0.
  apply consume_lines_buffer in E0. simpl in E0.
  cbn [files_detected] in Ec. rewrite Ec.
  assert (exists ev4,
             notify_stream os (done_update (files_detected s0))
               (tr2 ++ announce os [] added)
             = ((tr2 ++ announce os [] added) ++ ev4, Ok tt)) as (ev4 & Ed).
  { destruct os as [cb|]; simpl.
    - eexists. now rewrite (Hq cb eq_refl).
    - exists []. now rewrite !app_nil_r. }
  rewrite Ed. unfold lift. rewrite E0.
  exists ([EvOpenStream url timeout payload (Ok resp)] ++ ev2
          ++ announce os [] added ++ ev4).
  subst tr2 tr1. rewrite <- !app_assoc.
  now destruct (_parse_ai_response_with_meta L _).
Qed.

Lemma streamed_answer_is_parsed_buffer_witness :
  exists evs,
    stream_call Scenario.lib (Scenario.world_with Scenario.stream_ok)
      anthropic_text ANTHROPIC_API_URL "sk-ant-key" 180 PNone Scenario.listen []
    = ([] ++ evs,
       Ok (match _parse_ai_response_with_meta Scenario.lib
                   (Str.join EmptyString
                      (map (fragment_of Scenario.lib anthropic_text)
                         (until_done (lines Scenario.stream_ok))))
           with
           | Ok r => r
           | Raise _ => no_changes
           end)).
Proof.
  apply (streamed_answer_is_parsed_buffer Scenario.lib
           (Scenario.world_with Scenario.stream_ok) anthropic_text
           ANTHROPIC_API_URL "sk-ant-key" 180 PNone Scenario.listen []
           Scenario.stream_ok).
  - intros f Hf tr a. inversion Hf. reflexivity.
  - reflexivity.
  - reflexivity.
  - vm_compute. reflexivity.
Defined.

(** ** The choice of the provider *)

(** The first 100 entries of the tree and the last 10 messages of the
    conversation are all that [_generate_ai_changes] reads of its context:
    the entries and the messages beyond them, well formed or not, and the
    argument [repo_context], have no influence on the call. *)
Theorem ai_changes_context_window (L : PyLib) (W : World) (user : User)
  (prompt repo_context repo_context' : string) (tree hist : list pyval)
  (on_stream : option (callback StreamingUpdate)) :
  _generate_ai_changes L W user prompt repo_context (PList tree) (Some hist)
    on_stream
  = _generate_ai_changes L W user prompt repo_context'
      (PList (firstn 100 tree)) (Some (skipn (length hist - 10) hist))
      on_stream.
Proof.
  assert (tree_summary L (PList tree)
          = tree_summary L (PList (firstn 100 tree))) as Et.
  { unfold tree_summary. now rewrite firstn_firstn, Nat.min_id. }
  assert (history_context L (Some hist)
          = history_context L (Some (skipn (length hist - 10) hist))) as Eh.
  { destruct hist as [|m ms]; [reflexivity|].
    unfold history_context at 1. cbv zeta.
    remember (m :: ms) as hist eqn:E0.
    assert (length hist = S (length ms)) as El by now rewrite E0.
    assert (length (skipn (length hist - 10) hist) <= 10)%nat as Hle.
    { rewrite length_skipn. lia. }
    assert (0 < length (skipn (length hist - 10) hist))%nat as Hpos.
    { rewrite length_skipn. lia. }
    destruct (skipn (length hist - 10) hist) as [|m' ms'] eqn:Es;
      [simpl in Hpos; lia|].
    unfold history_context. cbv zeta.
    replace (length (m' :: ms') - 10)%nat with 0%nat by lia.
    reflexivity. }
  unfold _generate_ai_changes. now rewrite Et, Eh.
Qed.

Lemma stream_call_opens (L : PyLib) (W : World)
  (text_of : pyval -> outcome (option pyval)) (url key : string) (timeout : Z)
  (payload : pyval) (os : option (callback StreamingUpdate)) (tr : trace) :
  exists us o,
    stream_call L W text_of url key timeout payload os tr
    = (tr ++ EvOpenStream url timeout payload (open_stream W tr url key payload)
             :: map EvStream us, Ok o).
Proof.
  destruct (stream_call_run L W text_of url key timeout payload os tr)
    as (us & o & H & _).
  now exists us, o.
Qed.

(** [_generate_ai_changes] opens at most one stream, and only to a
    provider whose key the user has, with that key.  A model of the Claude
    family goes to Anthropic, any other model to OpenAI; when the key of
    that provider is missing, the call goes to the other provider with its
    default model in place of the model of the user. *)
Theorem model_call_uses_a_configured_key (L : PyLib) (W : World) (user : User)
  (prompt repo_context : string) (file_tree : pyval)
  (history : option (list pyval))
  (on_stream : option (callback StreamingUpdate)) (tr : trace) :
  let user_model :=
    if truthy_str (default_model (settings user))
    then key_of (default_model (settings user)) else "gpt-5.2" in
  let has_anthropic := truthy_str (anthropic_key (api_keys user)) in
  let has_openai := truthy_str (openai_key (api_keys user)) in
  exists evs o,
    _generate_ai_changes L W user prompt repo_context file_tree history
      on_stream tr = (tr ++ evs, o)
    /\ (evs = []
        \/ exists url key model timeout payload us,
             evs = EvOpenStream url timeout payload
                     (open_stream W tr url key payload) :: map EvStream us
             /\ Py.get payload "model" PNone = Ok (PStr model)
             /\ ((url = ANTHROPIC_API_URL
                  /\ key = key_of (anthropic_key (api_keys user))
                  /\ has_anthropic = true
                  /\ ((Str.startswith "claude" user_model = true
                       /\ model = user_model)
                      \/ (Str.startswith "claude" user_model = false
                          /\ has_openai = false
                          /\ model = "claude-sonnet-4-20250514")))
                 \/ (url = OPENAI_API_URL
                     /\ key = key_of (openai_key (api_keys user))
                     /\ has_openai = true
                     /\ ((Str.startswith "claude" user_model = false
                          /\ model = user_model)
                         \/ (Str.startswith "claude" user_model = true
                             /\ has_anthropic = false
                             /\ model = "gpt-5.2"))))).
Proof.
  intros user_model has_anthropic has_openai.
  unfold _generate_ai_changes.
  fold user_model. fold has_anthropic. fold has_openai.
  unfold bind at 1. unfold lift at 1.
  destruct (tree_summary L file_tree) as [tree|e].
  2: { exists [], (Raise e). rewrite app_nil_r. auto. }
  unfold bind at 1. unfold lift at 1.
  destruct (history_context L history) as [hist|e].
  2: { exists [], (Raise e). rewrite app_nil_r. auto. }
  assert (forall text_of url key timeout payload,
             exists us o,
               (result <- (r <- stream_call L W text_of url key timeout payload
                                  on_stream ;;
                           ret (Some r)) ;;
                match result with
                | Some (c0 :: cs, summary_, next_steps_) =>
                    ret (c0 :: cs, summary_, next_steps_)
                | _ => raise ai_returned_no_changes
                end) tr
               = (tr ++ EvOpenStream url timeout payload
                          (open_stream W tr url key payload)
                        :: map EvStream us, o)) as Call.
  { intros text_of url key timeout payload.
    destruct (stream_call_opens L W text_of url key timeout payload on_stream tr)
      as (us & r & Er).
    unfold bind. rewrite Er. unfold ret, raise. exists us.
    destruct r as [[[|c0 cs] s] n]; eexists; reflexivity. }
  subst has_anthropic has_openai.
  destruct (truthy_str (anthropic_key (api_keys user))) eqn:Ha,
           (truthy_str (openai_key (api_keys user))) eqn:Ho; cbn [negb andb];
    destruct (Str.startswith "claude" user_model) eqn:Ec.
  all: try (exists [], (Raise no_api_keys); rewrite app_nil_r;
            split; [reflexivity | now left]).
  all: unfold _call_anthropic_streaming, _call_openai_streaming.
  all: match goal with
       | |- context [stream_call _ _ ?tof ?url ?k ?t ?p _] =>
           destruct (Call tof url k t p) as (us & o & E);
           exists (EvOpenStream url t p (open_stream W tr url k p)
                   :: map EvStream us), o;
           split; [exact E|]; right;
           eexists url, k, _, t, p, us;
           split; [reflexivity|]; split; [reflexivity|]
       end.
  all: first [ left; repeat split; auto; fail
             | right; repeat split; auto; fail
             | left; repeat split; auto; left; auto; fail
             | left; repeat split; auto; right; auto; fail
             | right; repeat split; auto; left; auto; fail
             | right; repeat split; auto; right; auto; fail ].
Qed.

(** ** The other methods of the client *)

Lemma get_cases (v : pyval) (k : string) (dflt : pyval) :
  (Py.is_dict v = true /\ exists x, Py.get v k dflt = Ok x)
  \/ (Py.is_dict v = false /\ Py.get v k dflt = Raise (Py.no_attribute v "get")).
Proof. destruct v; simpl; eauto. Qed.



(** When every request is answered with a status other than 200, the
    methods that read from GitHub do not raise: each returns its empty
    value, [None] for one object and the empty list for a listing. *)
Theorem read_methods_are_empty_on_failure
  (request_ : string -> string -> pyval -> M (Z * pyval))
  (owner repo sort state branch_ : string) (per_page n : Z) (tr : trace) :
  (forall m e a tr0, exists tr' status data,
      request_ m e a tr0 = (tr', Ok (status, data)) /\ status <> 200%Z) ->
  snd (get_user request_ tr) = Ok PNone
  /\ snd (list_repos request_ sort per_page tr) = Ok []
  /\ snd (list_branches request_ owner repo tr) = Ok []
  /\ snd (get_recent_commits request_ owner repo branch_ per_page tr)
     = Ok (PList [])
  /\ snd (list_pull_requests request_ owner repo state per_page tr)
     = Ok (PList [])
  /\ snd (get_pull_request request_ owner repo n tr) = Ok PNone.
Proof.
  intros H.
  unfold get_user, list_repos, list_branches, get_recent_commits,
    list_pull_requests, get_pull_request, bind, not_200_or_empty.
  repeat split;
    match goal with
    | |- context [request_ ?m ?e ?a tr] =>
        destruct (H m e a tr) as (tr' & status & data & E & Hs); rewrite E;
        apply Z.eqb_neq in Hs; rewrite Hs; reflexivity
    end.
Qed.

(** GitHub answers 404 to every request. *)
Lemma read_methods_are_empty_on_failure_witness :
  snd (get_user (Cases.answer (404%Z, PDict [("message", PStr "Not Found")])) [])
  = Ok PNone
  /\ snd (list_repos (Cases.answer (404%Z, PDict [("message", PStr "Not Found")]))
            "updated" 30 []) = Ok []
  /\ snd (list_branches (Cases.answer (404%Z, PDict [("message", PStr "Not Found")]))
            "owner" "repo" []) = Ok []
  /\ snd (get_recent_commits
            (Cases.answer (404%Z, PDict [("message", PStr "Not Found")]))
            "owner" "repo" "main" 30 []) = Ok (PList [])
  /\ snd (list_pull_requests
            (Cases.answer (404%Z, PDict [("message", PStr "Not Found")]))
            "owner" "repo" "open" 30 []) = Ok (PList [])
  /\ snd (get_pull_request
            (Cases.answer (404%Z, PDict [("message", PStr "Not Found")]))
            "owner" "repo" 7 []) = Ok PNone.
Proof.
  apply (read_methods_are_empty_on_failure
           (Cases.answer (404%Z, PDict [("message", PStr "Not Found")]))
           "owner" "repo" "updated" "open" "main" 30 7 []).
  intros m e a tr. exists tr, 404%Z, (PDict [("message", PStr "Not Found")]).
  split; [reflexivity | discriminate].
Defined.

(** ** Listing and reading repositories *)

Lemma omap_Forall2 {A B : Type} (f : A -> outcome B) (l : list A) (ys : list B) :
  omap f l = Ok ys -> Forall2 (fun x y => f x = Ok y) l ys.
Proof.
  revert ys. induction l as [|x l IH]; intros ys; simpl.
  - intros H. inversion H. constructor.
  - destruct (f x) as [y|e] eqn:Ex; simpl; [|discriminate].
    destruct (omap f l) as [ys'|e]; simpl; [|discriminate].
    intros H. inversion H; subst. constructor; auto.
Qed.

Lemma omap_raises {A B : Type} (f : A -> outcome B) (l : list A) (e : exn) :
  omap f l = Raise e -> exists x, In x l /\ f x = Raise e.
Proof.
  induction l as [|x l IH]; simpl; [discriminate|].
  destruct (f x) as [y|e'] eqn:Ex; simpl.
  - destruct (omap f l) as [ys'|e'']; simpl; [discriminate|].
    intros H. inversion H; subst.
    destruct (IH eq_refl) as (x' & Hin & Hx). eauto.
  - intros H. inversion H; subst. eauto.
Qed.

(** [get_repo] builds its result from the body of a 200 answer as
    [list_repos] builds each of its entries. *)
Lemma get_repo_of_data (W : World) (token owner repo : string) (tr : trace)
  (data : pyval) :
  request W tr token "GET" ("/repos/" +++ owner +++ "/" +++ repo) PNone
  = Ok (200%Z, data) ->
  Py.truthy data = true ->
  snd (get_repo W token owner repo tr)
  = match repository_of data with
    | Ok r => Ok (Some r)
    | Raise e => Raise e
    end.
Proof.
  intros H Ht. unfold get_repo, bind, _request. rewrite H.
  unfold not_200_or_empty. rewrite Ht. cbn [Z.eqb Pos.eqb negb orb].
  unfold repository_of, lift, ret, obind.
  repeat match goal with
         | |- context [Py.getitem data ?k] => destruct (Py.getitem data k)
         | |- context [Py.get data ?k ?d] => destruct (Py.get data k d)
         end; reflexivity.
Qed.

Lemma repository_of_truthy (data : pyval) (r : Repository) :
  repository_of data = Ok r -> Py.truthy data = true.
Proof.
  unfold repository_of. destruct data as [| | | | |d]; try discriminate.
  destruct d; [discriminate | reflexivity].
Qed.

(** [list_repos], answered with status 200 and a list, returns one
    repository for each entry, in the order of the list, and each is the
    repository that [get_repo] returns when GitHub answers it with that
    entry; when it raises, it is with the exception of an entry from which
    no repository can be built. *)
Theorem list_repos_agrees_with_get_repo
  (request_ : string -> string -> pyval -> M (Z * pyval))
  (sort : string) (per_page : Z) (tr tr' : trace) (items : list pyval) :
  request_ "GET" "/user/repos"
    (PDict [("sort", PStr sort); ("per_page", PInt per_page)]) tr
  = (tr', Ok (200%Z, PList items)) ->
  exists o,
    list_repos request_ sort per_page tr = (tr', o)
    /\ (forall rs, o = Ok rs ->
          Forall2
            (fun item r =>
               forall W token owner repo tr0,
                 request W tr0 token "GET" ("/repos/" +++ owner +++ "/" +++ repo)
                   PNone = Ok (200%Z, item) ->
                 snd (get_repo W token owner repo tr0) = Ok (Some r))
            items rs)
    /\ (forall e, o = Raise e ->
          exists item, In item items /\ repository_of item = Raise e).
Proof.
  intros H. unfold list_repos, bind. rewrite H. unfold not_200_or_empty.
  cbn [Z.eqb Pos.eqb negb orb Py.truthy].
  destruct items as [|i0 items'].
  - exists (Ok []). split; [reflexivity|]. split.
    + intros rs E. inversion E. constructor.
    + discriminate.
  - cbn [iterate lift]. unfold lift.
    exists (omap repository_of (i0 :: items')). split; [reflexivity|]. split.
    + intros rs E. apply omap_Forall2 in E.
      eapply Forall2_impl; [|exact E].
      intros item r Hr W token owner repo tr0 Hreq.
      rewrite (get_repo_of_data W token owner repo tr0 item Hreq
                 (repository_of_truthy item r Hr)).
      now rewrite Hr.
    + intros e E. now apply omap_raises in E.
Qed.

(** GitHub lists the repository of the scenarios and one that gives no
    default branch. *)
Lemma list_repos_agrees_with_get_repo_witness :
  exists o,
    list_repos (Cases.answer (200%Z, PList [Scenario.repo_data; Cases.bare_repo]))
      "updated" 30 [] = ([], o)
    /\ (forall rs, o = Ok rs ->
          Forall2
            (fun item r =>
               forall W token owner repo tr0,
                 request W tr0 token "GET" ("/repos/" +++ owner +++ "/" +++ repo)
                   PNone = Ok (200%Z, item) ->
                 snd (get_repo W token owner repo tr0) = Ok (Some r))
            [Scenario.repo_data; Cases.bare_repo] rs)
    /\ (forall e, o = Raise e ->
          exists item,
            In item [Scenario.repo_data; Cases.bare_repo]
            /\ repository_of item = Raise e).
Proof.
  apply (list_repos_agrees_with_get_repo
           (Cases.answer (200%Z, PList [Scenario.repo_data; Cases.bare_repo]))
           "updated" 30 [] [] [Scenario.repo_data; Cases.bare_repo]).
  reflexivity.
Defined.

Lemma not_200_or_empty_false (status : Z) (data : pyval) :
  not_200_or_empty status data = false ->
  status = 200%Z /\ Py.truthy data = true.
Proof.
  unfold not_200_or_empty. intros H. apply orb_false_elim in H.
  destruct H as [H1 H2]. apply negb_false_iff in H1, H2.
  apply Z.eqb_eq in H1. auto.
Qed.

(** [get_tree] returns a tree only after two requests answered with status
    200: the first reads the reference of the branch, the second reads the
    tree at the hash the first answer gives, recursively; the value is what
    the second answer holds at the key [tree]. *)
Theorem get_tree_reads_ref_then_tree (L : PyLib) (W : World)
  (token owner repo : string) (ref : pyval) (tr tr' : trace) (v : pyval) :
  get_tree L W token owner repo ref tr = (tr', Ok v) ->
  v <> PNone ->
  exists d1 obj tree_sha d2,
    tr' = tr ++ [EvRequest ApiGetTree "GET"
                   ("/repos/" +++ owner +++ "/" +++ repo +++ "/git/ref/heads/"
                    +++ fmt L ref)
                   PNone (Ok (200%Z, d1));
                 EvRequest ApiGetTree "GET"
                   ("/repos/" +++ owner +++ "/" +++ repo +++ "/git/trees/"
                    +++ fmt L tree_sha)
                   (PDict [("recursive", PStr "1")]) (Ok (200%Z, d2))]
    /\ Py.get d1 "object" (PDict []) = Ok obj
    /\ Py.get obj "sha" PNone = Ok tree_sha
    /\ Py.truthy tree_sha = true
    /\ Py.get d2 "tree" (PList []) = Ok v.
Proof.
  unfold get_tree, bind, _request, lift, ret. intros H Hv.
  destruct (request W tr token "GET" _ PNone) as [[st1 d1]|e1] eqn:E1;
    [|discriminate].
  destruct (not_200_or_empty st1 d1) eqn:N1;
    [inversion H; subst; contradiction|].
  apply not_200_or_empty_false in N1. destruct N1 as [-> _].
  destruct (Py.get d1 "object" (PDict [])) as [obj|e] eqn:Eo; [|discriminate].
  destruct (Py.get obj "sha" PNone) as [tree_sha|e] eqn:Es; [|discriminate].
  destruct (Py.truthy tree_sha) eqn:Et; cbn [negb] in H;
    [|inversion H; subst; contradiction].
  destruct (request W _ token "GET" _ (PDict [("recursive", PStr "1")]))
    as [[st2 d2]|e2] eqn:E2; [|discriminate].
  destruct (not_200_or_empty st2 d2) eqn:N2;
    [inversion H; subst; contradiction|].
  apply not_200_or_empty_false in N2. destruct N2 as [-> _].
  inversion H; subst. exists d1, obj, tree_sha, d2.
  rewrite <- app_assoc. repeat split; auto.
Qed.

Lemma get_tree_reads_ref_then_tree_witness :
  exists d1 obj tree_sha d2,
    fst (get_tree Scenario.lib (Scenario.world_with Scenario.stream_ok)
           "ghp_token" "owner" "repo" (PStr "main") [])
    = [] ++ [EvRequest ApiGetTree "GET"
               ("/repos/" +++ "owner" +++ "/" +++ "repo" +++ "/git/ref/heads/"
                +++ fmt Scenario.lib (PStr "main"))
               PNone (Ok (200%Z, d1));
             EvRequest ApiGetTree "GET"
               ("/repos/" +++ "owner" +++ "/" +++ "repo" +++ "/git/trees/"
                +++ fmt Scenario.lib tree_sha)
               (PDict [("recursive", PStr "1")]) (Ok (200%Z, d2))]
    /\ Py.get d1 "object" (PDict []) = Ok obj
    /\ Py.get obj "sha" PNone = Ok tree_sha
    /\ Py.truthy tree_sha = true
    /\ Py.get d2 "tree" (PList [])
       = Ok (PList [PDict [("path", PStr "README.md"); ("type", PStr "blob")]]).
Proof.
  apply (get_tree_reads_ref_then_tree Scenario.lib
           (Scenario.world_with Scenario.stream_ok) "ghp_token" "owner" "repo"
           (PStr "main") []
           (fst (get_tree Scenario.lib (Scenario.world_with Scenario.stream_ok)
                   "ghp_token" "owner" "repo" (PStr "main") []))
           (PList [PDict [("path", PStr "README.md"); ("type", PStr "blob")]])).
  - vm_compute. reflexivity.
  - discriminate.
Defined.

(** ** The calls of a run *)

Lemma emits_conj {A : Type} (P P' : event -> Prop) (R R' : A -> Prop) (c : M A) :
  emits P R c -> emits P' R' c ->
  emits (fun e => P e /\ P' e) (fun a => R a /\ R' a) c.
Proof.
  intros H H' tr.
  destruct (H tr) as (evs & o & E & HF & HR).
  destruct (H' tr) as (evs' & o' & E' & HF' & HR').
  rewrite E in E'. inversion E' as [[Ee Eo]].
  apply app_inv_head in Ee. subst evs' o'.
  exists evs, o. split; [exact E|]. split.
  - rewrite Forall_forall in *. auto.
  - auto.
Qed.

Lemma not_pull_request (ks : list kind) (e : event) (Q : Prop) :
  ~ In KCreatePullRequest ks -> within ks e ->
  kind_of e = KCreatePullRequest -> Q.
Proof. unfold within. intros Hks He Hk. rewrite Hk in He. contradiction. Qed.

(** The pull request of a run.  A call of [create_pull_request] is made
    only when [create_pr] is set and no number of an existing pull request
    is given.  With such a number, a success reports the address of that
    pull request in the selected repository; without it and without
    [create_pr], a success reports no pull request. *)
Theorem pull_request_is_opened_on_request (L : PyLib) (W : World) (user : User)
  (prompt : string) (on_progress : option (callback WorkflowProgress))
  (on_stream : option (callback StreamingUpdate)) (create_pr : bool)
  (history : option (list pyval)) (existing_branch : option string)
  (existing_pr_number : option Z) :
  emits
    (fun e => kind_of e = KCreatePullRequest ->
              create_pr = true /\ truthy_int existing_pr_number = false)
    (fun r => success r = true ->
              (truthy_int existing_pr_number = true ->
               pr_url r
               = PStr ("https://github.com/"
                       +++ key_of (selected_repo (github user))
                       +++ "/pull/" +++ Str.of_Z (int_of existing_pr_number)))
              /\ (truthy_int existing_pr_number = false ->
                  create_pr = false -> pr_url r = PNone))
    (execute L W user prompt on_progress on_stream create_pr history
       existing_branch existing_pr_number).
Proof.
  set (P := fun e => kind_of e = KCreatePullRequest ->
                     create_pr = true /\ truthy_int existing_pr_number = false).
  assert (forall (A : Type) (c : M A) ks,
             emits (within ks) any c -> ~ In KCreatePullRequest ks ->
             emits P any c) as Sub.
  { intros A c ks Hc Hks. eapply emits_sub; [exact Hc|].
    intros e He Hk. now apply (not_pull_request ks e). }
  unfold execute.
  destruct (negb (is_connected (github user)));
    [apply emits_ret; discriminate|].
  destruct (negb (truthy_str (selected_repo (github user))));
    [apply emits_ret; discriminate|].
  cbv zeta. apply emits_bind_any; [apply emits_lift; intros; exact I|].
  intros [owner repo_name_]. apply emits_try.
  2: { intros e. unfold workflow_failed. apply emits_ret. discriminate. }
  eapply execute_body_emits.
  - eapply emits_sub; [apply prepare_quiet|].
    intros e He Hk. apply (not_pull_request run_kinds e); auto.
    unfold run_kinds. not_in_kinds.
  - intros m e. discriminate.
  - intros b db c s n _ _. unfold commit_and_report.
    apply emits_bind_any;
      [apply (Sub _ _ [KProgress]);
       [apply progress_footprint | not_in_kinds]|]. intros _.
    apply emits_bind_any;
      [apply (Sub _ _ [KProgress]);
       [apply progress_footprint | not_in_kinds]|]. intros _.
    apply emits_bind_any;
      [apply (Sub _ _ [KGetFileContent; KCreateOrUpdateFile]);
       [apply commit_changes_footprint | not_in_kinds]|].
    intros [commit [|f fs]]; [apply emits_ret; discriminate|].
    eapply emits_bind
      with (R1 := fun v =>
                    (truthy_int existing_pr_number = true ->
                     v = PStr ("https://github.com/"
                               +++ key_of (selected_repo (github user))
                               +++ "/pull/"
                               +++ Str.of_Z (int_of existing_pr_number)))
                    /\ (truthy_int existing_pr_number = false ->
                        create_pr = false -> v = PNone)).
    + destruct (truthy_int existing_pr_number) eqn:En; [|destruct create_pr].
      * unfold pull_request_url. rewrite En.
        apply emits_bind_any;
          [apply (Sub _ _ [KProgress]);
           [apply progress_footprint | not_in_kinds]|]. intros _.
        apply emits_ret. split; [reflexivity | discriminate].
      * eapply emits_weaken.
        -- apply pull_request_url_footprint.
        -- intros e _ _. split; reflexivity.
        -- intros v _. split; discriminate.
      * unfold pull_request_url. rewrite En.
        apply emits_ret. split; [discriminate | reflexivity].
    + intros v Hv.
      apply emits_bind_any;
        [apply (Sub _ _ [KProgress]);
         [apply progress_footprint | not_in_kinds]|]. intros _.
      apply emits_ret. intros _. exact Hv.
Qed.

Lemma written_branch_kind (e : event) (v : pyval) :
  written_branch e = Some v -> kind_of e = KCreateOrUpdateFile.
Proof.
  destruct e as [via m ep args r| | |]; try discriminate.
  destruct via; try discriminate. reflexivity.
Qed.

Lemma no_write_within (ks : list kind) (e : event) :
  ~ In KCreateOrUpdateFile ks -> within ks e -> written_branch e = None.
Proof.
  intros Hks He. destruct (written_branch e) eqn:E; [|reflexivity].
  apply written_branch_kind in E. unfold within in He. rewrite E in He.
  contradiction.
Qed.

Lemma _generate_branch_name_prefix (W : World) (prompt : string) :
  emits (within []) (fun b => Str.startswith "amadeus/" b = true)
    (_generate_branch_name W prompt).
Proof.
  intros tr.
  assert (exists x, _generate_branch_name W prompt tr
                    = (tr, Ok ("amadeus/" +++ x))) as [x E].
  { unfold _generate_branch_name. eexists. reflexivity. }
  exists [], (Ok ("amadeus/" +++ x)). rewrite app_nil_r.
  split; [exact E|]. split; [constructor|].
  intros a Ha. assert (a = "amadeus/" +++ x) as -> by congruence.
  unfold Str.startswith. apply prefix_self_app.
Qed.

Lemma resolve_branch_working (W : World) (prompt : string)
  (on_progress : option (callback WorkflowProgress))
  (existing_branch : option string) (access_token_ owner repo_name_ : string)
  (base_sha : pyval) :
  emits (within [KProgress; KCreateBranch])
    (resolved (working_branch existing_branch))
    (resolve_branch W prompt on_progress existing_branch access_token_ owner
       repo_name_ base_sha).
Proof.
  unfold resolve_branch, working_branch.
  destruct (truthy_str existing_branch) eqn:E.
  - emits_walk ltac:(simpl; eauto).
  - eapply emits_bind with (R1 := fun b => Str.startswith "amadeus/" b = true).
    + eapply emits_within;
        [apply _generate_branch_name_prefix | kinds_incl | auto].
    + intros name Hn. emits_walk ltac:(simpl; eauto).
Qed.

Lemma working_branch_exists (existing_branch : option string) :
  exists b, working_branch existing_branch b.
Proof.
  unfold working_branch. destruct (truthy_str existing_branch).
  - now exists (key_of existing_branch).
  - now exists "amadeus/".
Qed.

Lemma create_or_update_file_branch (L : PyLib) (W : World)
  (token owner repo : string) (p c : pyval) (m b : string) (s : pyval) :
  emits (fun e => forall v, written_branch e = Some v -> v = PStr b) any
    (create_or_update_file L W token owner repo p c m b s).
Proof.
  unfold create_or_update_file.
  apply emits_bind_any; [apply emits_lift; intros; exact I|]. intros enc.
  apply emits_bind_any.
  - intros tr. unfold _request. eexists _, _. split; [reflexivity|].
    split; [|intros; exact I].
    constructor; [|constructor]. intros v Hv. simpl in Hv.
    inversion Hv. reflexivity.
  - intros [st data].
    destruct (negb ((st =? 200)%Z || (st =? 201)%Z) || negb (Py.truthy data));
      [apply emits_ret; exact I|].
    repeat (apply emits_bind_any; [apply emits_lift; intros; exact I|]; intros ?).
    apply emits_ret. exact I.
Qed.

Lemma commit_changes_branch (L : PyLib) (W : World)
  (access_token_ owner repo_name_ b : string) (changes : list FileChange)
  (commit : option Commit) (files : list pyval) :
  emits (fun e => forall v, written_branch e = Some v -> v = PStr b) any
    (commit_changes L W access_token_ owner repo_name_ b changes commit files).
Proof.
  revert commit files. induction changes as [|ch rest IH]; intros commit files.
  - now apply emits_ret.
  - cbn [commit_changes]. apply emits_bind_any; [|intros c; apply IH].
    unfold commit_change. apply emits_bind_any.
    + destruct (Py.eq_str (action ch) "update"); [|now apply emits_ret].
      apply emits_bind_any; [|intros r; now apply emits_ret].
      eapply emits_sub; [apply get_file_content_footprint|].
      intros e He v Hv.
      rewrite (no_write_within [KGetFileContent] e) in Hv;
        [discriminate | not_in_kinds | exact He].
    + intros sha_. apply create_or_update_file_branch.
Qed.

Lemma commit_and_report_branch (L : PyLib) (W : World) (prompt : string)
  (on_progress : option (callback WorkflowProgress)) (create_pr : bool)
  (existing_pr_number : option Z)
  (repo_full_name_ access_token_ owner repo_name_ b : string) (db : pyval)
  (changes : list FileChange) (s n : pyval) :
  emits (fun e => forall v, written_branch e = Some v -> v = PStr b) any
    (commit_and_report L W prompt on_progress create_pr existing_pr_number
       repo_full_name_ access_token_ owner repo_name_ b db changes s n).
Proof.
  assert (forall (A : Type) (c : M A) ks,
             emits (within ks) any c -> ~ In KCreateOrUpdateFile ks ->
             emits (fun e => forall v, written_branch e = Some v -> v = PStr b)
               any c) as Sub.
  { intros A c ks Hc Hks. eapply emits_sub; [exact Hc|].
    intros e He v Hv. rewrite (no_write_within ks e Hks He) in Hv.
    discriminate. }
  unfold commit_and_report.
  apply emits_bind_any;
    [apply (Sub _ _ [KProgress]); [apply progress_footprint | not_in_kinds]|].
  intros _.
  apply emits_bind_any;
    [apply (Sub _ _ [KProgress]); [apply progress_footprint | not_in_kinds]|].
  intros _.
  apply emits_bind_any; [apply commit_changes_branch|].
  intros [commit [|f fs]]; [now apply emits_ret|].
  apply emits_bind_any;
    [apply (Sub _ _ [KProgress; KCreatePullRequest]);
     [apply pull_request_url_footprint | not_in_kinds]|].
  intros pr.
  apply emits_bind_any;
    [apply (Sub _ _ [KProgress]); [apply progress_footprint | not_in_kinds]|].
  intros _. now apply emits_ret.
Qed.

(** Every write call of a run names one and the same branch, the working
    branch: the branch of the caller in continuation mode, a branch under
    [amadeus/] otherwise.  A success reports that branch. *)
Theorem writes_go_to_the_working_branch (L : PyLib) (W : World) (user : User)
  (prompt : string) (on_progress : option (callback WorkflowProgress))
  (on_stream : option (callback StreamingUpdate)) (create_pr : bool)
  (history : option (list pyval)) (existing_branch : option string)
  (existing_pr_number : option Z) (tr : trace) :
  exists evs o b,
    execute L W user prompt on_progress on_stream create_pr history
      existing_branch existing_pr_number tr = (tr ++ evs, o)
    /\ Forall (fun e => forall v, written_branch e = Some v -> v = PStr b) evs
    /\ working_branch existing_branch b
    /\ (forall r, o = Ok r -> success r = true -> branch r = Some b).
Proof.
  set (Q := fun (evs : list event) (o : outcome WorkflowResult) =>
              exists b,
                Forall (fun e => forall v, written_branch e = Some v ->
                                           v = PStr b) evs
                /\ working_branch existing_branch b
                /\ (forall r, o = Ok r -> success r = true ->
                              branch r = Some b)).
  assert (forall evs o,
             Forall (fun e => written_branch e = None) evs ->
             (forall r, o = Ok r -> success r = false) ->
             Q evs o) as Quiet.
  { intros evs o HF Ho.
    destruct (working_branch_exists existing_branch) as [b Hb].
    exists b. split; [|split; [exact Hb|]].
    - eapply Forall_impl; [|exact HF]. intros e He v Hv.
      rewrite He in Hv. discriminate.
    - intros r E Hs. rewrite (Ho r E) in Hs. discriminate. }
  assert (spec (execute L W user prompt on_progress on_stream create_pr history
                  existing_branch existing_pr_number) Q) as Hspec.
  { unfold execute.
    destruct (negb (is_connected (github user))).
    { apply spec_ret. apply Quiet; [constructor|].
      intros r E. now inversion E. }
    destruct (negb (truthy_str (selected_repo (github user)))).
    { apply spec_ret. apply Quiet; [constructor|].
      intros r E. now inversion E. }
    cbv zeta.
    eapply spec_bind with (Q1 := fun evs _ => evs = []).
    { apply spec_lift. reflexivity. }
    2: { intros evs1 e ->. apply Quiet; [constructor | discriminate]. }
    intros evs1 [owner repo_name_] ->. cbn [app].
    eapply spec_try
      with (Q1 := fun evs o =>
                    Q evs o
                    /\ (forall e, o = Raise e ->
                                  Forall (fun _ => True) evs)).
    2: { intros evs a [H _]. exact H. }
    2: { intros evs2 e [(b & HF & Hb & _) _]. unfold workflow_failed.
         apply spec_ret. rewrite app_nil_r. exists b.
         split; [exact HF|]. split; [exact Hb|].
         intros r E Hs. inversion E; subst. discriminate. }
    eapply spec_conseq
      with (Q1 := Q); [|intros evs o H; split;
                         [exact H | intros; now apply Forall_forall]].
    unfold execute_body.
    eapply spec_bind.
    - apply (prepare_emits L W user prompt on_progress on_stream history
               existing_branch _ _ owner repo_name_
               (fun e => written_branch e = None)
               (working_branch existing_branch) any).
      + intros e He.
        apply (no_write_within [KProgress; KGetRepo; KGetBranchSha]);
          [not_in_kinds | exact He].
      + intros sha_. eapply emits_sub; [apply resolve_branch_working|].
        intros e He.
        apply (no_write_within [KProgress; KCreateBranch]);
          [not_in_kinds | exact He].
      + intros db. eapply emits_sub.
        * eapply emits_any. apply generate_changes_nonempty.
        * intros e He.
          apply (no_write_within [KProgress; KGetTree; KOpenStream; KStream]);
            [not_in_kinds | exact He].
    - intros evs1 a [HF Ha]. specialize (Ha a eq_refl).
      destruct a as [r | [[b db] [[c s] n]]]; simpl in Ha.
      + destruct Ha as (m & e & ->). apply spec_ret. rewrite app_nil_r.
        apply Quiet; [exact HF|]. intros r E. now inversion E.
      + destruct Ha as [Hb _].
        eapply spec_conseq.
        * apply (emits_conj _ _ _ _ _
                   (commit_and_report_branch L W prompt on_progress create_pr
                      existing_pr_number _ _ owner repo_name_ b db c s n)
                   (commit_and_report_shape L W prompt on_progress create_pr
                      existing_pr_number _ _ owner repo_name_ b db c s n)).
        * intros evs2 o [HF2 HR]. exists b. split; [|split; [exact Hb|]].
          -- apply Forall_app. split.
             ++ eapply Forall_impl; [|exact HF]. intros e He v Hv.
                rewrite He in Hv. discriminate.
             ++ eapply Forall_impl; [|exact HF2]. intros e [He _]. exact He.
          -- intros r E Hs. destruct (HR r E) as [_ Hshape].
             inversion Hshape as [m e Er | ? ? ? b0 ? ? ? ? Hb0 Er]; subst.
             ++ discriminate.
             ++ reflexivity.
    - intros evs1 e [HF _]. apply Quiet; [exact HF | discriminate]. }
  destruct (Hspec tr) as (evs & o & E & b & HF & Hb & Hr).
  now exists evs, o, b.
Qed.

(** ** The progress of a run *)

Lemma percentages_app (evs1 evs2 : list event) :
  percentages (evs1 ++ evs2) = percentages evs1 ++ percentages evs2.
Proof. unfold percentages. apply flat_map_app. Qed.

Lemma percentages_none (ks : list kind) (evs : list event) :
  ~ In KProgress ks -> Forall (within ks) evs -> percentages evs = [].
Proof.
  intros Hks H. induction H as [|e evs He _ IH]; [reflexivity|].
  change (e :: evs) with ([e] ++ evs). rewrite percentages_app, IH, app_nil_r.
  destruct e; try reflexivity. unfold within in He. simpl in He. contradiction.
Qed.

Lemma increasing_from_weaken (lo lo' : Z) (l : list Z) :
  (lo' <= lo)%Z -> increasing_from lo l = true -> increasing_from lo' l = true.
Proof.
  destruct l as [|x l]; [reflexivity|]. simpl. intros Hle H.
  apply andb_prop in H. destruct H as [H1 H2]. apply Z.ltb_lt in H1.
  rewrite H2, andb_true_r. apply Z.ltb_lt. lia.
Qed.

Lemma last_default (l : list Z) (d d' : Z) : l <> [] -> last l d = last l d'.
Proof.
  intros H. destruct (exists_last H) as (l0 & x & ->). now rewrite !last_last.
Qed.

Lemma increasing_from_app (lo : Z) (l1 l2 : list Z) :
  increasing_from lo l1 = true ->
  increasing_from (last l1 lo) l2 = true ->
  increasing_from lo (l1 ++ l2) = true.
Proof.
  revert lo. induction l1 as [|x l1 IH]; intros lo H1 H2; [exact H2|].
  simpl in H1. apply andb_prop in H1. destruct H1 as [Hx H1].
  cbn [app increasing_from]. rewrite Hx. cbn [andb]. apply IH; [exact H1|].
  destruct l1 as [|y l1]; [exact H2|].
  rewrite (last_default (y :: l1) x lo); [exact H2 | discriminate].
Qed.

Lemma last_app_nonempty (l1 l2 : list Z) (d d' : Z) :
  l2 <> [] -> last (l1 ++ l2) d = last l2 d'.
Proof.
  intros H. destruct (exists_last H) as (l & x & ->).
  rewrite app_assoc, !last_last. reflexivity.
Qed.

Lemma paced_bind {A B : Type} (lo mid hi : Z) (R1 : A -> Prop) (R : B -> Prop)
  (c : M A) (k : A -> M B) :
  paced lo mid R1 c -> (mid <= hi)%Z ->
  (forall a, R1 a -> paced mid hi R (k a)) ->
  paced lo hi R (bind c k).
Proof.
  intros Hc Hle Hk. eapply spec_bind; [exact Hc | |].
  - intros evs1 a (I1 & B1 & HR1).
    eapply spec_conseq; [apply Hk; now apply HR1|].
    intros evs2 o (I2 & B2 & HR2). cbv beta. rewrite percentages_app.
    split; [|split; [|exact HR2]].
    + apply increasing_from_app; [exact I1|].
      eapply increasing_from_weaken; [|exact I2]. lia.
    + destruct (percentages evs2) as [|x l2] eqn:E2.
      * rewrite app_nil_r. simpl in B2. lia.
      * rewrite (last_app_nonempty _ (x :: l2) lo mid); [lia | discriminate].
  - intros evs1 e (I1 & B1 & _). split; [exact I1|]. split; [lia | discriminate].
Qed.

Lemma paced_quiet {A : Type} (ks : list kind) (lo hi : Z) (R : A -> Prop)
  (c : M A) :
  emits (within ks) R c -> ~ In KProgress ks -> (lo <= hi)%Z ->
  paced lo hi R c.
Proof.
  intros Hc Hks Hle. eapply spec_conseq; [exact Hc|].
  intros evs o [HF HR]. cbv beta.
  rewrite (percentages_none ks evs Hks HF). simpl.
  split; [reflexivity|]. split; [lia | exact HR].
Qed.

Lemma paced_ret {A : Type} (lo hi : Z) (R : A -> Prop) (a : A) :
  (lo <= hi)%Z -> R a -> paced lo hi R (ret a).
Proof.
  intros Hle Ha. apply (paced_quiet []); [|simpl; tauto | exact Hle].
  now apply emits_ret.
Qed.

Lemma paced_progress (cb : option (callback WorkflowProgress))
  (step_ msg : string) (lo p hi : Z) :
  (lo < p <= hi)%Z -> paced lo hi any (progress cb step_ msg p).
Proof.
  intros Hp. unfold progress. destruct cb as [cb|].
  - intros tr. eexists _, _. split; [reflexivity|]. simpl.
    split; [|split; [lia | intros; exact I]].
    rewrite andb_true_r. apply Z.ltb_lt. lia.
  - apply paced_ret; [lia | exact I].
Qed.

Lemma paced_any {A : Type} (lo hi : Z) (R : A -> Prop) (c : M A) :
  paced lo hi R c -> paced lo hi any c.
Proof.
  intros H. eapply spec_conseq; [exact H|].
  intros evs o (I1 & B1 & _). split; [exact I1|]. split; [exact B1|].
  intros; exact I.
Qed.

Lemma paced_try {A : Type} (lo hi : Z) (c : M A) (a : exn -> A) :
  paced lo hi any c -> paced lo hi any (try_except c (fun e => ret (a e))).
Proof.
  intros Hc. eapply spec_try; [exact Hc | |].
  - intros evs x H. exact H.
  - intros evs1 e (I1 & B1 & _). apply spec_ret. rewrite app_nil_r.
    split; [exact I1|]. split; [exact B1 | intros; exact I].
Qed.

(** One step of a walk along the binds of a computation: a report of
    progress moves the lower bound up to its percentage, any other step
    leaves it. *)
Ltac paced_quiet_leaf :=
  first
    [ apply paced_ret; [lia | exact I]
    | apply (paced_quiet []);
      [ first [ apply emits_lift; intros; exact I
              | apply emits_raise
              | eapply emits_any; apply _simple_file_creation_single
              | solve [eauto with footprint] ]
      | not_in_kinds | lia ]
    | eapply paced_quiet;
      [ solve [eauto with footprint] | not_in_kinds | lia ] ].

Ltac paced_step :=
  match goal with
  | |- paced ?lo ?hi _ (bind (progress _ _ _ ?p) _) =>
      apply (paced_bind lo p hi any);
      [ apply paced_progress; lia | lia | intros _ _ ]
  | |- paced ?lo ?hi _ (bind _ _) =>
      apply (paced_bind lo lo hi any); [ paced_quiet_leaf | lia | intros ? _ ]
  | |- paced _ _ _ (progress _ _ _ _) => apply paced_progress; lia
  | |- paced _ _ _ (match ?x with _ => _ end) => destruct x
  | |- paced _ _ _ _ => paced_quiet_leaf
  end.

Section Progress.

Variable L : PyLib.
Variable W : World.
Variable user : User.
Variable prompt : string.
Variable on_progress : option (callback WorkflowProgress).
Variable on_stream : option (callback StreamingUpdate).
Variable create_pr : bool.
Variable history : option (list pyval).
Variable existing_branch : option string.
Variable existing_pr_number : option Z.
Variable repo_full_name_ access_token_ owner repo_name_ : string.

Lemma resolve_branch_paced (base_sha : pyval) :
  paced 20 30 any
    (resolve_branch W prompt on_progress existing_branch access_token_ owner
       repo_name_ base_sha).
Proof. unfold resolve_branch. repeat paced_step. Qed.

Lemma generate_changes_paced (db : pyval) :
  paced 30 50 any
    (generate_changes L W user prompt on_progress on_stream history
       access_token_ owner repo_name_ db).
Proof.
  unfold generate_changes. do 3 paced_step. cbv zeta.
  apply (paced_bind 50 50 50 any); [|lia|].
  - destruct (negb _ && negb _).
    + repeat paced_step.
    + eapply paced_quiet;
        [eapply emits_any; apply _generate_ai_changes_nonempty
        | not_in_kinds | lia].
  - intros [[[|c cs] s] n] _; repeat paced_step.
Qed.

Lemma prepare_paced :
  paced 0 50 any
    (prepare L W user prompt on_progress on_stream history existing_branch
       repo_full_name_ access_token_ owner repo_name_).
Proof.
  unfold prepare. do 2 paced_step. paced_step; [|repeat paced_step].
  do 2 paced_step. paced_step; [repeat paced_step|].
  apply (paced_bind 20 30 50 any);
    [apply resolve_branch_paced | lia|].
  intros [res | b] _; [repeat paced_step|].
  apply (paced_bind 30 50 50 any);
    [apply generate_changes_paced | lia|].
  intros g _. repeat paced_step.
Qed.

Lemma pull_request_url_paced (b : string) (db : pyval) (files : list pyval) :
  paced 80 90 any
    (pull_request_url L W prompt on_progress create_pr existing_pr_number
       repo_full_name_ access_token_ owner repo_name_ b db files).
Proof. unfold pull_request_url. repeat paced_step. Qed.

Lemma commit_and_report_paced (b : string) (db : pyval)
  (changes : list FileChange) (s n : pyval) :
  paced 50 100 any
    (commit_and_report L W prompt on_progress create_pr existing_pr_number
       repo_full_name_ access_token_ owner repo_name_ b db changes s n).
Proof.
  unfold commit_and_report. do 2 paced_step.
  apply (paced_bind 80 80 100 any);
    [eapply paced_quiet;
     [apply commit_changes_footprint | not_in_kinds | lia] | lia |].
  intros [commit [|f fs]] _; [repeat paced_step|].
  apply (paced_bind 80 90 100 any);
    [apply pull_request_url_paced | lia|].
  intros pr _. repeat paced_step.
Qed.

End Progress.

Lemma execute_paced (L : PyLib) (W : World) (user : User) (prompt : string)
  (on_progress : option (callback WorkflowProgress))
  (on_stream : option (callback StreamingUpdate)) (create_pr : bool)
  (history : option (list pyval)) (existing_branch : option string)
  (existing_pr_number : option Z) :
  paced 0 100 any
    (execute L W user prompt on_progress on_stream create_pr history
       existing_branch existing_pr_number).
Proof.
  unfold execute.
  destruct (negb (is_connected (github user))); [paced_step|].
  destruct (negb (truthy_str (selected_repo (github user)))); [paced_step|].
  cbv zeta. paced_step. destruct a as [owner_ repo_].
  unfold workflow_failed. apply paced_try.
  unfold execute_body.
  apply (paced_bind 0 50 100 any); [apply prepare_paced | lia |].
  intros [r | [[b db] [[c s] n]]] _; [repeat paced_step|].
  apply commit_and_report_paced.
Qed.

Lemma completes_after {A : Type} (on_progress : option (callback WorkflowProgress))
  (P : event -> Prop) (R : A -> Prop) (c : M A) (k : A -> M WorkflowResult) :
  emits P R c ->
  (forall a, R a -> spec (k a) (completes on_progress)) ->
  spec (bind c k) (completes on_progress).
Proof.
  intros Hc Hk. eapply spec_bind; [exact Hc | |].
  - intros evs1 a [_ Ha]. eapply spec_conseq; [apply Hk; now apply Ha|].
    intros evs2 o H r cb Eo Hs Ecb.
    destruct (H r cb Eo Hs Ecb) as [pre Hpre].
    exists (percentages evs1 ++ pre).
    now rewrite percentages_app, Hpre, app_assoc.
  - intros evs1 e _ r cb Eo. discriminate.
Qed.

Lemma completes_failure (on_progress : option (callback WorkflowProgress))
  (m e : string) :
  spec (ret (failure m e)) (completes on_progress).
Proof. apply spec_ret. intros r cb Eo Hs. inversion Eo; subst. discriminate. Qed.

Lemma commit_and_report_completes (L : PyLib) (W : World) (prompt : string)
  (on_progress : option (callback WorkflowProgress)) (create_pr : bool)
  (existing_pr_number : option Z)
  (repo_full_name_ access_token_ owner repo_name_ b : string) (db : pyval)
  (changes : list FileChange) (s n : pyval) :
  spec (commit_and_report L W prompt on_progress create_pr existing_pr_number
          repo_full_name_ access_token_ owner repo_name_ b db changes s n)
    (completes on_progress).
Proof.
  unfold commit_and_report.
  eapply completes_after; [apply progress_footprint|]. intros _ _.
  eapply completes_after; [apply progress_footprint|]. intros _ _.
  eapply completes_after; [apply commit_changes_footprint|].
  intros [commit [|f fs]] _; [apply completes_failure|].
  eapply completes_after; [apply pull_request_url_footprint|]. intros pr _.
  intros tr. unfold bind, progress. destruct on_progress as [cb|].
  - destruct (cb tr (mk_progress "done" "✅ Done!" 100 None)) eqn:Ecb.
    + eexists _, _. split; [reflexivity|].
      intros r cb' _ _ _. now exists [].
    + eexists _, _. split; [reflexivity|]. intros r cb' Eo. discriminate.
  - eexists [], _. unfold ret. rewrite app_nil_r. split; [reflexivity|].
    intros r cb' _ _ Ecb. discriminate.
Qed.

Lemma execute_completes (L : PyLib) (W : World) (user : User) (prompt : string)
  (on_progress : option (callback WorkflowProgress))
  (on_stream : option (callback StreamingUpdate)) (create_pr : bool)
  (history : option (list pyval)) (existing_branch : option string)
  (existing_pr_number : option Z) :
  spec (execute L W user prompt on_progress on_stream create_pr history
          existing_branch existing_pr_number)
    (completes on_progress).
Proof.
  unfold execute.
  destruct (negb (is_connected (github user))); [apply completes_failure|].
  destruct (negb (truthy_str (selected_repo (github user))));
    [apply completes_failure|].
  cbv zeta.
  apply (completes_after on_progress (fun _ => True) any);
    [apply emits_lift; intros; exact I|].
  intros [owner repo_name_] _.
  eapply spec_try
    with (Q1 := fun evs o => completes on_progress evs o).
  - unfold execute_body.
    eapply completes_after; [apply prepare_quiet|].
    intros [r | [[b db] [[c s] n]]] Hp; simpl in Hp.
    + destruct Hp as (m & e & ->). apply completes_failure.
    + apply commit_and_report_completes.
  - intros evs a H. exact H.
  - intros evs1 e _. unfold workflow_failed. apply spec_ret.
    intros r cb Eo Hs. inversion Eo; subst. discriminate.
Qed.

(** The percentages that a run reports to [on_progress] only advance: each
    is greater than the one before it, and all lie above 0 and at most at
    100, also when the run fails or a callback raises.  A run that returns
    a success has reported 100 last. *)
Theorem progress_only_advances (L : PyLib) (W : World) (user : User)
  (prompt : string) (on_progress : option (callback WorkflowProgress))
  (on_stream : option (callback StreamingUpdate)) (create_pr : bool)
  (history : option (list pyval)) (existing_branch : option string)
  (existing_pr_number : option Z) (tr : trace) :
  exists evs o,
    execute L W user prompt on_progress on_stream create_pr history
      existing_branch existing_pr_number tr = (tr ++ evs, o)
    /\ increasing_from 0 (percentages evs) = true
    /\ Forall (fun p => (0 < p <= 100)%Z) (percentages evs)
    /\ (forall r cb,
          o = Ok r -> success r = true -> on_progress = Some cb ->
          last (percentages evs) 0%Z = 100%Z).
Proof.
  destruct (execute_paced L W user prompt on_progress on_stream create_pr
              history existing_branch existing_pr_number tr)
    as (evs & o & E & Hinc & Hlast & _).
  destruct (execute_completes L W user prompt on_progress on_stream create_pr
              history existing_branch existing_pr_number tr)
    as (evs' & o' & E' & Hc).
  rewrite E in E'. inversion E' as [[Ee Eo]].
  apply app_inv_head in Ee. subst evs' o'.
  exists evs, o. split; [exact E|]. split; [exact Hinc|]. split.
  - assert (forall l lo,
               increasing_from lo l = true -> (last l lo <= 100)%Z ->
               Forall (fun p => (lo < p <= 100)%Z) l) as Bound.
    { induction l as [|x l IH]; intros lo Hi Hl; [constructor|].
      simpl in Hi. apply andb_prop in Hi. destruct Hi as [Hx Hi].
      apply Z.ltb_lt in Hx.
      assert (last (x :: l) lo = last l x) as El.
      { destruct l as [|y l]; [reflexivity|].
        apply (last_default (y :: l)). discriminate. }
      rewrite El in Hl. specialize (IH x Hi Hl).
      assert (x <= 100)%Z as Hx100.
      { destruct l as [|y l]; [simpl in Hl; lia|].
        inversion IH; subst. lia. }
      constructor; [lia|].
      eapply Forall_impl; [|exact IH]. intros p Hp. simpl in Hp. lia. }
    apply Bound; [exact Hinc | lia].
  - intros r cb Eo Hs Ecb. destruct (Hc r cb Eo Hs Ecb) as [pre ->].
    apply last_last.
Qed.

(** ** The first step of a run *)

Lemma split_owner_repo (owner repo : string) :
  Re.all_chars (fun c => negb (Ascii.eqb c "/"%char)) owner = true ->
  Re.all_chars (fun c => negb (Ascii.eqb c "/"%char)) repo = true ->
  Str.split "/"%char (owner +++ "/" +++ repo) = [owner; repo].
Proof.
  intros Ho Hr.
  change (owner +++ "/" +++ repo) with (owner +++ String "/"%char repo).
  now rewrite split_app_sep, !split_without_sep.
Qed.

(** When GitHub does not answer the request for the selected repository
    with status 200 and a body, the run ends there: after the first report
    of progress and that one request, [execute] returns the failure
    [Repository not found], which names the repository, and makes no other
    call. *)
Theorem repository_not_found_stops_the_run (L : PyLib) (W : World)
  (user : User) (prompt : string)
  (on_progress : option (callback WorkflowProgress))
  (on_stream : option (callback StreamingUpdate)) (create_pr : bool)
  (history : option (list pyval)) (existing_branch : option string)
  (existing_pr_number : option Z) (token owner repo : string) (tr : trace) :
  quiet on_progress ->
  access_token (github user) = Some token ->
  selected_repo (github user) = Some (owner +++ "/" +++ repo) ->
  Re.all_chars (fun c => negb (Ascii.eqb c "/"%char)) owner = true ->
  Re.all_chars (fun c => negb (Ascii.eqb c "/"%char)) repo = true ->
  (forall tr0, exists status data,
      request W tr0 token "GET" ("/repos/" +++ owner +++ "/" +++ repo) PNone
      = Ok (status, data)
      /\ not_200_or_empty status data = true) ->
  exists reports status data,
    execute L W user prompt on_progress on_stream create_pr history
      existing_branch existing_pr_number tr
    = (tr ++ reports
          ++ [EvRequest ApiGetRepo "GET" ("/repos/" +++ owner +++ "/" +++ repo)
                PNone (Ok (status, data))],
       Ok (failure "Repository not found"
             ("Could not access " +++ owner +++ "/" +++ repo)))
    /\ Forall (within [KProgress]) reports
    /\ not_200_or_empty status data = true.
Proof.
  intros Hq Ht Hs Ho Hr Hreq.
  unfold execute, is_connected. rewrite Ht, Hs. cbn [negb].
  assert (truthy_str (Some (owner +++ "/" +++ repo)) = true) as Etruthy.
  { unfold truthy_str. now destruct owner. }
  rewrite Etruthy. cbn [negb key_of]. cbv zeta.
  unfold bind at 1. unfold lift. rewrite (split_owner_repo owner repo Ho Hr).
  cbn [unpack_pair].
  unfold try_except, execute_body, prepare.
  unfold bind at 1. unfold bind at 1.
  assert (exists reports,
             progress on_progress "init" "📡 Connecting to repo..." 10 tr
             = (tr ++ reports, Ok tt)
             /\ Forall (within [KProgress]) reports) as (reports & Ep & HF).
  { unfold progress. destruct on_progress as [cb|].
    - eexists. rewrite (Hq cb eq_refl). split; [reflexivity|].
      repeat constructor.
    - exists []. unfold ret. rewrite app_nil_r. split; [reflexivity|constructor]. }
  rewrite Ep. unfold bind at 1. unfold get_repo. unfold bind at 1.
  unfold _request.
  destruct (Hreq (tr ++ reports)) as (status & data & Er & Hn).
  rewrite Er, Hn. unfold ret.
  exists reports, status, data. rewrite <- app_assoc. auto.
Qed.

(** The repository of the scenarios does not hold [owner/gone]. *)
Lemma repository_not_found_stops_the_run_witness :
  exists reports status data,
    execute Scenario.lib (Scenario.world_with Scenario.stream_ok)
      (mk_user (mk_api_keys None (Some "sk-ant-key"))
         (mk_settings (Some "claude-sonnet-4-20250514"))
         (mk_github (Some "ghp_token") (Some ("owner" +++ "/" +++ "gone"))))
      "fix the bug" Scenario.listen Scenario.listen true None None None []
    = ([] ++ reports
          ++ [EvRequest ApiGetRepo "GET" ("/repos/" +++ "owner" +++ "/" +++ "gone")
                PNone (Ok (status, data))],
       Ok (failure "Repository not found"
             ("Could not access " +++ "owner" +++ "/" +++ "gone")))
    /\ Forall (within [KProgress]) reports
    /\ not_200_or_empty status data = true.
Proof.
  apply (repository_not_found_stops_the_run Scenario.lib
           (Scenario.world_with Scenario.stream_ok)
           (mk_user (mk_api_keys None (Some "sk-ant-key"))
              (mk_settings (Some "claude-sonnet-4-20250514"))
              (mk_github (Some "ghp_token") (Some ("owner" +++ "/" +++ "gone"))))
           "fix the bug" Scenario.listen Scenario.listen true None None None
           "ghp_token" "owner" "gone" []).
  - intros f Hf tr a. inversion Hf. reflexivity.
  - reflexivity.
  - reflexivity.
  - reflexivity.
  - reflexivity.
  - intros tr0. exists 404%Z, (PDict [("message", PStr "Not Found")]).
    split; reflexivity.
Defined.

(** ** Failures before the changes are asked for *)

Lemma stops_early_after {A B : Type} (message_of : B -> option string)
  (ks : list kind) (R : A -> Prop) (c : M A) (k : A -> M B) :
  emits (within ks) R c -> incl ks early_kinds ->
  (forall a, R a -> spec (k a) (stops_early message_of)) ->
  spec (bind c k) (stops_early message_of).
Proof.
  intros Hc Hks Hk. eapply spec_bind; [exact Hc | |].
  - intros evs1 a [HF Ha]. eapply spec_conseq; [apply Hk; now apply Ha|].
    intros evs2 o H b m Eo Hm Hin. apply Forall_app. split.
    + eapply Forall_impl; [|exact HF]. intros e. now apply within_incl.
    + now apply (H b m).
  - intros evs1 e _ b m Eo. discriminate.
Qed.

Lemma stops_early_ret {A : Type} (message_of : A -> option string) (a : A) :
  spec (ret a) (stops_early message_of).
Proof. apply spec_ret. intros b m _ _ _. constructor. Qed.

Lemma prepare_stops_early (L : PyLib) (W : World) (user : User)
  (prompt : string) (on_progress : option (callback WorkflowProgress))
  (on_stream : option (callback StreamingUpdate))
  (history : option (list pyval)) (existing_branch : option string)
  (repo_full_name_ access_token_ owner repo_name_ : string) :
  spec (prepare L W user prompt on_progress on_stream history existing_branch
          repo_full_name_ access_token_ owner repo_name_)
    (stops_early early_result).
Proof.
  unfold prepare.
  eapply stops_early_after; [apply progress_footprint | kinds_incl|]. intros _ _.
  eapply stops_early_after; [apply get_repo_footprint | kinds_incl|].
  intros [repo_|] _; [|apply stops_early_ret].
  eapply stops_early_after; [apply progress_footprint | kinds_incl|]. intros _ _.
  eapply stops_early_after; [apply get_branch_sha_footprint | kinds_incl|].
  intros base_sha _.
  destruct (negb (Py.truthy base_sha)); [apply stops_early_ret|].
  eapply stops_early_after; [apply resolve_branch_fresh | kinds_incl|].
  intros [r | b] _; [apply stops_early_ret|].
  eapply spec_bind.
  - apply generate_changes_nonempty.
  - intros evs1 g _. apply spec_ret. intros a m Eo Hm. inversion Eo; subst.
    discriminate.
  - intros evs1 e _ a m Eo. discriminate.
Qed.

Lemma commit_and_report_message (L : PyLib) (W : World) (prompt : string)
  (on_progress : option (callback WorkflowProgress)) (create_pr : bool)
  (existing_pr_number : option Z)
  (repo_full_name_ access_token_ owner repo_name_ b : string) (db : pyval)
  (changes : list FileChange) (s n : pyval) :
  emits (within [KProgress; KGetFileContent; KCreateOrUpdateFile;
                 KCreatePullRequest])
    (fun r => message r = "No changes committed"
              \/ message r = "Changes pushed successfully!")
    (commit_and_report L W prompt on_progress create_pr existing_pr_number
       repo_full_name_ access_token_ owner repo_name_ b db changes s n).
Proof. unfold commit_and_report. emits_walk ltac:(simpl; auto). Qed.

(** A run that returns one of the failures of the steps before the changes
    are asked for (GitHub not connected, no repository selected, repository
    not found, no hash of the default branch, branch not created) has made
    no call beyond those of these steps: no request for the tree, no call
    of a model provider, no read or write of a file and no pull request. *)
Theorem early_failures_touch_nothing (L : PyLib) (W : World) (user : User)
  (prompt : string) (on_progress : option (callback WorkflowProgress))
  (on_stream : option (callback StreamingUpdate)) (create_pr : bool)
  (history : option (list pyval)) (existing_branch : option string)
  (existing_pr_number : option Z) (tr : trace) :
  exists evs o,
    execute L W user prompt on_progress on_stream create_pr history
      existing_branch existing_pr_number tr = (tr ++ evs, o)
    /\ (forall r, o = Ok r -> In (message r) early_messages ->
          Forall (within early_kinds) evs /\ put_log evs = []).
Proof.
  assert (spec (execute L W user prompt on_progress on_stream create_pr history
                  existing_branch existing_pr_number)
            (stops_early (fun r => Some (message r)))) as Hspec.
  { unfold execute.
    destruct (negb (is_connected (github user))); [apply stops_early_ret|].
    destruct (negb (truthy_str (selected_repo (github user))));
      [apply stops_early_ret|].
    cbv zeta.
    apply (stops_early_after _ [] any);
      [apply emits_lift; intros; exact I | kinds_incl|].
    intros [owner repo_name_] _.
    eapply spec_try
      with (Q1 := stops_early (fun r => Some (message r))).
    - unfold execute_body. eapply spec_bind.
      + apply prepare_stops_early.
      + intros evs1 [r | [[b db] [[c s] n]]] H1.
        * apply spec_ret. rewrite app_nil_r. intros a m Eo Hm Hin.
          inversion Eo; subst a. inversion Hm; subst m.
          now apply (H1 (inl r) (message r)).
        * eapply spec_conseq; [apply commit_and_report_message|].
          intros evs2 o [_ HR] a m Eo Hm Hin. exfalso.
          inversion Hm; subst m.
          destruct (HR a Eo) as [E | E]; rewrite E in Hin;
            simpl in Hin; intuition discriminate.
      + intros evs1 e _ a m Eo. discriminate.
    - intros evs a H. exact H.
    - intros evs1 e _. unfold workflow_failed. apply spec_ret.
      intros a m Eo Hm Hin. exfalso. inversion Eo; subst a.
      inversion Hm; subst m. simpl in Hin. intuition discriminate. }
  destruct (Hspec tr) as (evs & o & E & H).
  exists evs, o. split; [exact E|]. intros r Eo Hin.
  pose proof (H r (message r) Eo eq_refl Hin) as HF.
  split; [exact HF|].
  apply (put_log_none early_kinds); [unfold early_kinds; not_in_kinds | exact HF].
Qed.

(** ** A code block that is not closed *)

(** An answer that starts with a line of three backquotes and a language
    name and is not closed by another such line is parsed as the answer
    alone: the first line is dropped and nothing else. *)
Theorem parse_unterminated_fence (L : PyLib) (lang body : string) :
  Re.all_chars (fun c => negb (Ascii.eqb c Str.nl_char)) lang = true ->
  Str.strip (fence +++ lang +++ Str.nl +++ body)
  = fence +++ lang +++ Str.nl +++ body ->
  (Str.strip (last (Str.split Str.nl_char body) EmptyString) =? fence)%string
  = false ->
  Str.strip body = body -> Str.startswith fence body = false ->
  strip_code_block (fence +++ lang +++ Str.nl +++ body) = body
  /\ _parse_ai_response_with_meta L (fence +++ lang +++ Str.nl +++ body)
     = _parse_ai_response_with_meta L body.
Proof.
  intros Hlang Hs Hlast Hb Hf.
  assert (strip_code_block (fence +++ lang +++ Str.nl +++ body) = body) as E.
  { unfold strip_code_block. rewrite Hs.
    assert (Str.startswith fence (fence +++ lang +++ Str.nl +++ body) = true)
      as Ep.
    { unfold Str.startswith. apply prefix_self_app. }
    rewrite Ep.
    assert (Str.split Str.nl_char (fence +++ lang +++ Str.nl +++ body)
            = (fence +++ lang) :: Str.split Str.nl_char body) as El.
    { change (fence +++ lang +++ Str.nl +++ body)
        with (fence +++ (lang +++ String Str.nl_char body)).
      rewrite <- append_assoc, split_app_sep.
      rewrite split_without_sep; [reflexivity|].
      simpl. exact Hlang. }
    rewrite El.
    destruct (Str.split Str.nl_char body) as [|w ws] eqn:Es;
      [now apply split_not_nil in Es|].
    change (last ((fence +++ lang) :: w :: ws) EmptyString)
      with (last (w :: ws) EmptyString).
    rewrite Hlast. cbn [tl]. rewrite <- Es.
    apply (join_split Str.nl_char). }
  split; [exact E|].
  unfold _parse_ai_response_with_meta. rewrite E.
  unfold strip_code_block. now rewrite Hb, Hf.
Qed.

(** The answer with two files behind an opening line that is not closed. *)
Lemma parse_unterminated_fence_witness :
  strip_code_block (fence +++ "json" +++ Str.nl +++ Scenario.full_json)
  = Scenario.full_json
  /\ _parse_ai_response_with_meta Scenario.lib
       (fence +++ "json" +++ Str.nl +++ Scenario.full_json)
     = _parse_ai_response_with_meta Scenario.lib Scenario.full_json.
Proof.
  apply (parse_unterminated_fence Scenario.lib "json" Scenario.full_json).
  - reflexivity.
  - vm_compute. reflexivity.
  - vm_compute. reflexivity.
  - vm_compute. reflexivity.
  - reflexivity.
Defined.
